(** * modmail: extension modes, plugin manifests and the lockfile hash check

    A shallow embedding of the parts of the modmail bot that carry logic:

    - [modmail/utils/cogs.py]: the [BotModes] bit-flag enumeration, the
      [ExtMetadata] dataclass and [calc_mode];
    - [modmail/extensions/meta.py]: the [EXT_METADATA] declaration of the
      Meta cog;
    - [scripts/export_requirements.py]: [check_hash], and [main] from the
      two loaded TOML files to the exit code, the text written and the lines
      printed, with the two patterns it matches;
    - [scripts/export_new_config_to_default_config.py]: [sort_dict];
    - [tests/modmail/addons/test_plugins.py]: the manifest literal and what
      the test expects of [parse_plugin_toml_from_string], [find_plugins] and
      [Plugin.convert]. The modules these three live in,
      [modmail/addons/plugins.py] and [modmail/addons/models.py], are not
      among the files; they are modelled from the specification, and every
      such definition says so.

    Python objects are modelled by their attribute dictionary, Python
    integers by [Z], Python exceptions by an error type; a dict whose order
    matters is an association list, the plugin registry a [gmap]. Strings
    are their UTF-8 bytes; the character tables of Python's [re] and [str],
    [json.dumps] and SHA-256 are parameters wherever a statement holds for
    any of them. *)

From Stdlib Require Import ZArith Lia Ascii.
From stdpp Require Import base strings list gmap fin_maps sorting.

#[local] Set Warnings "-register-all".
Local Open Scope Z_scope.

(** ** modmail/utils/cogs.py *)

Module Cogs.

(** [BitwiseAutoEnum._generate_next_value_(name, start, count, last_values)]:
    the hook that [auto()] calls for each member; [count] is the number of
    members defined so far. *)
Definition _generate_next_value_
    (name : string) (start : Z) (count : nat) (last_values : list Z) : Z :=
  Z.shiftl 1 (Z.of_nat count).

(** What the enum machinery does with a class body whose members are all
    [auto()]: members are visited in declaration order and each one gets the
    value the hook returns, [start] being 1. *)
Fixpoint assign_auto (names : list string) (count : nat) (last_values : list Z)
    : list (string * Z) :=
  match names with
  | [] => []
  | n :: rest =>
      let v := _generate_next_value_ n 1 count last_values in
      (n, v) :: assign_auto rest (S count) (last_values ++ [v])
  end.

Module BotModes.

Inductive t : Set := production | develop | plugin_dev.

Definition name (m : t) : string :=
  match m with
  | production => "production"
  | develop => "develop"
  | plugin_dev => "plugin_dev"
  end.

(** Declaration order of the class body. *)
Definition declared : list t := [production; develop; plugin_dev].

Definition index (m : t) : nat :=
  match m with production => 0 | develop => 1 | plugin_dev => 2 end%nat.

(** [BotModes.__members__] with the integer value of each member. *)
Definition members : list (string * Z) := assign_auto (name <$> declared) 0 [].

(** [int(BotModes.m)] *)
Definition value (m : t) : Z := nth (index m) (snd <$> members) 0.

End BotModes.

(** The dataclass [ExtMetadata]: three boolean fields, in this order. *)
Record ExtMetadata : Set := mkExtMetadata {
  production : bool;
  develop : bool;
  plugin_dev : bool
}.

(** The generated [__init__]: every field is a keyword with default
    [False]. *)
Definition ExtMetadata_init (production develop plugin_dev : option bool)
    : ExtMetadata :=
  {| production := default false production;
     develop := default false develop;
     plugin_dev := default false plugin_dev |}.

(** An instance as Python sees it: the attribute dictionary, in insertion
    order. [calc_mode] never looks at the class, only at attributes. *)
Definition pyobj : Type := list (string * bool).

Definition to_obj (md : ExtMetadata) : pyobj :=
  [("production", production md);
   ("develop", develop md);
   ("plugin_dev", plugin_dev md)].

(** [obj.name] as a lookup; [None] is where Python raises AttributeError. *)
Fixpoint lookup_attr (o : pyobj) (name : string) : option bool :=
  match o with
  | [] => None
  | (k, v) :: rest => if String.eqb k name then Some v else lookup_attr rest name
  end.

(** [getattr(o, name, default)] *)
Definition getattr (o : pyobj) (name : string) (dflt : bool) : bool :=
  default dflt (lookup_attr o name).

(** [int(b)] on a bool. *)
Definition py_int (b : bool) : Z := Z.b2z b.

(** [b << n] on a bool: the bool is an int first. *)
Definition py_lshift (b : bool) (n : Z) : Z := Z.shiftl (Z.b2z b) n.

(** [int(z)] on an int is that int. *)
Definition py_int_of_int (z : Z) : Z := z.

(** [x or y] on ints: [x] when it is truthy (non-zero), else [y]. *)
Definition py_or (x y : Z) : Z := if Z.eqb x 0 then y else x.

(** [calc_mode], statement by statement. *)
Definition calc_mode (metadata : pyobj) : Z :=
  let mode := py_int (getattr metadata "production" false) in
  let mode := mode + py_or (py_int_of_int (py_lshift (getattr metadata "develop" false) 1)) 0 in
  let mode := mode + Z.shiftl (py_int (getattr metadata "plugin_dev" false)) 2 in
  mode.

(** Modelled from the spec: the loader's eligibility test, which lives
    outside the files at hand: [mode_mask & extension_computed_mask != 0]. *)
Definition should_load (mode : BotModes.t) (ext_mask : Z) : bool :=
  negb (Z.eqb (Z.land (BotModes.value mode) ext_mask) 0).

End Cogs.

(** ** modmail/extensions/meta.py *)

Module Meta.

(** [EXT_METADATA = ExtMetadata()] *)
Definition EXT_METADATA : Cogs.ExtMetadata := Cogs.ExtMetadata_init None None None.

End Meta.


(** ** Results of fallible operations *)

Inductive result (E A : Type) : Type :=
| Ok (a : A)
| Err (e : E).
Arguments Ok {E A} a.
Arguments Err {E A} e.

(** Sequencing: the first error ends the computation, as a raised exception
    does. With the instance, [x ← r; k] is stdpp's notation for it. *)
#[export] Instance result_bind {E} : MBind (result E) := λ A B k r,
  match r with
  | Ok a => k a
  | Err e => Err e
  end.

#[export] Instance result_ret {E} : MRet (result E) := λ A a, Ok a.

Fixpoint rmapM {E A B} (f : A -> result E B) (l : list A) : result E (list B) :=
  match l with
  | [] => Ok []
  | a :: rest => b ← f a; bs ← rmapM f rest; Ok (b :: bs)
  end.

(** ** TOML documents *)

Module Toml.

(** Modelled from the spec: the values a TOML reader, a library outside the
    repository, hands back: strings, integers, booleans, tables and arrays.
    A table keeps its keys in document order. *)
Inductive value : Type :=
| String_ (s : string)
| Integer (z : Z)
| Boolean (b : bool)
| Table (fields : list (string * value))
| Array (items : list value).

Definition table : Type := list (string * value).

(** [t.get(key)] *)
Fixpoint get (t : table) (key : string) : option value :=
  match t with
  | [] => None
  | (k, v) :: rest => if String.eqb k key then Some v else get rest key
  end.

(** [entry.get(key)] on an array element: only a table has keys. *)
Definition entry_get (entry : value) (key : string) : option value :=
  match entry with
  | Table fields => get fields key
  | _ => None
  end.

End Toml.

(** *** A reader for the manifest fragment of TOML

    Modelled from the spec: the TOML reader is a library outside the
    repository ("parsed with a standard TOML reader"). This reader covers the
    part of TOML the manifest format of the spec's section 6 is written in:
    blank lines, comment lines, [[[key]]] array-of-tables headers and
    [key = "basic string"] pairs with bare keys and strings without escapes.
    Everything else is refused. *)

Module TomlFragment.

Definition is_blank (c : ascii) : bool :=
  match c with
  | " " | "009" | "013" => true
  | _ => false
  end%char.

(** [text.split("\n")] *)
Fixpoint lines (s : string) : list string :=
  match s with
  | EmptyString => [EmptyString]
  | String c rest =>
      if Ascii.eqb c "010" then EmptyString :: lines rest
      else match lines rest with
           | l :: ls => String c l :: ls
           | [] => [String c EmptyString]
           end
  end.

Fixpoint lstrip (s : string) : string :=
  match s with
  | String c rest => if is_blank c then lstrip rest else s
  | EmptyString => EmptyString
  end.

Definition strip (s : string) : string :=
  String.rev (lstrip (String.rev (lstrip s))).

(** A bare key: letters, digits, underscore and dash, at least one. *)
Definition is_bare_char (c : ascii) : bool :=
  let n := Ascii.N_of_ascii c in
  ((48 <=? n) && (n <=? 57) || (65 <=? n) && (n <=? 90)
   || (97 <=? n) && (n <=? 122) || (n =? 95) || (n =? 45))%N.

Fixpoint all_chars (p : ascii -> bool) (s : string) : bool :=
  match s with
  | EmptyString => true
  | String c rest => p c && all_chars p rest
  end.

Definition is_bare_key (s : string) : bool :=
  negb (String.eqb s EmptyString) && all_chars is_bare_char s.

(** Up to the first [c], and what follows it. *)
Fixpoint cut (c : ascii) (s : string) : option (string * string) :=
  match s with
  | EmptyString => None
  | String a rest =>
      if Ascii.eqb a c then Some (EmptyString, rest)
      else '(l, r) ← cut c rest; Some (String a l, r)
  end.

(** Without the given prefix, when it is one. *)
Fixpoint drop_prefix (p s : string) : option string :=
  match p, s with
  | EmptyString, _ => Some s
  | String a p', String b s' => if Ascii.eqb a b then drop_prefix p' s' else None
  | String _ _, EmptyString => None
  end.

Definition drop_suffix (p s : string) : option string :=
  String.rev <$> drop_prefix (String.rev p) (String.rev s).

(** The quotation mark, by its code. *)
Definition dquote : ascii := "034"%char.

(** A basic string with no escape in it: the text between the quotes, free
    of quotation marks and backslashes. *)
Definition basic_string (s : string) : option string :=
  body ← drop_prefix (String dquote EmptyString) s ≫= drop_suffix (String dquote EmptyString);
  if all_chars (λ c, negb (Ascii.eqb c dquote || Ascii.eqb c "092"%char)) body
  then Some body else None.

Inductive line : Type :=
| Blank
| ArrayHeader (key : string)
| KeyValue (key value : string).

Definition classify (raw : string) : option line :=
  let l := strip raw in
  match l with
  | EmptyString => Some Blank
  | String "#" _ => Some Blank
  | String "[" _ =>
      key ← strip <$> (drop_prefix "[[" l ≫= drop_suffix "]]");
      if is_bare_key key then Some (ArrayHeader key) else None
  | _ =>
      '(k, v) ← cut "=" l;
      v' ← basic_string (strip v);
      if is_bare_key (strip k) then Some (KeyValue (strip k) v') else None
  end.

(** The document under construction: the root's own pairs, the arrays of
    tables opened so far (the open table is the last of its array), and the
    array the next pair goes to. *)
Record state : Type := mkState {
  root : list (string * string);
  arrays : list (string * list (list (string * string)));
  current : option string
}.

Fixpoint has_key {A} (t : list (string * A)) (key : string) : bool :=
  match t with
  | [] => false
  | (k, _) :: rest => String.eqb k key || has_key rest key
  end.

(** A table takes a key once. *)
Definition add_pair (t : list (string * string)) (k v : string)
    : option (list (string * string)) :=
  if has_key t k then None else Some (t ++ [(k, v)]).

Fixpoint add_to_last (ts : list (list (string * string))) (k v : string)
    : option (list (list (string * string))) :=
  match ts with
  | [] => None
  | [t] => t' ← add_pair t k v; Some [t']
  | t :: rest => rest' ← add_to_last rest k v; Some (t :: rest')
  end.

Fixpoint add_to_array (arrs : list (string * list (list (string * string))))
    (name k v : string) : option (list (string * list (list (string * string)))) :=
  match arrs with
  | [] => None
  | (n, ts) :: rest =>
      if String.eqb n name then ts' ← add_to_last ts k v; Some ((n, ts') :: rest)
      else rest' ← add_to_array rest name k v; Some ((n, ts) :: rest')
  end.

Fixpoint open_table (arrs : list (string * list (list (string * string))))
    (name : string) : list (string * list (list (string * string))) :=
  match arrs with
  | [] => [(name, [[]])]
  | (n, ts) :: rest =>
      if String.eqb n name then (n, ts ++ [[]]) :: rest
      else (n, ts) :: open_table rest name
  end.

Definition step (st : state) (l : line) : option state :=
  match l with
  | Blank => Some st
  | ArrayHeader key =>
      if has_key (root st) key then None
      else Some (mkState (root st) (open_table (arrays st) key) (Some key))
  | KeyValue k v =>
      match current st with
      | None =>
          r ← add_pair (root st) k v;
          Some (mkState r (arrays st) None)
      | Some name =>
          a ← add_to_array (arrays st) name k v;
          Some (mkState (root st) a (Some name))
      end
  end.

Fixpoint run (st : state) (ls : list string) : option state :=
  match ls with
  | [] => Some st
  | raw :: rest => l ← classify raw; st' ← step st l; run st' rest
  end.

Definition strings_table (t : list (string * string)) : Toml.table :=
  prod_map id Toml.String_ <$> t.

Definition document (st : state) : Toml.table :=
  strings_table (root st)
  ++ (prod_map id (λ ts, Toml.Array (Toml.Table ∘ strings_table <$> ts)) <$> arrays st).

(** Modelled from the spec: [loads(text)] of the TOML reader on the
    manifest fragment; [None] is where the reader raises its decode error. *)
Definition loads (text : string) : option Toml.table :=
  document <$> run (mkState [] [] None) (lines text).

End TomlFragment.

(** ** Plugin manifests, discovery and name resolution

    [modmail/addons/models.py] and [modmail/addons/plugins.py] are not among
    the files at hand; only their test is. The definitions of this module
    follow the specification's sections 3, 4.2, 4.3, 4.4 and 7. *)

Module Plugins.

(** Modelled from the spec: PluginManifestEntry (section 3), the class
    [modmail.addons.models.Plugin] of the test. *)
Record Plugin : Type := mkPlugin {
  name : string;
  folder_name : string;
  description : string;
  min_bot_version : string
}.

#[export] Instance Plugin_eq_dec : EqDecision Plugin.
Proof. solve_decision. Defined.

(** Modelled from the spec: the error taxonomy of section 7. A manifest fails
    with one of the first two; discovery attributes it to the file. *)
Inductive manifest_error : Type :=
| ParseError
| SchemaError.

Inductive discovery_error : Type :=
| ManifestError (path : string) (e : manifest_error)
| DuplicatePluginError (plugin_name : string)
| IOError (location : string) (message : string).

Inductive resolve_error : Type :=
| PluginNotFoundError (attempted : string).

(** Modelled from the spec: the PluginRegistry of section 3, a mapping from
    plugin name to entry. *)
Abbreviation PluginRegistry := (gmap string Plugin).

(** Modelled from the spec: the mandatory fields of a manifest entry
    (section 4.2). *)
Definition required_fields : list string :=
  ["name"; "folder"; "description"; "min_bot_version"].

Definition get_string (entry : Toml.value) (key : string) : result manifest_error string :=
  match Toml.entry_get entry key with
  | Some (Toml.String_ s) => Ok s
  | _ => Err SchemaError
  end.

(** Modelled from the spec: one array element into one entry, field for
    field, [folder] into [folder_name]; no field has a default. *)
Definition plugin_of_entry (entry : Toml.value) : result manifest_error Plugin :=
  n ← get_string entry "name";
  f ← get_string entry "folder";
  d ← get_string entry "description";
  v ← get_string entry "min_bot_version";
  Ok {| name := n; folder_name := f; description := d; min_bot_version := v |}.

Section Parser.

(** The TOML reader; [None] is its failure on text that is not TOML. *)
Variable toml_loads : string -> option Toml.table.

(** Modelled from the spec: [parse_plugin_toml_from_string] (section 4.2),
    whose module [modmail/addons/plugins.py] is not among the files. *)
Definition parse_plugin_toml_from_string (text : string)
    : result manifest_error (list Plugin) :=
  match toml_loads text with
  | None => Err ParseError
  | Some doc =>
      match Toml.get doc "plugins" with
      | Some (Toml.Array items) => rmapM plugin_of_entry items
      | _ => Err SchemaError
      end
  end.

(** Modelled from the spec: what reading one configured location gives
    (sections 4.3 and 7): it is not there, the read fails otherwise, or it
    holds manifest files (path and text). *)
Inductive location_read : Type :=
| NotFound
| ReadFailed (message : string)
| Manifests (files : list (string * string)).

(** Modelled from the spec: the two merge policies section 4.3 leaves open.
    The warning that goes with the second is not kept. *)
Inductive merge_policy : Type :=
| FailFast
| LastWriteWins.

Variable policy : merge_policy.

(** The filesystem (and the remote index) as discovery sees it. *)
Variable read_location : string -> location_read.

(** Modelled from the spec: the merge of section 4.3, entry by entry under
    its name; a name already there fails or is overwritten, by the policy. *)
Fixpoint merge_entries (reg : PluginRegistry) (entries : list Plugin)
    : result discovery_error PluginRegistry :=
  match entries with
  | [] => Ok reg
  | e :: rest =>
      match reg !! name e, policy with
      | Some _, FailFast => Err (DuplicatePluginError (name e))
      | _, _ => merge_entries (<[name e := e]> reg) rest
      end
  end.

(** Modelled from the spec: the manifests of one location in turn; a parse
    or schema error is attributed to the file's path (section 7). *)
Fixpoint load_manifests (reg : PluginRegistry) (files : list (string * string))
    : result discovery_error PluginRegistry :=
  match files with
  | [] => Ok reg
  | (path, text) :: rest =>
      match parse_plugin_toml_from_string text with
      | Err e => Err (ManifestError path e)
      | Ok entries => reg' ← merge_entries reg entries; load_manifests reg' rest
      end
  end.

(** Modelled from the spec: the configured locations in turn; a missing one
    counts for zero plugins, any other read failure propagates. *)
Fixpoint scan (reg : PluginRegistry) (locations : list string)
    : result discovery_error PluginRegistry :=
  match locations with
  | [] => Ok reg
  | loc :: rest =>
      match read_location loc with
      | NotFound => scan reg rest
      | ReadFailed msg => Err (IOError loc msg)
      | Manifests files => reg' ← load_manifests reg files; scan reg' rest
      end
  end.

(** Modelled from the spec: [find_plugins] (section 4.3), whose module is not
    among the files: every configured location in turn, a missing one
    skipped, each manifest parsed and merged by name. *)
Definition find_plugins (locations : list string)
    : result discovery_error PluginRegistry :=
  scan ∅ locations.

End Parser.

(** Every entry sits under its own name. *)
Definition keyed_by_name (reg : PluginRegistry) : Prop :=
  map_Forall (λ k e, name e = k) reg.

(** The entries of a registry. *)
Definition entries (reg : PluginRegistry) : list Plugin := (map_to_list reg).*2.

(** Modelled from the spec: the Plugin Name Resolver (section 4.4), the
    [Plugin.convert] of the test: the entry whose [name] is the candidate,
    compared exactly. The registry is read, and handed back as it was. *)
Definition resolve (reg : PluginRegistry) (candidate_name : string)
    : result resolve_error Plugin * PluginRegistry :=
  match list_find (λ e, name e = candidate_name) (entries reg) with
  | Some (_, e) => (Ok e, reg)
  | None => (Err (PluginNotFoundError candidate_name), reg)
  end.

(** [VALID_PLUGIN_TOML] of the test, line by line. *)
Definition quoted (s : string) : string :=
  String TomlFragment.dquote (s +:+ String TomlFragment.dquote EmptyString).

Definition unlines (ls : list string) : string :=
  foldr (λ l acc, l +:+ String "010"%char acc) EmptyString ls.

Definition VALID_PLUGIN_TOML : string :=
  String "010"%char (unlines [
    "[[plugins]]";
    "name = " +:+ quoted "Planet";
    "folder = " +:+ quoted "planet";
    "description = " +:+ quoted "Planet. Tells you which planet you are probably on.";
    "min_bot_version = " +:+ quoted "v0.2.0"
  ]).

(** The same manifest without its last pair. *)
Definition MANIFEST_WITHOUT_MIN_BOT_VERSION : string :=
  String "010"%char (unlines [
    "[[plugins]]";
    "name = " +:+ quoted "Planet";
    "folder = " +:+ quoted "planet";
    "description = " +:+ quoted "Planet. Tells you which planet you are probably on."
  ]).

End Plugins.

(** ** scripts/export_requirements.py *)

Module ExportRequirements.

(** What [tomli.load] returns: the JSON-like values, a float by its
    [repr], and the others (dates and times) by their text. A dict keeps its
    items in insertion order. *)
Inductive pyval : Type :=
| PyNone
| PyBool (b : bool)
| PyInt (z : Z)
| PyFloat (repr : string)
| PyStr (s : string)
| PyOther (repr : string)
| PyList (items : list pyval)
| PyDict (items : list (string * pyval)).

Inductive exception : Type :=
| KeyError (key : string)
| TypeError
| AttributeError (attr : string).

Fixpoint dict_lookup (items : list (string * pyval)) (key : string) : option pyval :=
  match items with
  | [] => None
  | (k, v) :: rest => if String.eqb k key then Some v else dict_lookup rest key
  end.

(** [d[key] = v]: in place when the key is there, at the end when not. *)
Fixpoint dict_set (items : list (string * pyval)) (key : string) (v : pyval)
    : list (string * pyval) :=
  match items with
  | [] => [(key, v)]
  | (k, x) :: rest =>
      if String.eqb k key then (k, v) :: rest else (k, x) :: dict_set rest key v
  end.

(** [d[key]]: KeyError on a dict without the key, TypeError on what is not
    a dict. *)
Definition getitem (d : pyval) (key : string) : result exception pyval :=
  match d with
  | PyDict items =>
      match dict_lookup items key with
      | Some v => Ok v
      | None => Err (KeyError key)
      end
  | _ => Err TypeError
  end.

(** [d.get(key)]: [None] for a key that is not there. *)
Definition get (d : pyval) (key : string) : result exception pyval :=
  match d with
  | PyDict items => Ok (default PyNone (dict_lookup items key))
  | _ => Err (AttributeError "get")
  end.

Definition _relevant_keys : list string :=
  ["dependencies"; "dev-dependencies"; "source"; "extras"].

(** [s.encode()]: a string is kept as its UTF-8 bytes already. *)
Definition encode (s : string) : list Byte.byte := String.list_byte_of_string s.

(** The mapping of the four relevant keys to what the section has under
    them, [None] where it has nothing: what the hash is said to be taken
    of. *)
Definition relevant_mapping (poetry : list (string * pyval)) : list (string * pyval) :=
  (λ key, (key, default PyNone (dict_lookup poetry key))) <$> _relevant_keys.

Section CheckHash.

(** [json.dumps(value, sort_keys=...)] and
    [hashlib.sha256(data).hexdigest()], from the Python library. *)
Variable json_dumps : bool -> pyval -> result exception string.
Variable sha256_hexdigest : list Byte.byte -> string.

(** The loop [for key in _relevant_keys: relevant_content[key] = content.get(key)]. *)
Fixpoint collect_relevant (content : pyval) (keys : list string)
    (relevant_content : list (string * pyval))
    : result exception (list (string * pyval)) :=
  match keys with
  | [] => Ok relevant_content
  | key :: rest =>
      v ← get content key;
      collect_relevant content rest (dict_set relevant_content key v)
  end.

(** [content["tool"]["poetry"]] *)
Definition poetry_section (content : pyval) : result exception pyval :=
  tool ← getitem content "tool";
  getitem tool "poetry".

(** The inner [get_hash]. *)
Definition get_hash (content : pyval) : result exception string :=
  content ← poetry_section content;
  relevant_content ← collect_relevant content _relevant_keys [];
  dumped ← json_dumps true (PyDict relevant_content);
  Ok (sha256_hexdigest (encode dumped)).

(** [check_hash(hash, content)] *)
Definition check_hash (hash : string) (content : pyval) : result exception bool :=
  computed ← get_hash content;
  Ok (String.eqb hash computed).

End CheckHash.

End ExportRequirements.

(** ** The Python library functions the script calls

    [hashlib.sha256] and [json.dumps] are not the repository's code. The
    properties of [check_hash] hold for any two functions in their place;
    the definitions here are what the library computes (SHA-256 of FIPS 180-4;
    JSON text with the default separators and [ensure_ascii]), so that
    [check_hash] can be run. *)

Module Sha256.

Definition w32 (x : Z) : Z := x mod 2 ^ 32.

Definition rotr (n x : Z) : Z := Z.lor (Z.shiftr x n) (w32 (Z.shiftl x (32 - n))).

Definition ch (x y z : Z) : Z := Z.lxor (Z.land x y) (Z.land (Z.lxor x (2 ^ 32 - 1)) z).
Definition maj (x y z : Z) : Z := Z.lxor (Z.lxor (Z.land x y) (Z.land x z)) (Z.land y z).
Definition bsig0 (x : Z) : Z := Z.lxor (Z.lxor (rotr 2 x) (rotr 13 x)) (rotr 22 x).
Definition bsig1 (x : Z) : Z := Z.lxor (Z.lxor (rotr 6 x) (rotr 11 x)) (rotr 25 x).
Definition ssig0 (x : Z) : Z := Z.lxor (Z.lxor (rotr 7 x) (rotr 18 x)) (Z.shiftr x 3).
Definition ssig1 (x : Z) : Z := Z.lxor (Z.lxor (rotr 17 x) (rotr 19 x)) (Z.shiftr x 10).

(** The constants are the first 32 bits of the fractional parts of the
    square roots (initial state) and cube roots (round constants) of the
    first primes. *)
Definition is_prime (n : Z) : bool :=
  forallb (λ d, negb (n mod Z.of_nat d =? 0)) (seq 2 (Z.to_nat n - 2)).

Definition primes : list Z :=
  Eval vm_compute in take 64 (filter (λ n, Is_true (is_prime n)) (Z.of_nat <$> seq 2 400)).

(** The integer cube root, one bit at a time from the top. *)
Fixpoint icbrt (bits : nat) (n r : Z) : Z :=
  match bits with
  | O => r
  | S b =>
      let c := r + 2 ^ Z.of_nat b in
      icbrt b n (if c * c * c <=? n then c else r)
  end.

Definition initial_state : list Z :=
  Eval vm_compute in (λ p, w32 (Z.sqrt (p * 2 ^ 64))) <$> take 8 primes.

Definition round_constants : list Z :=
  Eval vm_compute in (λ p, w32 (icbrt 40 (p * 2 ^ 96) 0)) <$> primes.

Definition byte_val (b : Byte.byte) : Z := Z.of_N (Byte.to_N b).

(** The message, a one bit, zeros up to 56 modulo 64, and the bit length on
    eight bytes. *)
Definition big_endian (width : nat) (x : Z) : list Z :=
  (λ i, Z.shiftr x (8 * Z.of_nat i) mod 256) <$> rev (seq 0 width).

Definition pad (msg : list Z) : list Z :=
  let len := Z.of_nat (length msg) in
  let zeros := Z.to_nat ((55 - len) mod 64) in
  msg ++ [128] ++ replicate zeros 0 ++ big_endian 8 (8 * len).

Fixpoint words (fuel : nat) (bytes : list Z) : list Z :=
  match fuel, bytes with
  | S n, b0 :: b1 :: b2 :: b3 :: rest =>
      (b0 * 2 ^ 24 + b1 * 2 ^ 16 + b2 * 2 ^ 8 + b3) :: words n rest
  | _, _ => []
  end.

(** The message schedule, newest word first. *)
Fixpoint schedule (n : nat) (rev_w : list Z) : list Z :=
  match n with
  | O => rev_w
  | S n' =>
      let w := w32 (ssig1 (nth 1 rev_w 0) + nth 6 rev_w 0
                    + ssig0 (nth 14 rev_w 0) + nth 15 rev_w 0) in
      schedule n' (w :: rev_w)
  end.

Definition round (st : list Z) (kw : Z * Z) : list Z :=
  match st with
  | [a; b; c; d; e; f; g; h] =>
      let t1 := h + bsig1 e + ch e f g + kw.1 + kw.2 in
      let t2 := bsig0 a + maj a b c in
      [w32 (t1 + t2); a; b; c; w32 (d + t1); e; f; g]
  | _ => st
  end.

Definition compress (st : list Z) (block : list Z) : list Z :=
  let w := rev (schedule 48 (rev block)) in
  let st' := foldl round st (zip round_constants w) in
  zip_with (λ x y, w32 (x + y)) st st'.

Fixpoint blocks (fuel : nat) (ws : list Z) : list (list Z) :=
  match fuel, ws with
  | _, [] => []
  | O, _ => []
  | S n, _ => take 16 ws :: blocks n (drop 16 ws)
  end.

Definition digest (msg : list Byte.byte) : list Z :=
  let bytes := pad (byte_val <$> msg) in
  let ws := words (length bytes) bytes in
  foldl compress initial_state (blocks (length ws) ws).

Definition hex_digit (d : Z) : ascii :=
  Ascii.ascii_of_N (Z.to_N (if d <? 10 then 48 + d else 87 + d)).

Definition hex (digits : nat) (x : Z) : string :=
  Strings.String.string_of_list_ascii
    ((λ i, hex_digit (Z.shiftr x (4 * Z.of_nat i) mod 16)) <$> rev (seq 0 digits)).

(** [hashlib.sha256(data).hexdigest()] *)
Definition hexdigest (msg : list Byte.byte) : string :=
  foldr (λ w acc, hex 8 w +:+ acc) EmptyString (digest msg).

End Sha256.

Module Json.

Import ExportRequirements.

Definition backslash : ascii := "092"%char.

Definition escaped (c : string) : string := String backslash c.

(** The code points of a string kept as UTF-8 bytes. *)
Fixpoint code_points (bytes : list Z) : list Z :=
  match bytes with
  | [] => []
  | b0 :: rest =>
      if b0 <? 192 then b0 :: code_points rest
      else if b0 <? 224 then
        match rest with
        | b1 :: rest' => (b0 mod 32 * 64 + b1 mod 64) :: code_points rest'
        | _ => [b0]
        end
      else if b0 <? 240 then
        match rest with
        | b1 :: b2 :: rest' =>
            (b0 mod 16 * 4096 + b1 mod 64 * 64 + b2 mod 64) :: code_points rest'
        | _ => [b0]
        end
      else
        match rest with
        | b1 :: b2 :: b3 :: rest' =>
            (b0 mod 8 * 262144 + b1 mod 64 * 4096 + b2 mod 64 * 64 + b3 mod 64)
              :: code_points rest'
        | _ => [b0]
        end
  end.

(** One character of a JSON string under [ensure_ascii]: the short escapes,
    printable ASCII as it is, everything else as [\uXXXX], above the basic
    plane as a surrogate pair. *)
Definition escape (cp : Z) : string :=
  if cp =? 34 then escaped (String TomlFragment.dquote EmptyString)
  else if cp =? 92 then escaped (String backslash EmptyString)
  else if cp =? 10 then escaped "n"
  else if cp =? 13 then escaped "r"
  else if cp =? 9 then escaped "t"
  else if cp =? 8 then escaped "b"
  else if cp =? 12 then escaped "f"
  else if (32 <=? cp) && (cp <=? 126) then String (Ascii.ascii_of_N (Z.to_N cp)) EmptyString
  else if cp <? 65536 then escaped ("u" +:+ Sha256.hex 4 cp)
  else
    let v := cp - 65536 in
    escaped ("u" +:+ Sha256.hex 4 (55296 + Z.shiftr v 10))
    +:+ escaped ("u" +:+ Sha256.hex 4 (56320 + v mod 1024)).

Definition dumps_string (s : string) : string :=
  let cps := code_points (Sha256.byte_val <$> String.list_byte_of_string s) in
  String TomlFragment.dquote
    (foldr (λ cp acc, escape cp +:+ acc) (String TomlFragment.dquote EmptyString) cps).

(** A float is written by its [repr], the three that JSON has no text for
    by their JavaScript names. *)
Definition dumps_float (repr : string) : string :=
  if String.eqb repr "inf" then "Infinity"
  else if String.eqb repr "-inf" then "-Infinity"
  else if String.eqb repr "nan" then "NaN"
  else repr.

Fixpoint decimal_digits (fuel : nat) (n : Z) (acc : string) : string :=
  match fuel with
  | O => acc
  | S fuel' =>
      let acc' := String (Ascii.ascii_of_N (Z.to_N (48 + n mod 10))) acc in
      if n <? 10 then acc' else decimal_digits fuel' (n / 10) acc'
  end.

(** [int.__repr__] *)
Definition dumps_int (z : Z) : string :=
  let digits := decimal_digits (S (Z.to_nat (Z.log2 (Z.abs z)))) (Z.abs z) EmptyString in
  if z <? 0 then String "-"%char digits else digits.

Fixpoint insert_item (kv : string * string) (l : list (string * string))
    : list (string * string) :=
  match l with
  | [] => [kv]
  | x :: rest => if String.leb kv.1 x.1 then kv :: l else x :: insert_item kv rest
  end.

(** [sorted(items)] on items with distinct keys. *)
Definition sort_items (l : list (string * string)) : list (string * string) :=
  foldr insert_item [] l.

(** [json.dumps(v, sort_keys=sort_keys)]; TypeError on a value JSON has no
    form for. *)
Fixpoint dumps (sort_keys : bool) (v : pyval) {struct v} : result exception string :=
  match v with
  | PyNone => Ok "null"
  | PyBool b => Ok (if b then "true" else "false")
  | PyInt z => Ok (dumps_int z)
  | PyFloat repr => Ok (dumps_float repr)
  | PyStr s => Ok (dumps_string s)
  | PyOther _ => Err TypeError
  | PyList items =>
      parts ← (fix go (l : list pyval) : result exception (list string) :=
                 match l with
                 | [] => Ok []
                 | x :: rest => s ← dumps sort_keys x; ss ← go rest; Ok (s :: ss)
                 end) items;
      Ok ("[" +:+ Strings.String.concat ", " parts +:+ "]")
  | PyDict items =>
      parts ← (fix go (l : list (string * pyval))
                 : result exception (list (string * string)) :=
                 match l with
                 | [] => Ok []
                 | (k, x) :: rest =>
                     s ← dumps sort_keys x; ss ← go rest;
                     Ok ((k, dumps_string k +:+ ": " +:+ s) :: ss)
                 end) items;
      Ok ("{" +:+ Strings.String.concat ", "
                    (snd <$> (if sort_keys then sort_items parts else parts))
              +:+ "}")
  end.

End Json.

(** ** Concrete inputs *)

Module Fixtures.

(** The entry of [VALID_PLUGIN_TOML]. *)
Definition planet : Plugins.Plugin :=
  {| Plugins.name := "Planet";
     Plugins.folder_name := "planet";
     Plugins.description := "Planet. Tells you which planet you are probably on.";
     Plugins.min_bot_version := "v0.2.0" |}.

(** A filesystem with one plugin directory holding the valid manifest, one
    holding it next to a file that is not TOML, and an index that cannot be
    reached; nothing else exists. *)
Definition read_location (loc : string) : Plugins.location_read :=
  if String.eqb loc "plugins" then
    Plugins.Manifests [("plugins/plugin.toml", Plugins.VALID_PLUGIN_TOML)]
  else if String.eqb loc "broken" then
    Plugins.Manifests [("broken/planet.toml", Plugins.VALID_PLUGIN_TOML);
                       ("broken/plugin.toml", "plugins = [")]
  else if String.eqb loc "index" then Plugins.ReadFailed "connection refused"
  else Plugins.NotFound.

Import ExportRequirements.

(** Two pyproject files with the same dependency tables and different
    names, versions and key order. *)
Definition pyproject : pyval :=
  PyDict [("tool", PyDict [("poetry", PyDict [
    ("name", PyStr "modmail");
    ("version", PyStr "0.1.0");
    ("dependencies", PyDict [("python", PyStr "^3.8"); ("arrow", PyStr "^1.1.1")]);
    ("dev-dependencies", PyDict [("pytest", PyStr "^6.2.4")])])])].

Definition pyproject_renamed : pyval :=
  PyDict [("build-system", PyDict [("requires", PyList [PyStr "poetry-core"])]);
          ("tool", PyDict [("poetry", PyDict [
    ("dev-dependencies", PyDict [("pytest", PyStr "^6.2.4")]);
    ("dependencies", PyDict [("python", PyStr "^3.8"); ("arrow", PyStr "^1.1.1")]);
    ("name", PyStr "modmail-fork");
    ("version", PyStr "0.2.0")])])].

Definition poetry : list (string * pyval) :=
  [("name", PyStr "modmail");
   ("version", PyStr "0.1.0");
   ("dependencies", PyDict [("python", PyStr "^3.8"); ("arrow", PyStr "^1.1.1")]);
   ("dev-dependencies", PyDict [("pytest", PyStr "^6.2.4")])].

Definition poetry_renamed : list (string * pyval) :=
  [("dev-dependencies", PyDict [("pytest", PyStr "^6.2.4")]);
   ("dependencies", PyDict [("python", PyStr "^3.8"); ("arrow", PyStr "^1.1.1")]);
   ("name", PyStr "modmail-fork");
   ("version", PyStr "0.2.0")].

(** The content hash a lockfile of [pyproject] carries. *)
Definition content_hash : string :=
  "ef670f143ae806c18da3e9285a5501d5c19292d9c000fe6bdbcae593b37d5123".

End Fixtures.

(** ** Python strings as the requirements script uses them

    A [str] is kept as its UTF-8 bytes. What Python does per character is done
    here per chunk of bytes that encodes one character. *)

Module Text.

(** A byte that continues a character begun before it. *)
Definition is_continuation (c : ascii) : bool :=
  let n := Ascii.N_of_ascii c in ((128 <=? n) && (n <? 192))%N.

Definition starts_with_continuation (s : string) : bool :=
  match s with
  | String c _ => is_continuation c
  | EmptyString => false
  end.

(** [list(s)]: the characters of a string, each with all its bytes: a byte
    beyond ASCII takes the continuation bytes after it along. *)
Fixpoint chars (s : string) : list string :=
  match s with
  | EmptyString => []
  | String c rest =>
      if (128 <=? Ascii.N_of_ascii c)%N && starts_with_continuation rest then
        match chars rest with
        | h :: t => String c h :: t
        | [] => [String c EmptyString]
        end
      else String c EmptyString :: chars rest
  end.

(** [EmptyString.join(cs)] *)
Definition unchars (cs : list string) : string :=
  foldr String.app EmptyString cs.

(** [sep.join(parts)] *)
Fixpoint join (sep : string) (parts : list string) : string :=
  match parts with
  | [] => EmptyString
  | [p] => p
  | p :: rest => p +:+ sep +:+ join sep rest
  end.

(** [s.split(", ")]: cut at each comma followed by a space, left to right. *)
Fixpoint split_comma_space_go (s : string) (rev_cur : string) : list string :=
  match s with
  | EmptyString => [String.rev rev_cur]
  | String "," (String " " rest) => String.rev rev_cur :: split_comma_space_go rest EmptyString
  | String c rest => split_comma_space_go rest (String c rev_cur)
  end.

Definition split_comma_space (s : string) : list string :=
  split_comma_space_go s EmptyString.

(** [s.count(", ")]: occurrences that do not overlap, left to right. *)
Fixpoint count_comma_space (s : string) : nat :=
  match s with
  | EmptyString => O
  | String "," (String " " rest) => S (count_comma_space rest)
  | String _ rest => count_comma_space rest
  end.

Fixpoint startswith (s prefix : string) : bool :=
  match prefix, s with
  | EmptyString, _ => true
  | String a p, String b s' => Ascii.eqb a b && startswith s' p
  | String _ _, EmptyString => false
  end.

(** [s.endswith(suffix)] *)
Definition endswith (s suffix : string) : bool :=
  startswith (String.rev s) (String.rev suffix).

(** [needle in s] *)
Fixpoint contains (needle s : string) : bool :=
  startswith s needle ||
  match s with
  | EmptyString => false
  | String _ rest => contains needle rest
  end.

Fixpoint drop_while {A} (p : A -> bool) (l : list A) : list A :=
  match l with
  | [] => []
  | x :: rest => if p x then drop_while p rest else l
  end.

(** [s.rstrip()]: without the whitespace characters at its end;
    [isspace] is Python's table of them. *)
Definition rstrip (isspace : string -> bool) (s : string) : string :=
  unchars (rev (drop_while isspace (rev (chars s)))).

(** [sorted(strings)]: by code point, which on UTF-8 is by byte. *)
Definition sorted (l : list string) : list string := merge_sort String.le l.

(** What reading a text file gives for what was written to it: each
    carriage return, with the line feed after it if there is one, comes back
    as one line feed. *)
Fixpoint universal_newlines (s : string) : string :=
  match s with
  | EmptyString => EmptyString
  | String "013" (String "010" rest) => String "010" (universal_newlines rest)
  | String "013" rest => String "010" (universal_newlines rest)
  | String c rest => String c (universal_newlines rest)
  end.

End Text.

(** ** Regular expressions, as [re] matches them

    The part of the pattern language the two patterns of the script are
    written in, matched by backtracking: alternatives in order, a greedy
    repetition longest first, a lazy one shortest first, the first success
    kept. A group holds the text of its last match. *)

Module Re.

Inductive regex : Type :=
| Eps
| Char (c : string)
| Class (p : string -> bool)
| Seq (r1 r2 : regex)
| Alt (r1 r2 : regex)
| Opt (r : regex)
| Rep (greedy : bool) (lo : nat) (hi : option nat) (p : string -> bool)
| Group (name : string) (r : regex).

Definition captures : Type := list (string * string).

Fixpoint set_group (caps : captures) (name text : string) : captures :=
  match caps with
  | [] => [(name, text)]
  | (n, t) :: rest =>
      if String.eqb n name then (n, text) :: rest else (n, t) :: set_group rest name text
  end.

(** [m.groupdict().get(name)]; [None] for a group that took no part. *)
Fixpoint group (caps : captures) (name : string) : option string :=
  match caps with
  | [] => None
  | (n, t) :: rest => if String.eqb n name then Some t else group rest name
  end.

Definition or_else {A} (x y : option A) : option A :=
  match x with
  | Some a => Some a
  | None => y
  end.

(** Between [lo] and [hi] characters of the class [p], then [k]. *)
Fixpoint rep {A} (greedy : bool) (p : string -> bool) (lo : nat) (hi : option nat)
    (s : list string) (k : list string -> option A) : option A :=
  let stop := match lo with O => k s | S _ => None end in
  let more :=
    match s, hi with
    | c :: s', None => if p c then rep greedy p (pred lo) None s' k else None
    | c :: s', Some (S h) => if p c then rep greedy p (pred lo) (Some h) s' k else None
    | _, _ => None
    end in
  if greedy then or_else more stop else or_else stop more.

Fixpoint run {A} (r : regex) (s : list string) (caps : captures)
    (k : list string -> captures -> option A) : option A :=
  match r with
  | Eps => k s caps
  | Char c =>
      match s with
      | x :: s' => if String.eqb x c then k s' caps else None
      | [] => None
      end
  | Class p =>
      match s with
      | x :: s' => if p x then k s' caps else None
      | [] => None
      end
  | Seq r1 r2 => run r1 s caps (fun s' caps' => run r2 s' caps' k)
  | Alt r1 r2 => or_else (run r1 s caps k) (run r2 s caps k)
  | Opt r' => or_else (run r' s caps k) (k s caps)
  | Rep greedy lo hi p => rep greedy p lo hi s (fun s' => k s' caps)
  | Group name r' =>
      run r' s caps (fun s' caps' =>
        k s' (set_group caps' name (Text.unchars (take (length s - length s') s))))
  end.

(** [pattern.match(text)]: at the start of the text, not to its end. *)
Definition match_ (r : regex) (text : string) : option captures :=
  run r (Text.chars text) [] (fun _ caps => Some caps).

(** A run of literal characters. *)
Definition lit (s : string) : regex :=
  foldr (fun c r => Seq (Char c) r) Eps (Text.chars s).

(** [[...]] with the listed characters. *)
Definition one_of (s : string) : string -> bool :=
  fun c => bool_decide (c ∈ Text.chars s).

End Re.

(** ** scripts/export_requirements.py: [main] *)

Module Requirements.

Import ExportRequirements.

(** The quotation mark as a one-character string. *)
Definition dq : string := String "034"%char EmptyString.

Definition nl : string := String "010"%char EmptyString.

(** The Python library as the script meets it: the character tables behind
    the classes [\d], [\w] and [\s] of [re] and behind [str.rstrip], and the
    two functions [check_hash] calls. *)
Record pylib : Type := mkPylib {
  re_digit : string -> bool;
  re_word : string -> bool;
  re_space : string -> bool;
  str_isspace : string -> bool;
  json_dumps : bool -> pyval -> result exception string;
  sha256_hexdigest : list Byte.byte -> string
}.

(** The tables on ASCII characters. *)
Definition ascii_code (c : string) : option N :=
  match c with
  | String a EmptyString => if (Ascii.N_of_ascii a <? 128)%N then Some (Ascii.N_of_ascii a) else None
  | _ => None
  end.

Definition ascii_digit (c : string) : bool :=
  match ascii_code c with
  | Some n => ((48 <=? n) && (n <=? 57))%N
  | None => false
  end.

Definition ascii_word (c : string) : bool :=
  match ascii_code c with
  | Some n => ((48 <=? n) && (n <=? 57) || (65 <=? n) && (n <=? 90)
               || (97 <=? n) && (n <=? 122) || (n =? 95))%N
  | None => false
  end.

Definition ascii_space (c : string) : bool :=
  match ascii_code c with
  | Some n => ((9 <=? n) && (n <=? 13) || (28 <=? n) && (n <=? 32))%N
  | None => false
  end.

(** On ASCII characters Python's tables are these. *)
Definition ascii_tables (lib : pylib) : Prop :=
  forall c n, ascii_code c = Some n ->
    re_digit lib c = ascii_digit c /\ re_word lib c = ascii_word c
    /\ re_space lib c = ascii_space c /\ str_isspace lib c = ascii_space c.

(** The library on ASCII text: no character beyond ASCII is in a table. *)
Definition ascii_pylib : pylib :=
  mkPylib ascii_digit ascii_word ascii_space ascii_space Json.dumps Sha256.hexdigest.

(** What [main] can end in besides a result: a Python exception;
    NotImplementedError apart, as [check_hash] never raises it; and a run
    the model does not follow (see [collect_main]). *)
Inductive main_error : Type :=
| Raised (e : exception)
| NotImplementedError (message : string)
| OutsideModel.

Definition lift {A} (r : result exception A) : result main_error A :=
  match r with
  | Ok a => Ok a
  | Err e => Err (Raised e)
  end.

(** [v is not None] *)
Definition is_not_none (v : pyval) : bool :=
  match v with
  | PyNone => false
  | _ => true
  end.

(** [hasattr(v, "get")]: of the values at hand only a dict has it. *)
Definition has_get (v : pyval) : bool :=
  match v with
  | PyDict _ => true
  | _ => false
  end.

(** A value where a [str] is needed ([text + v], [pattern.match(v)]):
    TypeError when it is none. *)
Definition as_str (v : pyval) : result main_error string :=
  match v with
  | PyStr s => Ok s
  | _ => Err (Raised TypeError)
  end.

(** [for x in v]: the items of a list, the keys of a dict, the characters of
    a string; TypeError on what cannot be iterated. *)
Definition py_iter (v : pyval) : result main_error (list pyval) :=
  match v with
  | PyList items => Ok items
  | PyDict items => Ok (PyStr <$> items.*1)
  | PyStr s => Ok (PyStr <$> Text.chars s)
  | _ => Err (Raised TypeError)
  end.

(** [v == text] for a string [text]: only the same string is equal to it. *)
Definition eq_str (v : pyval) (text : string) : bool :=
  match v with
  | PyStr s => String.eqb s text
  | _ => false
  end.

(** [d[key] = v] on a dict with string keys: in place when the key is there,
    at the end when not. *)
Fixpoint setitem {A} (d : list (string * A)) (key : string) (v : A) : list (string * A) :=
  match d with
  | [] => [(key, v)]
  | (k, x) :: rest =>
      if String.eqb k key then (k, v) :: rest else (k, x) :: setitem rest key v
  end.

Fixpoint lookup {A} (d : list (string * A)) (key : string) : option A :=
  match d with
  | [] => None
  | (k, x) :: rest => if String.eqb k key then Some x else lookup rest key
  end.

(** [d.update(other)] *)
Definition update {A} (d other : list (string * A)) : list (string * A) :=
  foldl (fun acc kv => setitem acc kv.1 kv.2) d other.

Fixpoint foldM {S X} (f : S -> X -> result main_error S) (st : S) (xs : list X)
    : result main_error S :=
  match xs with
  | [] => Ok st
  | x :: rest => st' ← f st x; foldM f st' rest
  end.

(** The first loop, [main_deps[package["name"]] = package] for the packages
    of category main. A name that is a list or a dict cannot be a key. With
    a name that is no string but could be a key (a number, a date) Python
    goes on; the model stops there with [OutsideModel]. *)
Fixpoint collect_main (main_deps : list (string * pyval)) (packages : list pyval)
    : result main_error (list (string * pyval)) :=
  match packages with
  | [] => Ok main_deps
  | package :: rest =>
      category ← lift (getitem package "category");
      if eq_str category "main" then
        name ← lift (getitem package "name");
        match name with
        | PyStr n => collect_main (setitem main_deps n package) rest
        | PyList _ | PyDict _ => Err (Raised TypeError)
        | _ => Err OutsideModel
        end
      else collect_main main_deps rest
  end.

Section Main.

Variable lib : pylib.

(** [MESSAGE], which the script builds from its own file name. *)
Variable MESSAGE : string.

Definition VERSION_RESTRICTER_REGEX : Re.regex :=
  Re.Seq (Re.Group "sign" (Re.Rep true 1 (Some 2%nat) (Re.one_of "<>=!")))
    (Re.Seq
       (Re.Group "version"
          (Re.Seq (Re.Rep true 1 None (re_digit lib))
             (Re.Seq (Re.Char ".") (Re.Rep false 1 None (re_digit lib)))))
       (Re.Opt
          (Re.Group "patch"
             (Re.Alt (Re.Seq (Re.Char ".") (Re.Rep false 1 None (re_digit lib)))
                     (Re.Seq (Re.Char ".") (Re.Char "*")))))).

Definition PLATFORM_MARKERS_REGEX : Re.regex :=
  Re.Seq (Re.lit "sys_platform")
    (Re.Seq (Re.Opt (Re.Class (re_space lib)))
       (Re.Seq (Re.lit "==")
          (Re.Seq (Re.Opt (Re.Class (re_space lib)))
             (Re.Seq (Re.Char dq)
                (Re.Seq (Re.Group "platform" (Re.Rep true 1 None (re_word lib)))
                   (Re.Char dq)))))).

(** The body of the loop over the parts of [python-versions], up to the
    joining word: what one part adds to the line. A part the pattern does not
    match leaves [match] at [None], and [match.groupdict] raises. *)
Definition version_clause (version : string) : result main_error string :=
  match Re.match_ VERSION_RESTRICTER_REGEX version with
  | None => Err (Raised (AttributeError "groupdict"))
  | Some m =>
      let patch := Re.group m "patch" in
      let version_kind :=
        match patch with
        | Some p => if negb (Text.endswith p "*") then "python_full_version" else "python_version"
        | None => "python_version"
        end in
      let patch := default EmptyString patch in
      let patch := if negb (Text.endswith patch "*") then patch else EmptyString in
      Ok (version_kind +:+ " "
          +:+ default EmptyString (Re.group m "sign") +:+ " "
          +:+ dq +:+ default EmptyString (Re.group m "version") +:+ patch +:+ dq
          +:+ " ")
  end.

(** [for count, version in enumerate(pyvers.split(", "))] *)
Fixpoint version_loop (final_version_index count : nat) (versions : list string)
    (line : string) : result main_error string :=
  match versions with
  | [] => Ok line
  | version :: rest =>
      clause ← version_clause version;
      let line := line +:+ clause in
      let line := if (count <? final_version_index)%nat then line +:+ "and " else line in
      version_loop final_version_index (S count) rest line
  end.

(** [if (pyvers := dep["python-versions"]) != "*": ...], given [pyvers].
    Of the values that are no string a list has [count] and lacks [split];
    the others lack [count]. *)
Definition python_versions_marker (line : string) (pyvers : pyval)
    : result main_error string :=
  match pyvers with
  | PyStr s =>
      if String.eqb s "*" then Ok line
      else
        let line := line +:+ " ; " in
        let final_version_index := Text.count_comma_space s in
        version_loop final_version_index 0 (Text.split_comma_space s) line
  | PyList _ => Err (Raised (AttributeError "split"))
  | _ => Err (Raised (AttributeError "count"))
  end.

(** [line += "=="; line += dep["version"]] *)
Definition pinned (line : string) (dep : pyval) : result main_error string :=
  let line := line +:+ "==" in
  version ← lift (getitem dep "version");
  version ← as_str version;
  Ok (line +:+ version).

(** [pyproject_deps.get(dep["name"], None)]: the method is looked up
    before the key is computed; a key that is a list or a dict cannot be
    hashed; any other key that is no string equals no key of a TOML table. *)
Definition get_by_name (pyproject_deps dep : pyval) : result main_error pyval :=
  match pyproject_deps with
  | PyDict items =>
      name ← lift (getitem dep "name");
      match name with
      | PyStr n => Ok (default PyNone (dict_lookup items n))
      | PyList _ | PyDict _ => Err (Raised TypeError)
      | _ => Ok PyNone
      end
  | _ => Err (Raised (AttributeError "get"))
  end.

(** The start of a line: where the package comes from. *)
Definition requirement_source (pyproject_deps dep : pyval) : result main_error string :=
  let line := EmptyString in
  pyproject_dep ← get_by_name pyproject_deps dep;
  if is_not_none pyproject_dep && has_get pyproject_dep then
    git ← lift (get pyproject_dep "git");
    if is_not_none git then Err (NotImplementedError "git sources are not supported")
    else
      url ← lift (get pyproject_dep "url");
      if is_not_none url then
        url ← lift (getitem pyproject_dep "url");
        url ← as_str url;
        Ok (line +:+ (" @ " +:+ url))
      else pinned line dep
  else pinned line dep.

(** What stays of [dep_deps] after the loop that deletes from it: the
    dependencies that are tables with a [markers] entry. *)
Definition has_markers (v : pyval) : bool :=
  has_get v &&
  match get v "markers" with
  | Ok m => is_not_none m
  | Err _ => false
  end.

Definition marked_dependencies (dep_deps : pyval)
    : result main_error (list (string * pyval)) :=
  match dep_deps with
  | PyDict items => Ok (List.filter (fun kv => has_markers kv.2) items)
  | _ => Err (Raised (AttributeError "items"))
  end.

(** [dependency_lines] and [to_add_markers]. *)
Definition lines_state : Type := list (string * string) * list (string * pyval).

(** The body of [for dep in main_deps.values()]. *)
Definition dep_step (pyproject_deps : pyval) (st : lines_state) (dep : pyval)
    : result main_error lines_state :=
  let '(dependency_lines, to_add_markers) := st in
  line ← requirement_source pyproject_deps dep;
  pyvers ← lift (getitem dep "python-versions");
  line ← python_versions_marker line pyvers;
  dep_deps ← lift (get dep "dependencies");
  to_add_markers ←
    (if is_not_none dep_deps then
       kept ← marked_dependencies dep_deps;
       Ok (if (0 <? length kept)%nat then update to_add_markers kept else to_add_markers)
     else Ok to_add_markers);
  name ← lift (getitem dep "name");
  match name with
  | PyStr n => Ok (setitem dependency_lines n line, to_add_markers)
  | PyList _ | PyDict _ => Err (Raised TypeError)
  | _ => Err OutsideModel
  end.

(** The body of [for k, v in to_add_markers.items()]. *)
Definition add_platform_marker (dependency_lines : list (string * string))
    (kv : string * pyval) : result main_error (list (string * string)) :=
  let '(k, v) := kv in
  match lookup dependency_lines k with
  | None => Err (Raised (KeyError k))
  | Some line =>
      markers ← lift (getitem v "markers");
      markers ← as_str markers;
      let line :=
        match Re.match_ PLATFORM_MARKERS_REGEX markers with
        | Some m =>
            let line :=
              if negb (Text.contains ";" line) then line +:+ " ; "
              else if Text.contains "python_" line || Text.contains "sys_platform" line
                   then line +:+ "and "
                   else line in
            line +:+ ("sys_platform == " +:+ dq
                      +:+ default EmptyString (Re.group m "platform") +:+ dq)
        | None => line
        end in
      Ok (setitem dependency_lines k line)
  end.

(** The lines of the file, below the notice. *)
Definition requirement_lines (dependency_lines : list (string * string)) : list string :=
  Text.sorted ((fun kv => kv.1 +:+ Text.rstrip (str_isspace lib) kv.2) <$> dependency_lines).

Definition render (dependency_lines : list (string * string)) : string :=
  (MESSAGE +:+ (nl +:+ nl))
  +:+ (Text.join nl (requirement_lines dependency_lines) +:+ nl).

(** [hash == get_hash(content)] with the hash as the lock file has it: a
    value that is no string equals no digest. *)
Definition check_hash_value (hash : pyval) (content : pyval) : result main_error bool :=
  match hash with
  | PyStr h => lift (check_hash (json_dumps lib) (sha256_hexdigest lib) h content)
  | _ =>
      _ ← lift (get_hash (json_dumps lib) (sha256_hexdigest lib) content);
      Ok false
  end.

(** Everything up to the comparison with the file: the text to write. *)
Definition generate (pyproject lockfile : pyval) : result main_error string :=
  tool ← lift (getitem pyproject "tool");
  poetry ← lift (getitem tool "poetry");
  pyproject_deps ← lift (getitem poetry "dependencies");
  packages ← lift (getitem lockfile "package");
  packages ← py_iter packages;
  main_deps ← collect_main [] packages;
  st ← foldM (dep_step pyproject_deps) ([], []) main_deps.*2;
  dependency_lines ← foldM add_platform_marker st.1 st.2;
  Ok (render dependency_lines).

(** What a run leaves: the exit code, the text written to the file if any,
    and the lines printed. *)
Record outcome : Type := mkOutcome {
  exit_code : Z;
  written : option string;
  printed : list string
}.

(** [main(req_path, should_validate_hash)] once the two TOML files are
    loaded. [existing] is what reading the requirements file gives, [None]
    when the file is not there. *)
Definition main (req_path : string) (pyproject lockfile : pyval)
    (existing : option string) (should_validate_hash : bool)
    : result main_error outcome :=
  stale ←
    (if should_validate_hash then
       metadata ← lift (getitem lockfile "metadata");
       hash ← lift (getitem metadata "content-hash");
       valid ← check_hash_value hash pyproject;
       Ok (negb valid)
     else Ok false);
  if (stale : bool) then
    Ok (mkOutcome 2 None ["The lockfile is out of date. Please run 'poetry lock'"])
  else
    req_txt ← generate pyproject lockfile;
    if bool_decide (existing = Some req_txt) then Ok (mkOutcome 0 None [])
    else Ok (mkOutcome 1 (Some req_txt)
               ["Updated " +:+ req_path +:+ " with new requirements."]).

End Main.

End Requirements.

(** ** ASCII text, for stating what the patterns do *)

Module Ascii7.

(** The string of one character. *)
Definition single (a : ascii) : string := String a EmptyString.

(** The string of the given characters. *)
Definition text (l : list ascii) : string := foldr String EmptyString l.

Definition is_ascii (a : ascii) : Prop := (Ascii.N_of_ascii a < 128)%N.

(** [0] to [9]. *)
Definition digit (a : ascii) : Prop := (48 <= Ascii.N_of_ascii a <= 57)%N.

(** The characters of the class [[<>=!]]. *)
Definition sign_char (a : ascii) : Prop := a ∈ ["<"; ">"; "="; "!"]%char.

(** Letters, digits and the underscore. *)
Definition word_char (a : ascii) : Prop :=
  let n := Ascii.N_of_ascii a in
  (48 <= n <= 57 \/ 65 <= n <= 90 \/ 97 <= n <= 122 \/ n = 95)%N.

(** One clause of an environment marker, as the script writes it: the
    variable, the operator, the quoted version and a blank. *)
Definition clause (variable sign version : string) : string :=
  variable +:+ " " +:+ sign +:+ " "
  +:+ Requirements.dq +:+ version +:+ Requirements.dq +:+ " ".

End Ascii7.

(** ** scripts/export_new_config_to_default_config.py: [sort_dict] *)

Module ExportConfig.

Import ExportRequirements.

(** The order of [sorted(d.items(), key=lambda e: e[0])]: by key. *)
Definition key_le (kv1 kv2 : string * pyval) : Prop := String.le kv1.1 kv2.1.

#[export] Instance key_le_dec : RelDecision key_le.
Proof. intros kv1 kv2. unfold key_le. apply _. Defined.

(** [sort_dict(v)] for a dict [v], as its items. The dict is built from the
    items sorted by key; then every value of [d] that is a dict itself is
    replaced, under its key, by its sorted self. Values of other kinds, lists
    among them, stay as they are. *)
Fixpoint sort_dict_in (v : pyval) : list (string * pyval) :=
  match v with
  | PyDict d =>
      let sorted_dict := Requirements.update [] (merge_sort key_le d) in
      (fix loop (items : list (string * pyval)) (sorted_dict : list (string * pyval))
         : list (string * pyval) :=
         match items with
         | [] => sorted_dict
         | (k, v') :: rest =>
             match v' with
             | PyDict _ =>
                 loop rest (Requirements.setitem sorted_dict k (PyDict (sort_dict_in v')))
             | _ => loop rest sorted_dict
             end
         end) d sorted_dict
  | _ => []
  end.

Definition sort_dict (d : list (string * pyval)) : list (string * pyval) :=
  sort_dict_in (PyDict d).

(** What becomes of a value of the dict: a dict is sorted, anything else is
    kept. *)
Definition sort_value (v : pyval) : pyval :=
  match v with
  | PyDict d => PyDict (sort_dict d)
  | _ => v
  end.

(** A dict has each key once, and so have the dicts that are its values, and
    theirs. *)
Fixpoint unique_keys (v : pyval) : Prop :=
  match v with
  | PyDict d =>
      NoDup d.*1
      /\ (fix all (l : list (string * pyval)) : Prop :=
            match l with
            | [] => True
            | (_, v') :: rest => unique_keys v' /\ all rest
            end) d
  | _ => True
  end.

(** The keys come in sorted order, in the dict and in the dicts that are
    its values, and in theirs. *)
Fixpoint deep_sorted (v : pyval) : Prop :=
  match v with
  | PyDict d =>
      Sorted String.le d.*1
      /\ (fix all (l : list (string * pyval)) : Prop :=
            match l with
            | [] => True
            | (_, v') :: rest => deep_sorted v' /\ all rest
            end) d
  | _ => True
  end.

(** How deep dicts are nested in a value. *)
Fixpoint depth (v : pyval) : nat :=
  match v with
  | PyDict d =>
      S ((fix go (l : list (string * pyval)) : nat :=
            match l with
            | [] => O
            | (_, v') :: rest => Nat.max (depth v') (go rest)
            end) d)
  | _ => O
  end.

End ExportConfig.

(** ** Sample data *)

Module Samples.

Import ExportRequirements Requirements.

(** The notice at the head of the file, cut short. *)
Definition MESSAGE : string := "# NOTICE: This file is automatically generated".

(** A [[package]] table of a lock file, with a [dependencies] table when
    the package has dependencies. *)
Definition package (name category version python_versions : string)
    (dependencies : list (string * pyval)) : pyval :=
  PyDict ([("name", PyStr name); ("version", PyStr version); ("category", PyStr category);
           ("python-versions", PyStr python_versions)]
          ++ match dependencies with
             | [] => []
             | _ => [("dependencies", PyDict dependencies)]
             end).

(** A dependency that is wanted on one platform. *)
Definition on_platform (platform : string) : pyval :=
  PyDict [("version", PyStr "*");
          ("markers", PyStr ("sys_platform == " +:+ dq +:+ platform +:+ dq))].

Definition humanfriendly : pyval :=
  package "humanfriendly" "main" "9.2" "*" [("pyreadline", on_platform "win32")].

Definition packages : list pyval :=
  [package "arrow" "main" "1.1.1" ">=3.6" [("python-dateutil", PyStr ">=2.7.0")];
   package "colorama" "main" "0.4.4" ">=2.7, !=3.0.*, !=3.10.2" [];
   package "pytest" "dev" "6.2.4" ">=3.6" [("colorama", on_platform "win32")];
   humanfriendly;
   package "pyreadline" "main" "2.1" "*" [];
   package "python-dateutil" "main" "2.8.2" ">=2.7" []].

(** A lock file of [Fixtures.pyproject]. *)
Definition lockfile : pyval :=
  PyDict [("package", PyList packages);
          ("metadata", PyDict [("lock-version", PyStr "1.1");
                               ("content-hash", PyStr Fixtures.content_hash)])].

(** The same lock file with its tables in another order and one more. *)
Definition lockfile_reordered : pyval :=
  PyDict [("metadata", PyDict [("lock-version", PyStr "1.1");
                               ("content-hash", PyStr Fixtures.content_hash)]);
          ("extras", PyDict []);
          ("package", PyList packages)].

(** The lines as they are when the last loop begins, and what it has to
    mark. *)
Definition dependency_lines : list (string * string) :=
  [("arrow", "==1.1.1 ; python_version >= " +:+ dq +:+ "3.6" +:+ dq +:+ " ");
   ("pyreadline", "==2.1")].

Definition to_add_markers : list (string * pyval) := [("pyreadline", on_platform "win32")].

(** What a run on [lockfile] writes. *)
Definition requirements_txt : string :=
  MESSAGE +:+ nl +:+ nl
  +:+ "arrow==1.1.1 ; python_version >= " +:+ dq +:+ "3.6" +:+ dq +:+ nl
  +:+ "colorama==0.4.4 ; python_version >= " +:+ dq +:+ "2.7" +:+ dq
  +:+ " and python_version != " +:+ dq +:+ "3.0" +:+ dq
  +:+ " and python_version != " +:+ dq +:+ "3.1" +:+ dq +:+ nl
  +:+ "humanfriendly==9.2" +:+ nl
  +:+ "pyreadline==2.1 ; sys_platform == " +:+ dq +:+ "win32" +:+ dq +:+ nl
  +:+ "python-dateutil==2.8.2 ; python_version >= " +:+ dq +:+ "2.7" +:+ dq +:+ nl.



(** A dump of a configuration, as nested dicts. *)
Definition dump : list (string * pyval) :=
  [("dev", PyDict [("mode", PyDict [("plugin_dev", PyBool false); ("develop", PyBool false)]);
                   ("log_level", PyInt 25)]);
   ("colours", PyDict [("base_embed_color", PyInt 8046040)]);
   ("bot", PyDict [("token", PyNone); ("prefix", PyStr "?");
                   ("owners", PyList [PyDict [("name", PyStr "b")]; PyDict [("id", PyInt 1)]])])].

End Samples.

(** * Properties *)

(** ** The mode calculator *)

Section CogsFacts.

Import Cogs.

Lemma lookup_attr_app (o o' : pyobj) (k : string) :
  lookup_attr (o ++ o') k =
  match lookup_attr o k with
  | Some v => Some v
  | None => lookup_attr o' k
  end.
Proof.
  induction o as [|[k' v] o IH]; simpl; [done|].
  by destruct (String.eqb k' k).
Qed.

(** A Python dict has each key once; then the order of its items does not
    show in a lookup. *)
Lemma lookup_attr_perm (o o' : pyobj) (k : string) :
  NoDup o.*1 → o ≡ₚ o' → lookup_attr o k = lookup_attr o' k.
Proof.
  intros Hnd Hp. induction Hp as [|[k1 v1] l l' Hp IH|[k1 v1] [k2 v2] l|l l' l'' H1 IH1 H2 IH2].
  - done.
  - simpl. apply NoDup_cons in Hnd as [_ Hnd]. by rewrite IH.
  - simpl in *. destruct (String.eqb_spec k1 k), (String.eqb_spec k2 k); try done.
    subst. apply NoDup_cons in Hnd as [Hnd _]. destruct Hnd. apply list_elem_of_here.
  - rewrite IH1 by done. apply IH2. by rewrite <- H1.
Qed.

Lemma getattr_perm (o o' : pyobj) (k : string) (d : bool) :
  NoDup o.*1 → o ≡ₚ o' → getattr o k d = getattr o' k d.
Proof. intros. unfold getattr. by erewrite lookup_attr_perm. Qed.

Lemma calc_mode_perm (o o' : pyobj) :
  NoDup o.*1 → o ≡ₚ o' → calc_mode o = calc_mode o'.
Proof.
  intros Hnd Hp. unfold calc_mode.
  by rewrite !(getattr_perm o o' _ _ Hnd Hp).
Qed.

Lemma to_obj_NoDup (md : ExtMetadata) : NoDup (to_obj md).*1.
Proof. simpl. apply (bool_decide_unpack _). by vm_compute. Qed.

Lemma calc_mode_to_obj (md : ExtMetadata) :
  calc_mode (to_obj md)
  = Z.b2z (production md) + 2 * Z.b2z (develop md) + 4 * Z.b2z (plugin_dev md).
Proof. by destruct md as [[] [] []]. Qed.

End CogsFacts.

(** C1. For every [ExtMetadata] (all eight combinations of the three
    booleans), and in whatever order its attributes were declared,
    [calc_mode] is [int(production) | (int(develop) << 1) | (int(plugin_dev) << 2)],
    which is the sum of 1, 2 and 4 over the flags that are true; bit [i] of
    the result is flag [i], so several bits can be set at once. *)
Theorem calc_mode_is_bitwise_or (md : Cogs.ExtMetadata) (attrs : Cogs.pyobj) :
  attrs ≡ₚ Cogs.to_obj md →
  Cogs.calc_mode attrs
  = Z.lor (Z.lor (Z.b2z (Cogs.production md)) (Z.shiftl (Z.b2z (Cogs.develop md)) 1))
          (Z.shiftl (Z.b2z (Cogs.plugin_dev md)) 2)
  ∧ Cogs.calc_mode attrs
    = (if Cogs.production md then 1 else 0)
      + (if Cogs.develop md then 2 else 0)
      + (if Cogs.plugin_dev md then 4 else 0)
  ∧ Z.testbit (Cogs.calc_mode attrs) 0 = Cogs.production md
  ∧ Z.testbit (Cogs.calc_mode attrs) 1 = Cogs.develop md
  ∧ Z.testbit (Cogs.calc_mode attrs) 2 = Cogs.plugin_dev md.
Proof.
  intros Hp.
  rewrite <- (calc_mode_perm (Cogs.to_obj md) attrs (to_obj_NoDup md)) by done.
  rewrite calc_mode_to_obj.
  by destruct md as [[] [] []].
Qed.

(** C2. [calc_mode] returns on every attribute dictionary, a value from 0
    to 7, and an attribute that is not there counts as [False]: setting it to
    [False] changes nothing. *)
Theorem calc_mode_total (metadata : Cogs.pyobj) :
  0 ≤ Cogs.calc_mode metadata ≤ 7
  ∧ ∀ name : string,
      Cogs.lookup_attr metadata name = None →
      Cogs.getattr metadata name false = false
      ∧ Cogs.calc_mode metadata = Cogs.calc_mode (metadata ++ [(name, false)]).
Proof.
  split.
  - unfold Cogs.calc_mode.
    by destruct (Cogs.getattr metadata "production" false),
      (Cogs.getattr metadata "develop" false),
      (Cogs.getattr metadata "plugin_dev" false).
  - intros name Hnone. split.
    + unfold Cogs.getattr. by rewrite Hnone.
    + assert (∀ k, Cogs.getattr (metadata ++ [(name, false)]) k false
                   = Cogs.getattr metadata k false) as Hget.
      { intros k. unfold Cogs.getattr. rewrite lookup_attr_app.
        destruct (Cogs.lookup_attr metadata k) eqn:Hk; [done|]. simpl.
        by destruct (String.eqb name k). }
      unfold Cogs.calc_mode. by rewrite !Hget.
Qed.

(** C3. The modes are single bits: production is 1, develop is 2,
    plugin_dev is 4, each being 1 shifted left by the member's index; the
    values are exactly 1, 2 and 4, and two different modes share no bit. *)
Theorem BotModes_single_bits :
  Cogs.BotModes.value Cogs.BotModes.production = 1
  ∧ Cogs.BotModes.value Cogs.BotModes.develop = 2
  ∧ Cogs.BotModes.value Cogs.BotModes.plugin_dev = 4
  ∧ Cogs.BotModes.members = [("production", 1); ("develop", 2); ("plugin_dev", 4)]
  ∧ (∀ m, Cogs.BotModes.value m = Z.shiftl 1 (Z.of_nat (Cogs.BotModes.index m)))
  ∧ (∀ v, (∃ m, Cogs.BotModes.value m = v) ↔ v ∈ [1; 2; 4])
  ∧ (∀ m1 m2, m1 ≠ m2 →
       Z.land (Cogs.BotModes.value m1) (Cogs.BotModes.value m2) = 0).
Proof.
  repeat split; try done.
  - by intros [].
  - intros [[] <-]; set_solver.
  - intros Hv. repeat (apply elem_of_cons in Hv as [->|Hv]);
      [by exists Cogs.BotModes.production | by exists Cogs.BotModes.develop
      | by exists Cogs.BotModes.plugin_dev | set_solver].
  - by intros [] [].
Qed.

(** C10. The Meta cog's [EXT_METADATA = ExtMetadata()] has every flag
    [False]; its mode is 0, and the loader's test [m & 0 != 0] is false for
    each of the three modes: the extension is eligible under none. *)
Theorem default_metadata_loads_under_no_mode :
  Meta.EXT_METADATA = Cogs.mkExtMetadata false false false
  ∧ Cogs.calc_mode (Cogs.to_obj Meta.EXT_METADATA) = 0
  ∧ ∀ m : Cogs.BotModes.t,
      Cogs.BotModes.value m ∈ [1; 2; 4]
      ∧ Cogs.should_load m (Cogs.calc_mode (Cogs.to_obj Meta.EXT_METADATA)) = false.
Proof.
  split; [done|]. split; [done|].
  intros m. split; [|by destruct m].
  destruct m; cbv; repeat first [apply list_elem_of_here | apply list_elem_of_further].
Qed.

Lemma calc_mode_is_bitwise_or_witness :
  [("plugin_dev", true); ("production", true); ("develop", false)]
    ≡ₚ Cogs.to_obj (Cogs.mkExtMetadata true false true)
  ∧ Cogs.calc_mode [("plugin_dev", true); ("production", true); ("develop", false)] = 5.
Proof.
  assert ([("plugin_dev", true); ("production", true); ("develop", false)]
            ≡ₚ Cogs.to_obj (Cogs.mkExtMetadata true false true)) as Hp.
  { apply (bool_decide_unpack _). vm_compute. reflexivity. }
  split; [exact Hp|].
  destruct (calc_mode_is_bitwise_or (Cogs.mkExtMetadata true false true) _ Hp)
    as (_ & Hsum & _).
  exact Hsum.
Defined.

Lemma calc_mode_total_witness :
  Cogs.lookup_attr [("develop", true)] "production" = None
  ∧ 0 ≤ Cogs.calc_mode [("develop", true)] ≤ 7
  ∧ Cogs.calc_mode [("develop", true)]
    = Cogs.calc_mode ([("develop", true)] ++ [("production", false)]).
Proof.
  destruct (calc_mode_total [("develop", true)]) as [Hrange Hmissing].
  split; [reflexivity|]. split; [exact Hrange|].
  apply (Hmissing "production"). reflexivity.
Defined.

Lemma BotModes_single_bits_witness :
  Cogs.BotModes.production ≠ Cogs.BotModes.plugin_dev
  ∧ Z.land (Cogs.BotModes.value Cogs.BotModes.production)
           (Cogs.BotModes.value Cogs.BotModes.plugin_dev) = 0.
Proof.
  assert (Cogs.BotModes.production ≠ Cogs.BotModes.plugin_dev) as Hne by discriminate.
  split; [exact Hne|].
  destruct BotModes_single_bits as (_ & _ & _ & _ & _ & _ & Hdisjoint).
  exact (Hdisjoint _ _ Hne).
Defined.

(** ** Plugin manifests *)

Section ParserFacts.

Import Plugins.

Lemma get_string_missing (entry : Toml.value) (field : string) :
  Toml.entry_get entry field = None → get_string entry field = Err SchemaError.
Proof. intros H. unfold get_string. by rewrite H. Qed.

(** The only way an entry fails is the schema. *)
Lemma plugin_of_entry_error (entry : Toml.value) (e : manifest_error) :
  plugin_of_entry entry = Err e → e = SchemaError.
Proof.
  unfold plugin_of_entry, get_string.
  repeat (match goal with
          | |- context [Toml.entry_get ?x ?k] => destruct (Toml.entry_get x k) as [[]|]
          end; simpl; try congruence).
Qed.

Lemma plugin_of_entry_missing (entry : Toml.value) (field : string) :
  field ∈ required_fields → Toml.entry_get entry field = None →
  plugin_of_entry entry = Err SchemaError.
Proof.
  intros Hin Hnone.
  destruct (plugin_of_entry entry) as [p|e] eqn:Hp.
  - exfalso. revert Hp. unfold plugin_of_entry, required_fields in *.
    repeat (apply elem_of_cons in Hin as [->|Hin]);
      [..|by apply elem_of_nil in Hin];
      rewrite (get_string_missing _ _ Hnone);
      repeat (match goal with
              | |- context [get_string ?x ?k] => destruct (get_string x k)
              end; simpl; try congruence).
  - f_equal. by eapply plugin_of_entry_error.
Qed.

(** One failing element fails the whole sequence. *)
Lemma rmapM_entries_error (items : list Toml.value) (entry : Toml.value) :
  entry ∈ items → plugin_of_entry entry = Err SchemaError →
  rmapM plugin_of_entry items = Err SchemaError.
Proof.
  intros Hin Herr. induction items as [|x items IH]; [by apply elem_of_nil in Hin|].
  simpl. destruct (plugin_of_entry x) as [p|e] eqn:Hx.
  - apply elem_of_cons in Hin as [->|Hin]; [congruence|].
    simpl. by rewrite IH.
  - simpl. f_equal. by eapply plugin_of_entry_error.
Qed.

End ParserFacts.

(** C4. The literal manifest of the test, one [[[plugins]]] table with name,
    folder, description and min_bot_version, parses to exactly one entry with
    those four values, the [folder] key in the field [folder_name]. *)
Theorem parse_valid_plugin_toml :
  Plugins.parse_plugin_toml_from_string TomlFragment.loads Plugins.VALID_PLUGIN_TOML
  = Ok [ {| Plugins.name := "Planet";
            Plugins.folder_name := "planet";
            Plugins.description := "Planet. Tells you which planet you are probably on.";
            Plugins.min_bot_version := "v0.2.0" |} ].
Proof. by vm_compute. Qed.

(** C7. Whatever the TOML reader: text it refuses fails with ParseError; a
    document without the [plugins] key, or with an entry missing one of name,
    folder, description, min_bot_version, fails with SchemaError and gives no
    entries; so does the manifest that lacks only min_bot_version. *)
Theorem parse_plugin_toml_errors (toml_loads : string → option Toml.table) (text : string) :
  (toml_loads text = None →
     Plugins.parse_plugin_toml_from_string toml_loads text = Err Plugins.ParseError)
  ∧ (∀ doc, toml_loads text = Some doc → Toml.get doc "plugins" = None →
       Plugins.parse_plugin_toml_from_string toml_loads text = Err Plugins.SchemaError)
  ∧ (∀ doc items entry field,
       toml_loads text = Some doc →
       Toml.get doc "plugins" = Some (Toml.Array items) →
       entry ∈ items → field ∈ Plugins.required_fields →
       Toml.entry_get entry field = None →
       Plugins.parse_plugin_toml_from_string toml_loads text = Err Plugins.SchemaError)
  ∧ Plugins.parse_plugin_toml_from_string TomlFragment.loads
      Plugins.MANIFEST_WITHOUT_MIN_BOT_VERSION = Err Plugins.SchemaError.
Proof.
  unfold Plugins.parse_plugin_toml_from_string. repeat split.
  - by intros ->.
  - by intros doc -> ->.
  - intros doc items entry field -> -> Hin Hfield Hnone.
    eapply rmapM_entries_error; [done|]. by eapply plugin_of_entry_missing.
Qed.

Lemma parse_plugin_toml_errors_witness :
  TomlFragment.loads "plugins = [" = None
  ∧ Plugins.parse_plugin_toml_from_string TomlFragment.loads "plugins = ["
    = Err Plugins.ParseError
  ∧ Plugins.parse_plugin_toml_from_string TomlFragment.loads
      ("title = " +:+ Plugins.quoted "index") = Err Plugins.SchemaError
  ∧ Plugins.parse_plugin_toml_from_string TomlFragment.loads
      ("[[plugins]]" +:+ String "010"%char ("name = " +:+ Plugins.quoted "Planet"))
    = Err Plugins.SchemaError.
Proof.
  split; [reflexivity|]. split; [|split].
  - destruct (parse_plugin_toml_errors TomlFragment.loads "plugins = [") as (H & _).
    apply H. reflexivity.
  - destruct (parse_plugin_toml_errors TomlFragment.loads
                ("title = " +:+ Plugins.quoted "index")) as (_ & H & _).
    apply (H [("title", Toml.String_ "index")]); reflexivity.
  - destruct (parse_plugin_toml_errors TomlFragment.loads
                ("[[plugins]]" +:+ String "010"%char ("name = " +:+ Plugins.quoted "Planet")))
      as (_ & _ & H & _).
    apply (H [("plugins", Toml.Array [Toml.Table [("name", Toml.String_ "Planet")]])]
             [Toml.Table [("name", Toml.String_ "Planet")]]
             (Toml.Table [("name", Toml.String_ "Planet")])
             "folder").
    + reflexivity.
    + reflexivity.
    + apply list_elem_of_here.
    + apply list_elem_of_further, list_elem_of_here.
    + reflexivity.
Defined.

(** ** Discovery and name resolution *)

Section RegistryFacts.

Import Plugins.

Variable toml_loads : string → option Toml.table.
Variable policy : merge_policy.
Variable read_location : string → location_read.

Lemma keyed_by_name_insert (reg : PluginRegistry) (e : Plugin) :
  keyed_by_name reg → keyed_by_name (<[name e := e]> reg).
Proof. intros H. by apply map_Forall_insert_2. Qed.

Lemma merge_entries_keyed (es : list Plugin) (reg reg' : PluginRegistry) :
  keyed_by_name reg → merge_entries policy reg es = Ok reg' → keyed_by_name reg'.
Proof.
  revert reg. induction es as [|e es IH]; intros reg Hk; simpl.
  - by intros [= <-].
  - destruct (reg !! name e), policy; try discriminate;
      intros H; (eapply IH; [|exact H]); by apply keyed_by_name_insert.
Qed.

Lemma load_manifests_keyed (files : list (string * string)) (reg reg' : PluginRegistry) :
  keyed_by_name reg →
  load_manifests toml_loads policy reg files = Ok reg' → keyed_by_name reg'.
Proof.
  revert reg. induction files as [|[path text] files IH]; intros reg Hk; simpl.
  - by intros [= <-].
  - destruct (parse_plugin_toml_from_string toml_loads text) as [es|]; [|done].
    destruct (merge_entries policy reg es) as [reg1|] eqn:Hm; [|done]. simpl.
    apply IH. by eapply merge_entries_keyed.
Qed.

Lemma scan_keyed (locations : list string) (reg reg' : PluginRegistry) :
  keyed_by_name reg →
  scan toml_loads policy read_location reg locations = Ok reg' → keyed_by_name reg'.
Proof.
  revert reg. induction locations as [|loc locations IH]; intros reg Hk; simpl.
  - by intros [= <-].
  - destruct (read_location loc) as [| |files]; [by apply IH|done|].
    destruct (load_manifests toml_loads policy reg files) as [reg1|] eqn:Hl; [|done].
    simpl. apply IH. by eapply load_manifests_keyed.
Qed.

Lemma find_plugins_keyed (locations : list string) (reg : PluginRegistry) :
  find_plugins toml_loads policy read_location locations = Ok reg → keyed_by_name reg.
Proof. apply scan_keyed. apply map_Forall_empty. Qed.

Lemma elem_of_entries (reg : PluginRegistry) (e : Plugin) :
  e ∈ entries reg ↔ ∃ k, reg !! k = Some e.
Proof.
  unfold entries. rewrite list_elem_of_fmap. split.
  - intros [[k e'] [-> Hin]]. exists k. by apply elem_of_map_to_list.
  - intros [k Hk]. exists (k, e). split; [done|]. by apply elem_of_map_to_list.
Qed.

Lemma resolve_keyed (reg : PluginRegistry) (k : string) (e : Plugin) :
  keyed_by_name reg → reg !! k = Some e → resolve reg (name e) = (Ok e, reg).
Proof.
  intros Hkeyed Hk. unfold resolve.
  destruct (list_find _ _) as [[i e']|] eqn:Hfind.
  - apply list_find_Some in Hfind as (Hi & Hname & _).
    apply list_elem_of_lookup_2, elem_of_entries in Hi as [k' Hk'].
    assert (k' = k) as -> by (rewrite <- (Hkeyed _ _ Hk'), <- (Hkeyed _ _ Hk); done).
    by simplify_eq.
  - apply list_find_None in Hfind. rewrite Forall_forall in Hfind.
    destruct (Hfind e); [|done]. apply elem_of_entries. eauto.
Qed.

(** C5. Whatever the reader, the merge policy and the locations: when
    discovery gives a registry, every entry of it is found again by its own
    name, and the resolver returns that very entry, the registry as it was. *)
Theorem resolve_finds_every_discovered_entry
    (locations : list string) (reg : PluginRegistry) (k : string) (e : Plugin) :
  find_plugins toml_loads policy read_location locations = Ok reg →
  reg !! k = Some e →
  resolve reg (name e) = (Ok e, reg).
Proof.
  intros Hfind Hk. eapply resolve_keyed; [|done]. by eapply find_plugins_keyed.
Qed.

End RegistryFacts.

(** C6. When no entry of the registry has the candidate as its [name], the
    resolver fails with PluginNotFoundError, the error carries the candidate
    itself, and the registry comes back unchanged. *)
Theorem resolve_unknown_name_fails (reg : gmap string Plugins.Plugin) (candidate : string) :
  (∀ k e, reg !! k = Some e → Plugins.name e ≠ candidate) →
  Plugins.resolve reg candidate = (Err (Plugins.PluginNotFoundError candidate), reg).
Proof.
  intros Hnone. unfold Plugins.resolve.
  destruct (list_find _ _) as [[i e]|] eqn:Hfind; [|done].
  apply list_find_Some in Hfind as (Hi & Hname & _).
  apply list_elem_of_lookup_2, elem_of_entries in Hi as [k Hk].
  by destruct (Hnone k e Hk).
Qed.

Section DiscoveryFacts.

Import Plugins.

Variable toml_loads : string → option Toml.table.
Variable policy : merge_policy.
Variable read_location : string → location_read.

Local Abbreviation parse := (parse_plugin_toml_from_string toml_loads).
Local Abbreviation load := (load_manifests toml_loads policy).
Local Abbreviation scan_from := (scan toml_loads policy read_location).
Local Abbreviation find := (find_plugins toml_loads policy read_location).

Lemma load_manifests_app (fs1 fs2 : list (string * string)) (reg : PluginRegistry) :
  load reg (fs1 ++ fs2) = (reg' ← load reg fs1; load reg' fs2).
Proof.
  revert reg. induction fs1 as [|[path text] fs1 IH]; intros reg; simpl; [done|].
  destruct (parse text) as [es|]; [|done].
  destruct (merge_entries policy reg es); simpl; [apply IH|done].
Qed.

Lemma scan_app (l1 l2 : list string) (reg : PluginRegistry) :
  scan_from reg (l1 ++ l2) = (reg' ← scan_from reg l1; scan_from reg' l2).
Proof.
  revert reg. induction l1 as [|loc l1 IH]; intros reg; simpl; [done|].
  destruct (read_location loc) as [| |files]; [apply IH|done|].
  destruct (load reg files); simpl; [apply IH|done].
Qed.

(** Merging fails in one way only. *)
Lemma merge_entries_error (es : list Plugin) (reg : PluginRegistry) (err : discovery_error) :
  merge_entries policy reg es = Err err → ∃ n, err = DuplicatePluginError n.
Proof.
  revert reg. induction es as [|e es IH]; intros reg; simpl; [done|].
  destruct (reg !! name e), policy; eauto. intros [= <-]. eauto.
Qed.

Lemma load_manifests_malformed (files : list (string * string)) (reg reg' : PluginRegistry)
    (path text : string) (e : manifest_error) :
  (path, text) ∈ files → parse text = Err e → load reg files ≠ Ok reg'.
Proof.
  revert reg. induction files as [|[p t] files IH]; intros reg Hin He; simpl.
  - by apply elem_of_nil in Hin.
  - apply elem_of_cons in Hin as [[= <- <-]|Hin]; [by rewrite He|].
    destruct (parse t) as [es|]; [|done].
    destruct (merge_entries policy reg es); simpl; [by apply IH|done].
Qed.

Lemma scan_malformed (locations : list string) (reg reg' : PluginRegistry)
    (loc : string) (files : list (string * string)) (path text : string) (e : manifest_error) :
  loc ∈ locations → read_location loc = Manifests files →
  (path, text) ∈ files → parse text = Err e →
  scan_from reg locations ≠ Ok reg'.
Proof.
  revert reg. induction locations as [|l locations IH]; intros reg Hloc Hread Hin He; simpl.
  - by apply elem_of_nil in Hloc.
  - destruct (decide (l = loc)) as [->|Hne].
    + rewrite Hread.
      destruct (load reg files) eqn:Hl; simpl; [|done].
      by destruct (load_manifests_malformed _ _ _ _ _ _ Hin He Hl).
    + apply elem_of_cons in Hloc as [->|Hloc]; [done|].
      destruct (read_location l) as [| |files']; [by apply IH|done|].
      destruct (load reg files'); simpl; [by apply IH|done].
Qed.

Lemma load_manifests_error (files : list (string * string)) (reg : PluginRegistry)
    (err : discovery_error) :
  load reg files = Err err →
  (∃ n, err = DuplicatePluginError n)
  ∨ (∃ path text e, err = ManifestError path e ∧ (path, text) ∈ files ∧ parse text = Err e).
Proof.
  revert reg. induction files as [|[p t] files IH]; intros reg; simpl; [done|].
  destruct (parse t) as [es|e] eqn:Hp.
  - destruct (merge_entries policy reg es) as [reg1|err1] eqn:Hm; simpl.
    + intros H. destruct (IH _ H) as [?|(path & text & e & -> & Hin & He)]; [by left|].
      right. exists path, text, e. split; [done|]. split; [|done].
      by apply list_elem_of_further.
    + intros [= <-]. left. by eapply merge_entries_error.
  - intros [= <-]. right. exists p, t, e. split; [done|]. split; [|done].
    apply list_elem_of_here.
Qed.

Lemma scan_error (locations : list string) (reg : PluginRegistry) (err : discovery_error) :
  scan_from reg locations = Err err →
  (∃ n, err = DuplicatePluginError n)
  ∨ (∃ loc files path text e,
       err = ManifestError path e ∧ loc ∈ locations ∧ read_location loc = Manifests files
       ∧ (path, text) ∈ files ∧ parse text = Err e)
  ∨ (∃ loc msg, err = IOError loc msg ∧ loc ∈ locations ∧ read_location loc = ReadFailed msg).
Proof.
  revert reg. induction locations as [|l locations IH]; intros reg; simpl; [done|].
  assert (∀ reg1, scan_from reg1 locations = Err err →
    (∃ n, err = DuplicatePluginError n)
    ∨ (∃ loc files path text e,
         err = ManifestError path e ∧ loc ∈ l :: locations
         ∧ read_location loc = Manifests files ∧ (path, text) ∈ files ∧ parse text = Err e)
    ∨ (∃ loc msg, err = IOError loc msg ∧ loc ∈ l :: locations
                  ∧ read_location loc = ReadFailed msg)) as Hrest.
  { intros reg1 H.
    destruct (IH _ H) as [?|[(loc & files & path & text & e & ? & ? & ?)|(loc & msg & ? & ? & ?)]].
    - by left.
    - right; left. exists loc, files, path, text, e. split; [done|].
      split; [by apply list_elem_of_further|done].
    - right; right. exists loc, msg. split; [done|].
      split; [by apply list_elem_of_further|done]. }
  destruct (read_location l) as [|msg|files] eqn:Hread; [apply Hrest| |].
  - intros [= <-]. right; right. exists l, msg. split; [done|].
    split; [apply list_elem_of_here|done].
  - destruct (load reg files) as [reg1|err1] eqn:Hl; simpl; [apply Hrest|].
    intros [= <-].
    destruct (load_manifests_error _ _ _ Hl) as [?|(path & text & e & -> & Hin & He)]; [by left|].
    right; left. exists l, files, path, text, e. split; [done|].
    split; [apply list_elem_of_here|done].
Qed.

(** C8. Whatever the reader and the merge policy: a location that is not
    there is skipped, it adds nothing and fails nothing; a manifest that does
    not parse, in a location that is there, is never passed over: discovery
    does not succeed, and when that manifest is the first thing to go wrong
    the error is its parse error under its own path; an error that names a
    manifest names one that is there and does not parse; and an I/O error
    comes only from a location whose read failed otherwise than by absence. *)
Theorem find_plugins_missing_and_malformed :
  (∀ before after loc, read_location loc = NotFound →
     find (before ++ loc :: after) = find (before ++ after))
  ∧ (∀ locations, (∀ loc, loc ∈ locations → read_location loc = NotFound) →
       find locations = Ok ∅)
  ∧ (∀ locations loc files path text e reg,
       loc ∈ locations → read_location loc = Manifests files →
       (path, text) ∈ files → parse text = Err e →
       find locations ≠ Ok reg)
  ∧ (∀ before after loc reg files_before files_after reg' path text e,
       scan_from ∅ before = Ok reg →
       read_location loc = Manifests (files_before ++ (path, text) :: files_after) →
       load reg files_before = Ok reg' →
       parse text = Err e →
       find (before ++ loc :: after) = Err (ManifestError path e))
  ∧ (∀ locations path e,
       find locations = Err (ManifestError path e) →
       ∃ loc files text,
         loc ∈ locations ∧ read_location loc = Manifests files
         ∧ (path, text) ∈ files ∧ parse text = Err e)
  ∧ (∀ locations loc msg,
       find locations = Err (IOError loc msg) →
       loc ∈ locations ∧ read_location loc = ReadFailed msg).
Proof.
  unfold find_plugins. split_and!.
  - intros before after loc Hread. rewrite !scan_app.
    destruct (scan_from ∅ before); simpl; [|done]. by rewrite Hread.
  - intros locations. generalize (∅ : PluginRegistry) as reg.
    induction locations as [|l locations IH]; intros reg Hall; simpl; [done|].
    rewrite (Hall l) by apply list_elem_of_here.
    apply IH. intros loc Hloc. apply Hall. by apply list_elem_of_further.
  - intros locations loc files path text e reg. apply scan_malformed.
  - intros before after loc reg files_before files_after reg' path text e
      Hbefore Hread Hload He.
    rewrite scan_app, Hbefore. simpl. rewrite Hread, load_manifests_app, Hload.
    simpl. by rewrite He.
  - intros locations path e H.
    destruct (scan_error _ _ _ H)
      as [[n ?]|[(loc & files & p & text & e' & [= -> ->] & ? & ? & ? & ?)|(loc & msg & ? & _)]];
      [done| |done].
    by exists loc, files, text.
  - intros locations loc msg H.
    destruct (scan_error _ _ _ H)
      as [[n ?]|[(l & files & p & text & e' & ? & _)|(l & m & [= -> ->] & ? & ?)]];
      done.
Qed.

End DiscoveryFacts.

(** ** The lockfile hash check *)

Section CheckHashFacts.

Import ExportRequirements.

Variable json_dumps : bool → pyval → result exception string.
Variable sha256_hexdigest : list Byte.byte → string.

(** The loop reads the section through [get] at the listed keys only. *)
Lemma collect_relevant_agree (poetry1 poetry2 : pyval) (keys : list string)
    (acc : list (string * pyval)) :
  (∀ key, key ∈ keys → get poetry1 key = get poetry2 key) →
  collect_relevant poetry1 keys acc = collect_relevant poetry2 keys acc.
Proof.
  revert acc. induction keys as [|key keys IH]; intros acc Hagree; simpl; [done|].
  rewrite <- (Hagree key) by apply list_elem_of_here.
  destruct (get poetry1 key) as [v|]; simpl; [|done].
  apply IH. intros k Hk. apply Hagree. by apply list_elem_of_further.
Qed.

Lemma collect_relevant_dict (items : list (string * pyval)) :
  collect_relevant (PyDict items) _relevant_keys [] = Ok (relevant_mapping items).
Proof. reflexivity. Qed.

Lemma get_hash_agree (content1 content2 poetry1 poetry2 : pyval) :
  poetry_section content1 = Ok poetry1 →
  poetry_section content2 = Ok poetry2 →
  (∀ key, key ∈ _relevant_keys → get poetry1 key = get poetry2 key) →
  get_hash json_dumps sha256_hexdigest content1
  = get_hash json_dumps sha256_hexdigest content2.
Proof.
  intros H1 H2 Hagree. unfold get_hash. rewrite H1, H2. cbn [mbind result_bind].
  by rewrite (collect_relevant_agree poetry1 poetry2).
Qed.

(** C9. Two pyproject contents whose [tool.poetry] sections agree under
    [get] at dependencies, dev-dependencies, source and extras (a key that is
    not there reads as [None]) get the same answer from [check_hash], for
    every hash; and with a section that is a dict the answer is the
    comparison of the hash with the SHA-256 hex digest of the sorted-key JSON
    text of the mapping of those four keys: true exactly when they are
    equal. *)
Theorem check_hash_depends_on_relevant_keys
    (hash : string) (content1 content2 poetry1 poetry2 : pyval) :
  poetry_section content1 = Ok poetry1 →
  poetry_section content2 = Ok poetry2 →
  (∀ key, key ∈ _relevant_keys → get poetry1 key = get poetry2 key) →
  check_hash json_dumps sha256_hexdigest hash content1
  = check_hash json_dumps sha256_hexdigest hash content2
  ∧ ∀ items, poetry1 = PyDict items →
      check_hash json_dumps sha256_hexdigest hash content1
      = (dumped ← json_dumps true (PyDict (relevant_mapping items));
         Ok (String.eqb hash (sha256_hexdigest (encode dumped))))
      ∧ (check_hash json_dumps sha256_hexdigest hash content1 = Ok true
         ↔ ∃ dumped, json_dumps true (PyDict (relevant_mapping items)) = Ok dumped
                     ∧ hash = sha256_hexdigest (encode dumped)).
Proof.
  intros H1 H2 Hagree. split.
  - unfold check_hash. by rewrite (get_hash_agree _ _ _ _ H1 H2 Hagree).
  - intros items ->.
    assert (check_hash json_dumps sha256_hexdigest hash content1
            = (dumped ← json_dumps true (PyDict (relevant_mapping items));
               Ok (String.eqb hash (sha256_hexdigest (encode dumped))))) as Heq.
    { unfold check_hash, get_hash. rewrite H1. cbn [mbind result_bind].
      rewrite collect_relevant_dict. cbn [mbind result_bind].
      by destruct (json_dumps true _). }
    split; [exact Heq|]. rewrite Heq.
    destruct (json_dumps true _) as [dumped|e]; simpl.
    + split.
      * intros [= Hb]. exists dumped. split; [done|]. by apply String.eqb_eq.
      * intros (d & [= <-] & ->). by rewrite String.eqb_refl.
    + split; [done|]. by intros (d & ? & _).
Qed.

End CheckHashFacts.

(** ** The properties at concrete inputs *)

Lemma resolve_finds_every_discovered_entry_witness :
  Plugins.find_plugins TomlFragment.loads Plugins.FailFast Fixtures.read_location
    ["local"; "plugins"] = Ok {["Planet" := Fixtures.planet]}
  ∧ ({["Planet" := Fixtures.planet]} : gmap string Plugins.Plugin) !! "Planet"
    = Some Fixtures.planet
  ∧ Plugins.resolve {["Planet" := Fixtures.planet]} "Planet"
    = (Ok Fixtures.planet, {["Planet" := Fixtures.planet]}).
Proof.
  assert (Plugins.find_plugins TomlFragment.loads Plugins.FailFast Fixtures.read_location
            ["local"; "plugins"] = Ok {["Planet" := Fixtures.planet]}) as Hfind.
  { vm_compute. reflexivity. }
  assert (({["Planet" := Fixtures.planet]} : gmap string Plugins.Plugin) !! "Planet"
          = Some Fixtures.planet) as Hk.
  { vm_compute. reflexivity. }
  split; [exact Hfind|]. split; [exact Hk|].
  exact (resolve_finds_every_discovered_entry TomlFragment.loads Plugins.FailFast
           Fixtures.read_location _ _ _ _ Hfind Hk).
Defined.

Lemma resolve_unknown_name_fails_witness :
  (∀ k e, ({["Planet" := Fixtures.planet]} : gmap string Plugins.Plugin) !! k = Some e →
          Plugins.name e ≠ "planet")
  ∧ Plugins.resolve {["Planet" := Fixtures.planet]} "planet"
    = (Err (Plugins.PluginNotFoundError "planet"), {["Planet" := Fixtures.planet]}).
Proof.
  assert (∀ k e, ({["Planet" := Fixtures.planet]} : gmap string Plugins.Plugin) !! k = Some e →
                 Plugins.name e ≠ "planet") as Hnone.
  { intros k e Hk. apply lookup_singleton_Some in Hk as [_ <-]. discriminate. }
  split; [exact Hnone|].
  exact (resolve_unknown_name_fails _ _ Hnone).
Defined.

Lemma find_plugins_missing_and_malformed_witness :
  Plugins.find_plugins TomlFragment.loads Plugins.LastWriteWins Fixtures.read_location
    (["plugins"] ++ "local" :: ["plugins"])
  = Plugins.find_plugins TomlFragment.loads Plugins.LastWriteWins Fixtures.read_location
      (["plugins"] ++ ["plugins"])
  ∧ Plugins.find_plugins TomlFragment.loads Plugins.LastWriteWins Fixtures.read_location
      ["local"; "remote"] = Ok ∅
  ∧ Plugins.find_plugins TomlFragment.loads Plugins.LastWriteWins Fixtures.read_location
      (["local"] ++ "broken" :: ["index"])
    = Err (Plugins.ManifestError "broken/plugin.toml" Plugins.ParseError)
  ∧ (Plugins.find_plugins TomlFragment.loads Plugins.LastWriteWins Fixtures.read_location
       ["index"; "plugins"] = Err (Plugins.IOError "index" "connection refused")
     ∧ Fixtures.read_location "index" = Plugins.ReadFailed "connection refused").
Proof.
  destruct (find_plugins_missing_and_malformed TomlFragment.loads Plugins.LastWriteWins
              Fixtures.read_location) as (Hskip & Hnone & _ & Hfirst & _ & Hio).
  split; [|split; [|split]].
  - apply Hskip. reflexivity.
  - apply Hnone. intros loc Hloc.
    apply elem_of_cons in Hloc as [->|Hloc]; [reflexivity|].
    apply elem_of_cons in Hloc as [->|Hloc]; [reflexivity|].
    by apply elem_of_nil in Hloc.
  - apply (Hfirst ["local"] ["index"] "broken" ∅
             [("broken/planet.toml", Plugins.VALID_PLUGIN_TOML)] []
             {["Planet" := Fixtures.planet]} "broken/plugin.toml" "plugins = [" Plugins.ParseError).
    + reflexivity.
    + reflexivity.
    + vm_compute. reflexivity.
    + reflexivity.
  - assert (Plugins.find_plugins TomlFragment.loads Plugins.LastWriteWins
              Fixtures.read_location ["index"; "plugins"]
            = Err (Plugins.IOError "index" "connection refused")) as Herr by reflexivity.
    split; [exact Herr|]. exact (proj2 (Hio _ _ _ Herr)).
Defined.

Lemma check_hash_depends_on_relevant_keys_witness :
  ExportRequirements.poetry_section Fixtures.pyproject
    = Ok (ExportRequirements.PyDict Fixtures.poetry)
  ∧ ExportRequirements.poetry_section Fixtures.pyproject_renamed
    = Ok (ExportRequirements.PyDict Fixtures.poetry_renamed)
  ∧ ExportRequirements.check_hash Json.dumps Sha256.hexdigest
      Fixtures.content_hash Fixtures.pyproject
    = ExportRequirements.check_hash Json.dumps Sha256.hexdigest
        Fixtures.content_hash Fixtures.pyproject_renamed
  ∧ ExportRequirements.check_hash Json.dumps Sha256.hexdigest
      Fixtures.content_hash Fixtures.pyproject = Ok true.
Proof.
  assert (∀ key, key ∈ ExportRequirements._relevant_keys →
            ExportRequirements.get (ExportRequirements.PyDict Fixtures.poetry) key
            = ExportRequirements.get (ExportRequirements.PyDict Fixtures.poetry_renamed) key)
    as Hagree.
  { intros key Hin. unfold ExportRequirements._relevant_keys in Hin.
    repeat (apply elem_of_cons in Hin as [->|Hin]; [reflexivity|]).
    by apply elem_of_nil in Hin. }
  destruct (check_hash_depends_on_relevant_keys Json.dumps Sha256.hexdigest
              Fixtures.content_hash Fixtures.pyproject Fixtures.pyproject_renamed
              _ _ eq_refl eq_refl Hagree) as [Hsame Hvalue].
  split; [reflexivity|]. split; [reflexivity|]. split; [exact Hsame|].
  destruct (Hvalue _ eq_refl) as [Heq _].
  rewrite Heq. vm_compute. reflexivity.
Defined.

(** ** Evaluations *)

Example calc_mode_all_flags :
  Cogs.calc_mode (Cogs.to_obj (Cogs.mkExtMetadata true true true)) = 7.
Proof. reflexivity. Qed.

Example calc_mode_develop_only :
  Cogs.calc_mode (Cogs.to_obj (Cogs.ExtMetadata_init None (Some true) None)) = 2.
Proof. reflexivity. Qed.

Example calc_mode_no_attributes : Cogs.calc_mode [] = 0.
Proof. reflexivity. Qed.

Example should_load_develop_only :
  Cogs.should_load Cogs.BotModes.develop 2 = true
  ∧ Cogs.should_load Cogs.BotModes.production 2 = false.
Proof. split; reflexivity. Qed.

Example sha256_abc :
  Sha256.hexdigest (String.list_byte_of_string "abc")
  = "ba7816bf8f01cfea414140de5dae2223b00361a396177a9cb410ff61f20015ad".
Proof. vm_compute. reflexivity. Qed.

Example check_hash_stale_lockfile :
  ExportRequirements.check_hash Json.dumps Sha256.hexdigest
    "0000000000000000000000000000000000000000000000000000000000000000"
    Fixtures.pyproject = Ok false.
Proof. vm_compute. reflexivity. Qed.

Example check_hash_without_tool_table :
  ExportRequirements.check_hash Json.dumps Sha256.hexdigest
    Fixtures.content_hash (ExportRequirements.PyDict [])
  = Err (ExportRequirements.KeyError "tool").
Proof. reflexivity. Qed.

Example find_plugins_duplicate_fail_fast :
  Plugins.find_plugins TomlFragment.loads Plugins.FailFast Fixtures.read_location
    ["plugins"; "plugins"] = Err (Plugins.DuplicatePluginError "Planet").
Proof. vm_compute. reflexivity. Qed.

Example resolve_is_case_sensitive :
  Plugins.resolve {["Planet" := Fixtures.planet]} "PLANET"
  = (Err (Plugins.PluginNotFoundError "PLANET"), {["Planet" := Fixtures.planet]}).
Proof. vm_compute. reflexivity. Qed.

(** * Further properties of the code *)

(** ** Modes and metadata *)

(** The loader's bit for a mode is set in an extension's mask exactly when
    the metadata attribute that bears the mode's name is true: the enum
    members and the dataclass fields line up by name. *)
Theorem mode_bit_is_named_attribute (md : Cogs.ExtMetadata) (m : Cogs.BotModes.t) :
  negb (Z.eqb (Z.land (Cogs.BotModes.value m) (Cogs.calc_mode (Cogs.to_obj md))) 0)
  = Cogs.getattr (Cogs.to_obj md) (Cogs.BotModes.name m) false.
Proof. by destruct md as [[] [] []], m. Qed.

Lemma assign_auto_lookup (names : list string) (count : nat) (last : list Z)
    (i : nat) (n : string) (v : Z) :
  Cogs.assign_auto names count last !! i = Some (n, v) →
  names !! i = Some n ∧ v = 2 ^ Z.of_nat (count + i).
Proof.
  revert count last i. induction names as [|x names IH]; intros count last i; simpl.
  - by rewrite lookup_nil.
  - destruct i as [|i]; simpl.
    + intros [= <- <-]. split; [done|].
      unfold Cogs._generate_next_value_. rewrite Z.shiftl_1_l. do 2 f_equal. lia.
    + intros H. apply IH in H as [Hn ->]. split; [done|]. do 2 f_equal. lia.
Qed.

Lemma pow2_land_distinct (i j : nat) :
  i ≠ j → Z.land (2 ^ Z.of_nat i) (2 ^ Z.of_nat j) = 0.
Proof.
  intros Hne. apply Z.bits_inj'. intros n Hn.
  rewrite Z.land_spec, !Z.pow2_bits_eqb, Z.bits_0 by lia.
  destruct (Z.eqb_spec (Z.of_nat i) n), (Z.eqb_spec (Z.of_nat j) n); try done. lia.
Qed.

(** Any enumeration whose members are all [auto()] under [BitwiseAutoEnum]
    gets, whatever the names and however many, the value [2 ^ i] for its
    member of index [i]; two different members never share a bit. *)
Theorem assign_auto_powers_of_two (names : list string) (i j : nat)
    (ni nj : string) (vi vj : Z) :
  Cogs.assign_auto names 0 [] !! i = Some (ni, vi) →
  Cogs.assign_auto names 0 [] !! j = Some (nj, vj) →
  names !! i = Some ni ∧ vi = 2 ^ Z.of_nat i ∧ (i ≠ j → Z.land vi vj = 0).
Proof.
  intros Hi Hj.
  apply assign_auto_lookup in Hi as [Hni ->]. apply assign_auto_lookup in Hj as [_ ->].
  split; [done|]. split; [done|]. apply pow2_land_distinct.
Qed.

Lemma assign_auto_powers_of_two_witness :
  Cogs.assign_auto ["a"; "b"; "c"; "d"; "e"] 0 [] !! 1%nat = Some ("b", 2)
  ∧ Cogs.assign_auto ["a"; "b"; "c"; "d"; "e"] 0 [] !! 4%nat = Some ("e", 16)
  ∧ 1%nat ≠ 4%nat
  ∧ Z.land 2 16 = 0.
Proof.
  assert (Cogs.assign_auto ["a"; "b"; "c"; "d"; "e"] 0 [] !! 1%nat = Some ("b", 2)) as H1
    by reflexivity.
  assert (Cogs.assign_auto ["a"; "b"; "c"; "d"; "e"] 0 [] !! 4%nat = Some ("e", 16)) as H4
    by reflexivity.
  assert (1%nat ≠ 4%nat) as Hne by lia.
  split; [exact H1|]. split; [exact H4|]. split; [exact Hne|].
  destruct (assign_auto_powers_of_two _ _ _ _ _ _ _ H1 H4) as (_ & _ & Hland).
  exact (Hland Hne).
Defined.

(** ** The lockfile hash check, at its edges *)

Section CheckHashEdges.

Import ExportRequirements.

Variable json_dumps : bool → pyval → result exception string.
Variable sha256_hexdigest : list Byte.byte → string.

(** A pyproject without a [tool] table, or without [poetry] in it, does
    not make [check_hash] answer no: the lookup raises KeyError for the key
    that is missing; and a [poetry] entry that is no table raises
    AttributeError, whatever the hash. *)
Theorem check_hash_missing_section (hash : string) (items : list (string * pyval)) :
  (dict_lookup items "tool" = None →
     check_hash json_dumps sha256_hexdigest hash (PyDict items) = Err (KeyError "tool"))
  ∧ (∀ tool, dict_lookup items "tool" = Some (PyDict tool) →
       dict_lookup tool "poetry" = None →
       check_hash json_dumps sha256_hexdigest hash (PyDict items) = Err (KeyError "poetry"))
  ∧ (∀ tool poetry, dict_lookup items "tool" = Some (PyDict tool) →
       dict_lookup tool "poetry" = Some poetry →
       (∀ section, poetry ≠ PyDict section) →
       check_hash json_dumps sha256_hexdigest hash (PyDict items)
       = Err (AttributeError "get")).
Proof.
  unfold check_hash, get_hash, poetry_section, getitem. split_and!.
  - by intros ->.
  - intros tool Htool Hpoetry. rewrite Htool. cbn [mbind result_bind].
    by rewrite Hpoetry.
  - intros tool poetry Htool Hpoetry Hnot. rewrite Htool. cbn [mbind result_bind].
    rewrite Hpoetry. cbn [mbind result_bind].
    destruct poetry as [| | | | | | |section]; try done. by destruct (Hnot section).
Qed.

Lemma dict_lookup_perm (items items' : list (string * pyval)) (key : string) :
  NoDup items.*1 → items ≡ₚ items' → dict_lookup items key = dict_lookup items' key.
Proof.
  intros Hnd Hp.
  induction Hp as [|[k1 v1] l l' Hp IH|[k1 v1] [k2 v2] l|l l' l'' H1 IH1 H2 IH2].
  - done.
  - simpl. apply NoDup_cons in Hnd as [_ Hnd]. by rewrite IH.
  - simpl in *. destruct (String.eqb_spec k1 key), (String.eqb_spec k2 key); try done.
    subst. apply NoDup_cons in Hnd as [Hnd _]. destruct Hnd. apply list_elem_of_here.
  - rewrite IH1 by done. apply IH2. by rewrite <- H1.
Qed.

(** The order in which the [tool.poetry] table lists its keys does not
    count: two contents whose sections hold the same items in different
    orders get the same answer, or the same exception, for every hash. *)
Theorem check_hash_ignores_key_order (hash : string) (content1 content2 : pyval)
    (items1 items2 : list (string * pyval)) :
  poetry_section content1 = Ok (PyDict items1) →
  poetry_section content2 = Ok (PyDict items2) →
  NoDup items1.*1 →
  items1 ≡ₚ items2 →
  check_hash json_dumps sha256_hexdigest hash content1
  = check_hash json_dumps sha256_hexdigest hash content2.
Proof.
  intros H1 H2 Hnd Hp. unfold check_hash.
  rewrite (get_hash_agree json_dumps sha256_hexdigest _ _ _ _ H1 H2); [done|].
  intros key _. simpl. by rewrite (dict_lookup_perm _ _ key Hnd Hp).
Qed.

End CheckHashEdges.

Lemma check_hash_missing_section_witness :
  ExportRequirements.dict_lookup [("project", ExportRequirements.PyDict [])] "tool" = None
  ∧ ExportRequirements.check_hash Json.dumps Sha256.hexdigest Fixtures.content_hash
      (ExportRequirements.PyDict [("project", ExportRequirements.PyDict [])])
    = Err (ExportRequirements.KeyError "tool")
  ∧ ExportRequirements.check_hash Json.dumps Sha256.hexdigest Fixtures.content_hash
      (ExportRequirements.PyDict
         [("tool", ExportRequirements.PyDict [("black", ExportRequirements.PyDict [])])])
    = Err (ExportRequirements.KeyError "poetry")
  ∧ ExportRequirements.check_hash Json.dumps Sha256.hexdigest Fixtures.content_hash
      (ExportRequirements.PyDict
         [("tool", ExportRequirements.PyDict [("poetry", ExportRequirements.PyStr "x")])])
    = Err (ExportRequirements.AttributeError "get").
Proof.
  split; [reflexivity|]. split; [|split].
  - destruct (check_hash_missing_section Json.dumps Sha256.hexdigest Fixtures.content_hash
                [("project", ExportRequirements.PyDict [])]) as (H & _).
    apply H. reflexivity.
  - destruct (check_hash_missing_section Json.dumps Sha256.hexdigest Fixtures.content_hash
                [("tool", ExportRequirements.PyDict [("black", ExportRequirements.PyDict [])])])
      as (_ & H & _).
    apply (H [("black", ExportRequirements.PyDict [])]); reflexivity.
  - destruct (check_hash_missing_section Json.dumps Sha256.hexdigest Fixtures.content_hash
                [("tool", ExportRequirements.PyDict [("poetry", ExportRequirements.PyStr "x")])])
      as (_ & _ & H).
    apply (H [("poetry", ExportRequirements.PyStr "x")] (ExportRequirements.PyStr "x"));
      [reflexivity|reflexivity|discriminate].
Defined.

Lemma check_hash_ignores_key_order_witness :
  ExportRequirements.poetry_section
    (ExportRequirements.PyDict
       [("tool", ExportRequirements.PyDict
                   [("poetry", ExportRequirements.PyDict (rev Fixtures.poetry))])])
  = Ok (ExportRequirements.PyDict (rev Fixtures.poetry))
  ∧ NoDup Fixtures.poetry.*1
  ∧ Fixtures.poetry ≡ₚ rev Fixtures.poetry
  ∧ ExportRequirements.check_hash Json.dumps Sha256.hexdigest Fixtures.content_hash
      (ExportRequirements.PyDict
         [("tool", ExportRequirements.PyDict
                     [("poetry", ExportRequirements.PyDict (rev Fixtures.poetry))])])
    = Ok true.
Proof.
  assert (NoDup Fixtures.poetry.*1) as Hnd.
  { apply (bool_decide_unpack _). vm_compute. reflexivity. }
  assert (Fixtures.poetry ≡ₚ rev Fixtures.poetry) as Hp by apply Permutation_rev.
  split; [reflexivity|]. split; [exact Hnd|]. split; [exact Hp|].
  rewrite <- (check_hash_ignores_key_order Json.dumps Sha256.hexdigest Fixtures.content_hash
                Fixtures.pyproject
                (ExportRequirements.PyDict
                   [("tool", ExportRequirements.PyDict
                               [("poetry", ExportRequirements.PyDict (rev Fixtures.poetry))])])
                Fixtures.poetry (rev Fixtures.poetry)
                eq_refl eq_refl Hnd Hp).
  vm_compute. reflexivity.
Defined.

(** ** The requirements export *)

Section MainFacts.

Import ExportRequirements Requirements.

Variable lib : pylib.
Variable MESSAGE : string.

Local Abbreviation dep_step' := (dep_step lib).
Local Abbreviation add_marker := (add_platform_marker lib).

(** *** Dicts with string keys *)

Lemma lookup_elem_of {A} (d : list (string * A)) (k : string) :
  k ∈ d.*1 ↔ is_Some (lookup d k).
Proof.
  induction d as [|[k' x] d IH]; csimpl.
  - split; [by intros ?%elem_of_nil|by intros [? ?]].
  - destruct (String.eqb_spec k' k) as [->|Hne].
    + split; [eauto|]. intros _. apply list_elem_of_here.
    + rewrite elem_of_cons, IH. split; [|by right]. by intros [?|?].
Qed.

Lemma setitem_keys_present {A} (d : list (string * A)) (k : string) (v : A) :
  k ∈ d.*1 → (setitem d k v).*1 = d.*1.
Proof.
  induction d as [|[k' x] d IH]; csimpl; [by intros ?%elem_of_nil|].
  destruct (String.eqb_spec k' k) as [->|Hne]; [done|].
  intros [?|Hin]%elem_of_cons; [done|]. csimpl. by rewrite IH.
Qed.

Lemma setitem_keys_absent {A} (d : list (string * A)) (k : string) (v : A) :
  k ∉ d.*1 → (setitem d k v).*1 = d.*1 ++ [k].
Proof.
  induction d as [|[k' x] d IH]; csimpl; [done|].
  intros Hnot. apply not_elem_of_cons in Hnot as [Hne Hnot].
  destruct (String.eqb_spec k' k) as [->|_]; [done|]. csimpl. by rewrite IH.
Qed.

Lemma setitem_elem_of {A} (d : list (string * A)) (k : string) (v : A) (n : string) :
  n ∈ (setitem d k v).*1 ↔ n = k ∨ n ∈ d.*1.
Proof.
  destruct (decide (k ∈ d.*1)) as [Hin|Hnot].
  - rewrite setitem_keys_present by done. split; [by right|]. by intros [->|?].
  - rewrite setitem_keys_absent, elem_of_app, list_elem_of_singleton by done.
    split; intros [?|?]; auto.
Qed.

Lemma setitem_NoDup {A} (d : list (string * A)) (k : string) (v : A) :
  NoDup d.*1 → NoDup (setitem d k v).*1.
Proof.
  intros Hnd. destruct (decide (k ∈ d.*1)) as [Hin|Hnot].
  - by rewrite setitem_keys_present.
  - rewrite setitem_keys_absent by done. apply NoDup_app. split; [done|].
    split; [|apply NoDup_singleton]. intros x Hx ->%list_elem_of_singleton. done.
Qed.

Lemma lookup_setitem {A} (d : list (string * A)) (k : string) (v : A) (n : string) :
  lookup (setitem d k v) n = if decide (n = k) then Some v else lookup d n.
Proof.
  induction d as [|[k' x] d IH]; simpl.
  - destruct (String.eqb_spec k n), (decide (n = k)); congruence.
  - destruct (String.eqb_spec k' k) as [->|Hne]; simpl.
    + destruct (String.eqb_spec k n), (decide (n = k)); congruence.
    + rewrite IH. destruct (String.eqb_spec k' n), (decide (n = k)); congruence.
Qed.

Lemma setitem_elem_of_value {A} (d : list (string * A)) (k : string) (v : A)
    (n : string) (x : A) :
  (n, x) ∈ setitem d k v → (n = k ∧ x = v) ∨ (n, x) ∈ d.
Proof.
  induction d as [|[k' y] d IH]; simpl.
  - intros [= -> ->]%list_elem_of_singleton. by left.
  - destruct (String.eqb_spec k' k) as [->|Hne].
    + intros [[= -> ->]|Hin]%elem_of_cons; [by left|]. right. by apply list_elem_of_further.
    + intros [[= -> ->]|Hin]%elem_of_cons; [right; apply list_elem_of_here|].
      destruct (IH Hin) as [?|?]; [by left|]. right. by apply list_elem_of_further.
Qed.

Lemma update_values {A} (P : A → Prop) (d other : list (string * A)) :
  Forall (λ kv, P kv.2) d → Forall (λ kv, P kv.2) other →
  Forall (λ kv, P kv.2) (update d other).
Proof.
  unfold update. revert d. induction other as [|[k v] other IH]; intros d Hd Ho; simpl; [done|].
  apply Forall_cons in Ho as [Hv Ho]. apply IH; [|done].
  apply Forall_forall. intros [n x] Hin.
  apply setitem_elem_of_value in Hin as [[-> ->]|Hin]; [done|].
  by apply (proj1 (Forall_forall _ _) Hd (n, x)).
Qed.

(** *** Loops *)

Lemma foldM_app {S X} (f : S → X → result main_error S) (st : S) (xs ys : list X) :
  foldM f st (xs ++ ys) = (st' ← foldM f st xs; foldM f st' ys).
Proof.
  revert st. induction xs as [|x xs IH]; intros st; simpl; [done|].
  destruct (f st x); simpl; [apply IH|done].
Qed.


Lemma foldM_invariant {S X} (f : S → X → result main_error S) (I : S → Prop)
    (st : S) (xs : list X) (r : S) :
  (∀ st' x st'', I st' → f st' x = Ok st'' → I st'') →
  I st → foldM f st xs = Ok r → I r.
Proof.
  intros Hstep. revert st. induction xs as [|x xs IH]; intros st Hst; simpl.
  - by intros [= <-].
  - destruct (f st x) as [st'|] eqn:Hf; simpl; [|done]. apply IH. by eapply Hstep.
Qed.

End MainFacts.

Section MainLoops.

Import ExportRequirements Requirements.

Variable lib : pylib.
Variable MESSAGE : string.

(** A package of category main under the name [n]. *)
Local Abbreviation main_package p n :=
  (getitem p "category" = Ok (PyStr "main") ∧ getitem p "name" = Ok (PyStr n)).

(** The value kept under a key is a table of that name. *)
Local Abbreviation named md :=
  (Forall (λ kv : string * pyval, getitem kv.2 "name" = Ok (PyStr kv.1)) md).

Lemma eq_str_true (v : pyval) (text : string) :
  eq_str v text = true ↔ v = PyStr text.
Proof.
  destruct v; simpl; try (split; [done|discriminate]).
  rewrite String.eqb_eq. split; [by intros ->|by intros [= ->]].
Qed.

Lemma lift_ok {A} (r : result exception A) (a : A) : lift r = Ok a ↔ r = Ok a.
Proof. destruct r; simpl; split; congruence. Qed.

Lemma collect_main_spec (packages : list pyval) (acc md : list (string * pyval)) :
  collect_main acc packages = Ok md →
  (∀ n, n ∈ md.*1 ↔ n ∈ acc.*1 ∨ ∃ p, p ∈ packages ∧ main_package p n)
  ∧ (NoDup acc.*1 → NoDup md.*1)
  ∧ (named acc → named md).
Proof.
  revert acc. induction packages as [|p packages IH]; intros acc; simpl.
  - intros [= <-]. split; [|done]. intros n. split; [by left|].
    intros [?|(p & ?%elem_of_nil & _)]; done.
  - destruct (getitem p "category") as [category|] eqn:Hcat; simpl; [|done].
    destruct (eq_str category "main") eqn:Hmain.
    + apply eq_str_true in Hmain as ->.
      destruct (getitem p "name") as [name|] eqn:Hname; simpl; [|done].
      destruct name as [| | | |n| | |]; try done.
      intros H. destruct (IH _ H) as (Hkeys & Hnd & Hnamed). split_and!.
      * intros x. rewrite Hkeys, setitem_elem_of. split.
        -- intros [[->|?]|(q & Hq & ?)]; [right|by left|right].
           ++ exists p. split; [apply list_elem_of_here|done].
           ++ exists q. split; [by apply list_elem_of_further|done].
        -- intros [?|(q & [->|Hq]%elem_of_cons & Hc & Hn)].
           ++ left. by right.
           ++ left. left. congruence.
           ++ right. by exists q.
      * intros ?. by apply Hnd, setitem_NoDup.
      * intros Hacc. apply Hnamed. apply Forall_forall. intros [k v] Hin.
        apply setitem_elem_of_value in Hin as [[-> ->]|Hin]; [done|].
        by apply (proj1 (Forall_forall _ _) Hacc (k, v)).
    + intros H. destruct (IH _ H) as (Hkeys & Hnd & Hnamed). split_and!; [|done..].
      intros x. rewrite Hkeys. split.
      * intros [?|(q & Hq & ?)]; [by left|]. right. exists q.
        split; [by apply list_elem_of_further|done].
      * intros [?|(q & [->|Hq]%elem_of_cons & Hc & Hn)]; [by left| |].
        -- rewrite Hcat in Hc. injection Hc as ->. by vm_compute in Hmain.
        -- right. by exists q.
Qed.


End MainLoops.

Section DepLoop.

Import ExportRequirements Requirements.

Variable lib : pylib.
Variable MESSAGE : string.

Local Abbreviation marked tm :=
  (Forall (λ kv : string * pyval, has_markers kv.2 = true) tm).

(** Case analysis on the result that a sequencing step waits for. *)
Local Ltac step H :=
  match type of H with
  | context [mbind _ ?r] =>
      let E := fresh "E" in
      destruct r eqn:E; cbn [mbind result_bind] in H; [|discriminate H]
  end.

Lemma marked_dependencies_marked (dep_deps : pyval) (kept : list (string * pyval)) :
  marked_dependencies dep_deps = Ok kept → marked kept.
Proof.
  destruct dep_deps as [| | | | | | |items]; try done. intros [= <-].
  apply Forall_forall. intros kv Hin. apply list_elem_of_In, filter_In in Hin. tauto.
Qed.

Lemma dep_step_ok (deps : pyval) (dl dl' : list (string * string))
    (tm tm' : list (string * pyval)) (dep : pyval) :
  dep_step lib deps (dl, tm) dep = Ok (dl', tm') →
  (∃ n line, getitem dep "name" = Ok (PyStr n) ∧ dl' = setitem dl n line)
  ∧ (marked tm → marked tm').
Proof.
  unfold dep_step. intros H.
  step H. step H. step H. step H. step H.
  destruct (lift (getitem dep "name")) as [name|] eqn:Hname; cbn [mbind result_bind] in H;
    [|discriminate H].
  apply lift_ok in Hname.
  destruct name as [| | | |n| | |]; try discriminate H. injection H as <- <-.
  split; [by eauto|]. intros Htm.
  match goal with E : (if is_not_none ?d then _ else _) = Ok _ |- _ =>
    destruct (is_not_none d); [|by injection E as <-] end.
  match goal with E : mbind _ (marked_dependencies ?d) = Ok _ |- _ =>
    destruct (marked_dependencies d) as [kept|] eqn:Hkept;
      cbn [mbind result_bind] in E; [|discriminate E]; injection E as <- end.
  destruct (0 <? length kept)%nat; [|done].
  apply (update_values (λ v, has_markers v = true)); [done|].
  by eapply marked_dependencies_marked.
Qed.

(** The loop over the main packages hands on, as dependencies to mark, only
    tables that have a [markers] entry; and it writes one line under each
    package name. *)
Lemma dep_loop_spec (deps : pyval) (md : list (string * pyval))
    (dl dl' : list (string * string)) (tm tm' : list (string * pyval)) :
  Forall (λ kv : string * pyval, getitem kv.2 "name" = Ok (PyStr kv.1)) md →
  foldM (dep_step lib deps) (dl, tm) md.*2 = Ok (dl', tm') →
  (∀ n, n ∈ dl'.*1 ↔ n ∈ dl.*1 ∨ n ∈ md.*1)
  ∧ (NoDup dl.*1 → NoDup dl'.*1)
  ∧ (marked tm → marked tm').
Proof.
  revert dl tm. induction md as [|[k v] md IH]; intros dl tm Hnamed.
  - intros [= <- <-]. split_and!; [|done|done]. intros n. split; [by left|].
    by intros [?|?%elem_of_nil].
  - apply Forall_cons in Hnamed as [Hk Hnamed]. simpl in Hk.
    rewrite !fmap_cons. cbn [foldM snd fst].
    destruct (dep_step lib deps (dl, tm) v) as [[dl1 tm1]|] eqn:Hstep;
      cbn [mbind result_bind]; [|done].
    apply dep_step_ok in Hstep as [(n & line & Hn & ->) Htm].
    assert (n = k) as -> by congruence.
    intros H. destruct (IH _ _ Hnamed H) as (Hkeys & Hnd & Hmarked). split_and!.
    + intros x. rewrite Hkeys, setitem_elem_of, elem_of_cons. tauto.
    + intros ?. by apply Hnd, setitem_NoDup.
    + intros ?. by apply Hmarked, Htm.
Qed.

End DepLoop.

Section MarkerLoop.

Import ExportRequirements Requirements.

Variable lib : pylib.
Variable MESSAGE : string.

Local Ltac step H :=
  match type of H with
  | context [mbind _ ?r] =>
      let E := fresh "E" in
      destruct r eqn:E; cbn [mbind result_bind] in H; [|discriminate H]
  end.

Lemma has_markers_getitem (v : pyval) :
  has_markers v = true → ∃ m, getitem v "markers" = Ok m ∧ m ≠ PyNone.
Proof.
  destruct v as [| | | | | | |items]; try done. unfold has_markers. simpl.
  destruct (dict_lookup items "markers") as [m|]; [|done].
  intros Hm. exists m. split; [done|]. by intros ->.
Qed.

Lemma add_platform_marker_ok (dl dl' : list (string * string)) (k : string) (v : pyval) :
  add_platform_marker lib dl (k, v) = Ok dl' →
  k ∈ dl.*1 ∧ (∃ s, getitem v "markers" = Ok (PyStr s)) ∧ dl'.*1 = dl.*1.
Proof.
  unfold add_platform_marker.
  destruct (lookup dl k) as [line|] eqn:Hline; [|done]. intros H.
  assert (k ∈ dl.*1) as Hk by (apply lookup_elem_of; eauto).
  destruct (getitem v "markers") as [m|] eqn:Hm; cbn [lift mbind result_bind] in H;
    [|discriminate H].
  destruct m as [| | | |s| | |]; try discriminate H.
  cbn [as_str mbind result_bind] in H. injection H as <-.
  split; [done|]. split; [by eauto|]. by apply setitem_keys_present.
Qed.

Lemma add_platform_marker_runs (dl : list (string * string)) (k s : string) (v : pyval) :
  k ∈ dl.*1 → getitem v "markers" = Ok (PyStr s) →
  ∃ dl', add_platform_marker lib dl (k, v) = Ok dl'.
Proof.
  intros [line Hline]%lookup_elem_of Hm. unfold add_platform_marker.
  rewrite Hline, Hm. cbn [lift as_str mbind result_bind]. eauto.
Qed.

Lemma marker_loop_ok (dl dl' : list (string * string))
    (to_add_markers : list (string * pyval)) :
  foldM (add_platform_marker lib) dl to_add_markers = Ok dl' →
  dl'.*1 = dl.*1
  ∧ ∀ k v, (k, v) ∈ to_add_markers →
      k ∈ dl.*1 ∧ ∃ s, getitem v "markers" = Ok (PyStr s).
Proof.
  revert dl. induction to_add_markers as [|[k v] tm IH]; intros dl.
  - intros [= <-]. split; [done|]. by intros k v ?%elem_of_nil.
  - cbn [foldM].
    destruct (add_platform_marker lib dl (k, v)) as [dl1|] eqn:Hstep;
      cbn [mbind result_bind]; [|done].
    apply add_platform_marker_ok in Hstep as (Hk & Hs & Hkeys).
    intros H. destruct (IH _ H) as [Hkeys' Hall]. split; [congruence|].
    intros k' v' [[= -> ->]|Hin]%elem_of_cons; [done|].
    rewrite <- Hkeys. by apply Hall.
Qed.

(** The last loop comes to its end exactly when every dependency it has to
    mark has a line, which is when it is a main package itself, and a
    [markers] entry that is a string; it then leaves the package names of the
    lines as they were. One that has no line stops the run with KeyError. *)
Theorem platform_marker_loop_needs_lines (dl : list (string * string))
    (to_add_markers : list (string * pyval)) :
  (∀ dl', foldM (add_platform_marker lib) dl to_add_markers = Ok dl' →
     dl'.*1 = dl.*1
     ∧ ∀ k v, (k, v) ∈ to_add_markers →
         k ∈ dl.*1 ∧ ∃ s, getitem v "markers" = Ok (PyStr s))
  ∧ ((∀ k v, (k, v) ∈ to_add_markers →
        k ∈ dl.*1 ∧ ∃ s, getitem v "markers" = Ok (PyStr s)) →
     ∃ dl', foldM (add_platform_marker lib) dl to_add_markers = Ok dl')
  ∧ (∀ k v rest, to_add_markers = (k, v) :: rest → k ∉ dl.*1 →
       foldM (add_platform_marker lib) dl to_add_markers = Err (Raised (KeyError k))).
Proof.
  split_and!.
  - intros dl'. apply marker_loop_ok.
  - revert dl. induction to_add_markers as [|[k v] tm IH]; intros dl Hall.
    + by exists dl.
    + destruct (Hall k v) as [Hk [s Hs]]; [apply list_elem_of_here|].
      destruct (add_platform_marker_runs dl k s v Hk Hs) as [dl1 Hstep].
      cbn [foldM]. rewrite Hstep. cbn [mbind result_bind]. apply IH.
      intros k' v' Hin. apply add_platform_marker_ok in Hstep as (_ & _ & ->).
      apply Hall. by apply list_elem_of_further.
  - intros k v rest -> Hk. cbn [foldM]. unfold add_platform_marker.
    destruct (lookup dl k) as [line|] eqn:Hline; [|done].
    destruct Hk. apply lookup_elem_of. eauto.
Qed.

(** What the loop over the main packages keeps in [to_add_markers] is only
    tables with a [markers] entry that is not [None], whatever the lock file
    holds: in the last loop [v["markers"]] finds its key. *)
Theorem marked_dependencies_have_markers (pyproject_deps : pyval) (deps : list pyval)
    (dl : list (string * string)) (to_add_markers : list (string * pyval))
    (k : string) (v : pyval) :
  foldM (dep_step lib pyproject_deps) ([], []) deps = Ok (dl, to_add_markers) →
  (k, v) ∈ to_add_markers →
  ∃ m, getitem v "markers" = Ok m ∧ m ≠ PyNone.
Proof.
  intros Hloop Hin. apply has_markers_getitem.
  assert (Forall (λ kv : string * pyval, has_markers kv.2 = true) to_add_markers) as Hall.
  { apply (foldM_invariant (dep_step lib pyproject_deps)
             (λ st, Forall (λ kv : string * pyval, has_markers kv.2 = true) st.2)
             ([], []) deps (dl, to_add_markers)); [|by apply Forall_nil|done].
    intros [dl1 tm1] dep [dl2 tm2] Hinv Hstep. simpl in *.
    by apply (dep_step_ok lib _ _ _ _ _ _ Hstep). }
  by apply (proj1 (Forall_forall _ _) Hall (k, v)).
Qed.

End MarkerLoop.

Section MainRuns.

Import ExportRequirements Requirements.

Variable lib : pylib.
Variable MESSAGE : string.

Local Ltac step H :=
  match type of H with
  | context [mbind _ ?r] =>
      let E := fresh "E" in
      destruct r eqn:E; cbn [mbind result_bind] in H; [|discriminate H]
  end.

(** The carriage return as a one-character string. *)
Local Abbreviation cr := (String "013"%char EmptyString).

Lemma universal_newlines_without_cr (s : string) :
  Text.contains cr s = false → Text.universal_newlines s = s.
Proof.
  induction s as [|c s IH]; [done|]. cbn [Text.contains Text.startswith].
  intros [H1 H2]%orb_false_elim.
  assert (Text.startswith s EmptyString = true) as Hnil by by destruct s.
  rewrite Hnil, andb_true_r in H1. apply Ascii.eqb_neq in H1.
  assert (Text.universal_newlines (String c s) = String c (Text.universal_newlines s)) as ->.
  { destruct c as [[] [] [] [] [] [] [] []]; try done. }
  by rewrite IH.
Qed.

(** The lines below the notice are in sorted order, and they are the lines
    of [dependency_lines], none lost and none twice: each is a package name
    followed by what was collected for it, without the blanks at its end. *)
Lemma requirement_lines_sorted (dependency_lines : list (string * string)) :
  Sorted String.le (requirement_lines lib dependency_lines)
  ∧ requirement_lines lib dependency_lines
    ≡ₚ (λ kv, kv.1 +:+ Text.rstrip (str_isspace lib) kv.2) <$> dependency_lines.
Proof.
  unfold requirement_lines, Text.sorted. split.
  - apply Sorted_merge_sort. apply _.
  - apply merge_sort_Permutation.
Qed.

(** The text that is generated is the notice, an empty line, and lines in
    sorted order, each closed by a newline: one line for each name that a
    package of category main bears in the lock file, beginning with that
    name, and for no other name. Packages of another category are left out,
    and a name that comes twice gives one line. *)
Theorem generate_lists_main_packages (pyproject lockfile : pyval)
    (packages : list pyval) (txt : string) :
  getitem lockfile "package" = Ok (PyList packages) →
  generate lib MESSAGE pyproject lockfile = Ok txt →
  ∃ (dependency_lines : list (string * string)) (lines : list string),
    txt = (MESSAGE +:+ (nl +:+ nl)) +:+ (Text.join nl lines +:+ nl)
    ∧ Sorted String.le lines
    ∧ lines ≡ₚ (λ kv, kv.1 +:+ Text.rstrip (str_isspace lib) kv.2) <$> dependency_lines
    ∧ NoDup dependency_lines.*1
    ∧ ∀ n, n ∈ dependency_lines.*1
           ↔ ∃ p, p ∈ packages ∧ getitem p "category" = Ok (PyStr "main")
                  ∧ getitem p "name" = Ok (PyStr n).
Proof.
  intros Hpackages H. unfold generate in H. rewrite Hpackages in H.
  step H. step H. step H. cbn [lift py_iter mbind result_bind] in H.
  destruct (collect_main [] packages) as [md|] eqn:Hmd; cbn [mbind result_bind] in H;
    [|discriminate H].
  destruct (foldM _ _ md.*2) as [[dl tm]|] eqn:Hloop; cbn [mbind result_bind fst snd] in H;
    [|discriminate H].
  destruct (foldM _ dl tm) as [dl'|] eqn:Hmarkers; cbn [mbind result_bind] in H;
    [|discriminate H].
  injection H as <-.
  apply collect_main_spec in Hmd as (Hkeys & Hnd & Hnamed).
  apply (dep_loop_spec lib) in Hloop as (Hkeys' & Hnd' & _); [|by apply Hnamed, Forall_nil].
  destruct (marker_loop_ok lib _ _ _ Hmarkers) as [Hsame' _].
  exists dl', (requirement_lines lib dl'). split; [done|].
  destruct (requirement_lines_sorted dl') as [Hsorted Hperm].
  split; [done|]. split; [done|]. rewrite Hsame'. split.
  - apply Hnd', NoDup_nil_2.
  - intros n. rewrite Hkeys', Hkeys. split.
    + intros [?%elem_of_nil|[?%elem_of_nil|?]]; done.
    + intros ?. right. by right.
Qed.



(** A second run on what the first run wrote changes nothing: when a run
    writes a text that has no carriage return in it, it exits with 1, and
    the same run on the file as it reads afterwards exits with 0, writes
    nothing and prints nothing. *)
Theorem main_second_run_is_quiet (req_path : string) (pyproject lockfile : pyval)
    (existing : option string) (should_validate_hash : bool) (o : outcome) (txt : string) :
  main lib MESSAGE req_path pyproject lockfile existing should_validate_hash = Ok o →
  written o = Some txt →
  Text.contains cr txt = false →
  exit_code o = 1
  ∧ existing ≠ Some txt
  ∧ main lib MESSAGE req_path pyproject lockfile
      (Some (Text.universal_newlines txt)) should_validate_hash
    = Ok (mkOutcome 0 None []).
Proof.
  unfold main. intros H Hwritten Hcr.
  rewrite (universal_newlines_without_cr _ Hcr).
  destruct (if should_validate_hash then _ else _) as [[]|]; cbn [mbind result_bind] in *;
    [by injection H as <-| |done].
  destruct (generate lib MESSAGE pyproject lockfile) as [req_txt|];
    cbn [mbind result_bind] in *; [|done].
  case_bool_decide as Hsame; injection H as <-; [done|].
  injection Hwritten as <-. split; [done|]. split; [done|].
  by rewrite bool_decide_eq_true_2.
Qed.

(** A run depends on the two files through little. Of the lock file it
    reads the [package] list and, when it validates the hash, the [metadata]
    table; of the pyproject it reads the [tool.poetry] table, and of that
    the four tables the hash covers, [dependencies] among them. Two pairs of
    files that agree there make the same run: the same exit code, the same
    text written, the same lines printed, or the same exception. *)
Theorem main_reads_relevant_tables_only (req_path : string)
    (pyproject pyproject' lockfile lockfile' : pyval)
    (poetry poetry' : list (string * pyval)) (existing : option string)
    (should_validate_hash : bool) :
  poetry_section pyproject = Ok (PyDict poetry) →
  poetry_section pyproject' = Ok (PyDict poetry') →
  (∀ key, key ∈ _relevant_keys → dict_lookup poetry key = dict_lookup poetry' key) →
  getitem lockfile "package" = getitem lockfile' "package" →
  (should_validate_hash = true →
   getitem lockfile "metadata" = getitem lockfile' "metadata") →
  main lib MESSAGE req_path pyproject lockfile existing should_validate_hash
  = main lib MESSAGE req_path pyproject' lockfile' existing should_validate_hash.
Proof.
  intros Hpoetry Hpoetry' Hagree Hpackage Hmetadata.
  assert (get_hash (json_dumps lib) (sha256_hexdigest lib) pyproject
          = get_hash (json_dumps lib) (sha256_hexdigest lib) pyproject') as Hhash.
  { apply (get_hash_agree _ _ _ _ _ _ Hpoetry Hpoetry').
    intros key Hkey. cbn [get]. by rewrite (Hagree key Hkey). }
  assert (∀ hash, check_hash_value lib hash pyproject = check_hash_value lib hash pyproject')
    as Hcheck.
  { intros hash. unfold check_hash_value, check_hash. by rewrite Hhash. }
  assert (generate lib MESSAGE pyproject lockfile = generate lib MESSAGE pyproject' lockfile')
    as Hgenerate.
  { unfold generate, poetry_section in *. rewrite Hpackage.
    destruct (getitem pyproject "tool") as [tool|]; cbn [mbind result_bind] in Hpoetry;
      [|discriminate Hpoetry].
    destruct (getitem pyproject' "tool") as [tool'|]; cbn [mbind result_bind] in Hpoetry';
      [|discriminate Hpoetry'].
    cbn [lift mbind result_bind]. rewrite Hpoetry, Hpoetry'. cbn [lift mbind result_bind].
    assert (getitem (PyDict poetry) "dependencies" = getitem (PyDict poetry') "dependencies")
      as -> by (cbn [getitem]; rewrite (Hagree "dependencies"); [done|apply list_elem_of_here]).
    done. }
  unfold main. rewrite Hgenerate.
  destruct should_validate_hash; [|done].
  rewrite (Hmetadata eq_refl).
  destruct (getitem lockfile' "metadata") as [metadata|]; cbn [lift mbind result_bind];
    [|done].
  destruct (getitem metadata "content-hash") as [hash|]; cbn [lift mbind result_bind];
    [|done].
  by rewrite Hcheck.
Qed.

End MainRuns.

(** ** The two patterns of the requirements export *)

Section RegexFacts.

Import ExportRequirements Requirements Ascii7.

Variable lib : pylib.
Hypothesis Hlib : ascii_tables lib.

Lemma rep_greedy_all {A} (p : string → bool) (ds s' : list string) (lo : nat)
    (hi : option nat) (k : list string → option A) (r : A) :
  Forall (λ c, p c = true) ds →
  (lo ≤ length ds)%nat →
  match hi with
  | None => match s' with c :: _ => p c = false | [] => True end
  | Some h => h = length ds ∨ ((length ds < h)%nat ∧ match s' with c :: _ => p c = false | [] => True end)
  end →
  k s' = Some r →
  Re.rep true p lo hi (ds ++ s') k = Some r.
Proof.
  intros Hds. revert lo hi. induction Hds as [|c ds Hc Hds IH]; intros lo hi Hlo Hhi Hk.
  - simpl in Hlo. assert (lo = 0%nat) as -> by lia. simpl.
    destruct s' as [|c s']; simpl.
    + by rewrite Hk.
    + rewrite Hk. destruct hi as [[|h]|]; simpl in *; try done.
      * destruct Hhi as [?|[? ->]]; [lia|done].
      * by rewrite Hhi.
  - simpl in *. rewrite Hc.
    destruct hi as [[|h]|].
    + destruct Hhi as [?|[? _]]; lia.
    + rewrite (IH (pred lo) (Some h)); [done|lia| |done].
      destruct Hhi as [?|[? ?]]; [left; lia|right; split; [lia|done]].
    + by rewrite (IH (pred lo) None); [|lia|done|done].
Qed.


Lemma chars_ascii (a : ascii) (rest : string) :
  is_ascii a → Text.chars (String a rest) = single a :: Text.chars rest.
Proof.
  unfold is_ascii. intros Ha. cbn [Text.chars].
  destruct (N.leb_spec 128 (Ascii.N_of_ascii a)); [lia|done].
Qed.

Lemma chars_text (l : list ascii) (rest : string) :
  Forall is_ascii l → Text.chars (text l +:+ rest) = (single <$> l) ++ Text.chars rest.
Proof.
  induction 1 as [|a l Ha Hl IH]; [done|].
  assert (text (a :: l) +:+ rest = String a (text l +:+ rest)) as -> by reflexivity.
  rewrite chars_ascii by done. by rewrite IH.
Qed.

Lemma unchars_single (l : list ascii) : Text.unchars (single <$> l) = text l.
Proof. induction l as [|a l IH]; [done|]. csimpl. by rewrite IH. Qed.

Lemma digit_table (a : ascii) : digit a → re_digit lib (single a) = true.
Proof.
  unfold digit. intros Ha.
  destruct (Hlib (single a) (Ascii.N_of_ascii a)) as (-> & _).
  - unfold ascii_code, single. destruct (N.ltb_spec (Ascii.N_of_ascii a) 128); [done|lia].
  - unfold ascii_digit, ascii_code, single.
    destruct (N.ltb_spec (Ascii.N_of_ascii a) 128); [|lia].
    apply andb_true_intro. split; apply N.leb_le; lia.
Qed.

Lemma take_consumed {A} (xs ys : list A) : take (length (xs ++ ys) - length ys) (xs ++ ys) = xs.
Proof.
  rewrite length_app. replace (length xs + length ys - length ys)%nat with (length xs) by lia.
  by rewrite take_app_length.
Qed.


Lemma rep_lazy_one {A} (p : string → bool) (c : string) (s' : list string)
    (k : list string → option A) (r : A) :
  p c = true → k s' = Some r → Re.rep false p 1 None (c :: s') k = Some r.
Proof. intros Hc Hk. cbn. rewrite Hc. destruct s'; cbn; by rewrite Hk. Qed.

Lemma rep_no_match {A} (greedy : bool) (p : string → bool) (hi : option nat)
    (s : list string) (k : list string → option A) :
  match s with c :: _ => p c = false | [] => True end →
  Re.rep greedy p 1 hi s k = None.
Proof. destruct s as [|c s]; cbn; [by destruct greedy|]. intros ->. by destruct greedy, hi as [[]|]. Qed.

Lemma chars_head (c : ascii) (rest : string) :
  ∃ h t, Text.chars (String c rest) = String c h :: t.
Proof.
  cbn [Text.chars]. destruct (_ && _); [|by eauto].
  destruct (Text.chars rest); by eauto.
Qed.


Lemma sign_table (a : ascii) : sign_char a → Re.one_of "<>=!" (single a) = true.
Proof.
  unfold sign_char. intros Ha. apply bool_decide_eq_true.
  repeat (apply elem_of_cons in Ha as [->|Ha]; [by vm_compute; repeat constructor|]).
  by apply elem_of_nil in Ha.
Qed.

Lemma sign_char_ascii (a : ascii) : sign_char a → is_ascii a.
Proof.
  unfold sign_char, is_ascii. intros Ha.
  repeat (apply elem_of_cons in Ha as [->|Ha]; [by vm_compute|]).
  by apply elem_of_nil in Ha.
Qed.

Lemma digit_ascii (a : ascii) : digit a → is_ascii a.
Proof. unfold digit, is_ascii. lia. Qed.

Lemma digit_not_sign (a : ascii) : digit a → Re.one_of "<>=!" (single a) = false.
Proof.
  unfold digit. intros Ha. apply bool_decide_eq_false. intros Hin.
  change (Text.chars "<>=!") with (single <$> ["<"; ">"; "="; "!"]%char) in Hin.
  apply list_elem_of_fmap in Hin as (b & [= ->] & Hb).
  repeat (apply elem_of_cons in Hb as [->|Hb]; [simpl in Ha; lia|]).
  by apply elem_of_nil in Hb.
Qed.

Lemma not_digit_table (a : ascii) : is_ascii a → ¬ digit a → re_digit lib (single a) = false.
Proof.
  unfold digit, is_ascii. intros Ha Hd.
  destruct (Hlib (single a) (Ascii.N_of_ascii a)) as (-> & _).
  - unfold ascii_code, single. destruct (N.ltb_spec (Ascii.N_of_ascii a) 128); [done|lia].
  - unfold ascii_digit, ascii_code, single.
    destruct (N.ltb_spec (Ascii.N_of_ascii a) 128); [|lia].
    apply andb_false_iff. rewrite !N.leb_gt. lia.
Qed.

(** What the pattern finds in a constraint that begins with an operator, a
    run of digits, a dot and a digit. *)
Lemma version_match (S M : list ascii) (d : ascii) (R : string) (patch : option string) :
  Forall sign_char S → (1 ≤ length S ≤ 2)%nat →
  Forall digit M → M ≠ [] → digit d →
  (patch = None ∧ Text.startswith R "." = false)
  ∨ (∃ p R', digit p ∧ R = String "." (String p R') ∧ patch = Some (text ["."%char; p]))
  ∨ (∃ R', R = String "." (String "*" R') ∧ patch = Some ".*") →
  ∃ m, Re.match_ (VERSION_RESTRICTER_REGEX lib) (text (S ++ M ++ ["."%char; d]) +:+ R) = Some m
       ∧ Re.group m "sign" = Some (text S)
       ∧ Re.group m "version" = Some (text (M ++ ["."%char; d]))
       ∧ Re.group m "patch" = patch.
Proof.
  intros HS HlenS HM HMne Hd Hpatch.
  unfold Re.match_, VERSION_RESTRICTER_REGEX. cbn [Re.run].
  rewrite chars_text.
  2:{ rewrite !Forall_app. split_and!.
      - eapply Forall_impl; [done|]. apply sign_char_ascii.
      - eapply Forall_impl; [done|]. apply digit_ascii.
      - repeat constructor. by apply digit_ascii. }
  rewrite !fmap_app, <- !app_assoc.
  set (tail := Text.chars R).
  assert (∀ (k : list string → option Re.captures) r,
            k ((single <$> M) ++ (single <$> ["."%char; d]) ++ tail) = Some r →
            Re.rep true (Re.one_of "<>=!") 1 (Some 2%nat)
              ((single <$> S) ++ (single <$> M) ++ (single <$> ["."%char; d]) ++ tail) k
            = Some r) as Hsign.
  { intros k r Hk. apply rep_greedy_all; [| | |done].
    - apply Forall_fmap. eapply Forall_impl; [done|]. apply sign_table.
    - rewrite length_fmap. lia.
    - rewrite length_fmap. destruct (decide (length S = 2%nat)) as [->|]; [by left|].
      right. split; [lia|]. destruct M as [|m M]; [done|]. simpl.
      apply digit_not_sign. by inversion HM. }
  assert (∀ (k : list string → option Re.captures) r,
            k ((single <$> ["."%char; d]) ++ tail) = Some r →
            Re.rep true (re_digit lib) 1 None
              ((single <$> M) ++ (single <$> ["."%char; d]) ++ tail) k
            = Some r) as Hmajor.
  { intros k r Hk. apply rep_greedy_all; [| | |done].
    - apply Forall_fmap. eapply Forall_impl; [done|]. apply digit_table.
    - rewrite length_fmap. destruct M; [done|]. simpl. lia.
    - simpl. apply not_digit_table; [by vm_compute|]. unfold digit. simpl. lia. }
  assert (Text.unchars
            (take (length ((single <$> S) ++ (single <$> M) ++ (single <$> ["."%char; d]) ++ tail)
                   - length ((single <$> M) ++ (single <$> ["."%char; d]) ++ tail))
               ((single <$> S) ++ (single <$> M) ++ (single <$> ["."%char; d]) ++ tail))
          = text S) as Esign.
  { by rewrite take_consumed, unchars_single. }
  assert (Text.unchars
            (take (length ((single <$> M) ++ (single <$> ["."%char; d]) ++ tail) - length tail)
               ((single <$> M) ++ (single <$> ["."%char; d]) ++ tail))
          = text (M ++ ["."%char; d])) as Eversion.
  { rewrite (app_assoc _ _ tail), take_consumed, <- fmap_app. apply unchars_single. }
  pose (m0 := [("sign", text S); ("version", text (M ++ ["."%char; d]))] : Re.captures).
  assert (∀ p, ∃ m, Re.set_group m0 "patch" p = m ∧ Re.group m "sign" = Some (text S)
                    ∧ Re.group m "version" = Some (text (M ++ ["."%char; d]))
                    ∧ Re.group m "patch" = Some p) as Hm.
  { intros p. eexists. split; [reflexivity|]. by vm_compute. }
  cbn [fmap list_fmap app] in Hsign, Hmajor, Esign, Eversion |- *.
  destruct Hpatch as [[-> Hnodot]|[(p & R' & Hp & HR & ->)|(R' & HR & ->)]].
  - exists m0. split; [|by vm_compute].
    apply Hsign. cbn beta. apply Hmajor. cbn beta.
    change (single "." =? ".")%string with true. cbn iota.
    apply rep_lazy_one; [by apply digit_table|]. cbn beta.
    rewrite Esign, Eversion.
    assert (match tail with [] => True | x :: _ => (x =? ".")%string = false end) as Htail.
    { subst tail. destruct R as [|c R]; [done|].
      destruct (chars_head c R) as (h & t & ->).
      cbn [Text.startswith] in Hnodot.
      assert (Text.startswith R EmptyString = true) as Hnil by by destruct R.
      rewrite Hnil, andb_true_r in Hnodot. simpl.
      rewrite Ascii.eqb_sym. by rewrite Hnodot. }
    destruct tail as [|x tail']; [done|]. by rewrite Htail.
  - destruct (Hm (text ["."%char; p])) as (m & Hset & Hgroups). exists m. split; [|done].
    apply Hsign. cbn beta. apply Hmajor. cbn beta.
    change (single "." =? ".")%string with true. cbn iota.
    apply rep_lazy_one; [by apply digit_table|]. cbn beta.
    rewrite Esign, Eversion.
    assert (tail = single "." :: single p :: Text.chars R') as Htail.
    { subst tail. rewrite HR. rewrite !chars_ascii; [done|by apply digit_ascii|by vm_compute]. }
    rewrite Htail. change (single "." =? ".")%string with true. cbn iota.
    erewrite (rep_lazy_one (re_digit lib) (single p)); [|by apply digit_table|reflexivity].
    cbn [Re.or_else]. rewrite <- Hset. do 2 f_equal.
    change (single "." :: single p :: Text.chars R')
      with ((single <$> ["."%char; p]) ++ Text.chars R').
    by rewrite take_consumed, unchars_single.
  - destruct (Hm ".*") as (m & Hset & Hgroups). exists m. split; [|done].
    apply Hsign. cbn beta. apply Hmajor. cbn beta.
    change (single "." =? ".")%string with true. cbn iota.
    apply rep_lazy_one; [by apply digit_table|]. cbn beta.
    rewrite Esign, Eversion.
    assert (tail = single "." :: single "*" :: Text.chars R') as Htail.
    { subst tail. rewrite HR. by rewrite !chars_ascii by by vm_compute. }
    rewrite Htail. change (single "." =? ".")%string with true. cbn iota.
    rewrite rep_no_match.
    2:{ simpl. apply not_digit_table; [by vm_compute|]. unfold digit. simpl. lia. }
    change (single "*" =? "*")%string with true. cbn [Re.or_else]. rewrite <- Hset.
    do 2 f_equal.
    change (single "." :: single "*" :: Text.chars R')
      with ((single <$> ["."%char; "*"%char]) ++ Text.chars R').
    by rewrite take_consumed, unchars_single.
Qed.

End RegexFacts.

Section VersionMarkers.

Import ExportRequirements Requirements Ascii7.

Variable lib : pylib.

Lemma string_app_assoc (a b c : string) : (a +:+ b) +:+ c = a +:+ (b +:+ c).
Proof.
  induction a as [|x a IH]; [done|].
  change (String x ((a +:+ b) +:+ c) = String x (a +:+ (b +:+ c))). by rewrite IH.
Qed.

Lemma text_app (l1 l2 : list ascii) : text (l1 ++ l2) = text l1 +:+ text l2.
Proof.
  induction l1 as [|a l1 IH]; [done|].
  change (String a (text (l1 ++ l2)) = String a (text l1 +:+ text l2)). by rewrite IH.
Qed.

Lemma digit_not_star (p : ascii) : digit p → Text.endswith (text ["."%char; p]) "*" = false.
Proof.
  unfold digit. intros Hp. unfold Text.endswith. cbn -[Ascii.eqb].
  destruct (Ascii.eqb_spec "*" p) as [<-|_]; [simpl in Hp; lia|done].
Qed.

(** Of the minor version the pattern keeps the first digit, whatever
    follows: after an operator, a run of digits, a dot and one digit, more
    digits are dropped, so that [>=3.10] comes out as [3.1]; a dot and a
    digit after it make a patch of that one digit and the marker
    [python_full_version]; a dot and a star are dropped. *)
Theorem version_clause_keeps_one_minor_digit (S M : list ascii) (d : ascii) (R : string) :
  ascii_tables lib →
  Forall sign_char S → (1 ≤ length S ≤ 2)%nat →
  Forall digit M → M ≠ [] → digit d →
  (Text.startswith R "." = false →
     version_clause lib (text (S ++ M ++ ["."%char; d]) +:+ R)
     = Ok (clause "python_version" (text S) (text (M ++ ["."%char; d]))))
  ∧ (∀ p R', digit p → R = String "." (String p R') →
       version_clause lib (text (S ++ M ++ ["."%char; d]) +:+ R)
       = Ok (clause "python_full_version" (text S)
               (text (M ++ ["."%char; d; "."%char; p]))))
  ∧ (∀ R', R = String "." (String "*" R') →
       version_clause lib (text (S ++ M ++ ["."%char; d]) +:+ R)
       = Ok (clause "python_version" (text S) (text (M ++ ["."%char; d])))).
Proof.
  intros Hlib HS HlenS HM HMne Hd. unfold version_clause, clause. split_and!.
  - intros Hnodot.
    destruct (version_match lib Hlib S M d R None) as (m & -> & -> & -> & ->); try done.
    by left.
  - intros p R' Hp HR.
    destruct (version_match lib Hlib S M d R (Some (text ["."%char; p])))
      as (m & -> & -> & -> & ->); try done.
    { right; left. by exists p, R'. }
    cbn [default from_option id]. rewrite (digit_not_star p Hp). cbn [negb].
    do 6 f_equal.
    replace (M ++ ["."%char; d; "."%char; p]) with ((M ++ ["."%char; d]) ++ ["."%char; p])
      by by rewrite <- app_assoc.
    by rewrite (text_app (M ++ _)), string_app_assoc.
  - intros R' HR.
    destruct (version_match lib Hlib S M d R (Some ".*")) as (m & -> & -> & -> & ->);
      try done.
    right; right. by exists R'.
Qed.

End VersionMarkers.

Section VersionLoop.

Import ExportRequirements Requirements Ascii7.

Variable lib : pylib.

Lemma split_go_cons (c : ascii) (rest acc : string) :
  Text.split_comma_space_go (String c rest) acc =
  match rest with
  | String c2 rest2 =>
      if Ascii.eqb c "," && Ascii.eqb c2 " "
      then String.rev acc :: Text.split_comma_space_go rest2 EmptyString
      else Text.split_comma_space_go rest (String c acc)
  | EmptyString => Text.split_comma_space_go rest (String c acc)
  end.
Proof.
  destruct (Ascii.eqb_spec c ",") as [->|Hc].
  - destruct rest as [|c2 rest2]; [done|].
    destruct (Ascii.eqb_spec c2 " ") as [->|Hc2]; [done|].
    destruct c2 as [[] [] [] [] [] [] [] []]; done.
  - destruct rest as [|c2 rest2]; destruct c as [[] [] [] [] [] [] [] []]; done.
Qed.

Lemma count_cons (c : ascii) (rest : string) :
  Text.count_comma_space (String c rest) =
  match rest with
  | String c2 rest2 =>
      if Ascii.eqb c "," && Ascii.eqb c2 " "
      then S (Text.count_comma_space rest2)
      else Text.count_comma_space rest
  | EmptyString => Text.count_comma_space rest
  end.
Proof.
  destruct (Ascii.eqb_spec c ",") as [->|Hc].
  - destruct rest as [|c2 rest2]; [done|].
    destruct (Ascii.eqb_spec c2 " ") as [->|Hc2]; [done|].
    destruct c2 as [[] [] [] [] [] [] [] []]; done.
  - destruct rest as [|c2 rest2]; destruct c as [[] [] [] [] [] [] [] []]; done.
Qed.

(** [split] gives one part more than [count] counts separators. *)
Lemma split_length (s : string) :
  length (Text.split_comma_space s) = S (Text.count_comma_space s).
Proof.
  unfold Text.split_comma_space. generalize EmptyString as acc.
  remember (String.length s) as n eqn:Hn. revert s Hn.
  induction n as [n IH] using lt_wf_ind. intros s Hn acc.
  destruct s as [|c rest]; [done|].
  rewrite split_go_cons, count_cons. simpl in Hn.
  destruct rest as [|c2 rest2].
  - by apply (IH 0%nat); [lia|].
  - simpl in Hn. destruct (_ && _).
    + cbn [length]. f_equal. apply (IH (String.length rest2)); [lia|done].
    + apply (IH (S (String.length rest2))); [lia|done].
Qed.

Lemma rev_app_app (a t : string) : String.rev_app a t = String.rev a +:+ t.
Proof.
  revert t. induction a as [|x a IH]; intros t; [done|].
  unfold String.rev. cbn [String.rev_app].
  by rewrite (IH (String x t)), (IH (String x EmptyString)), string_app_assoc.
Qed.

Lemma string_app_nil_r (a : string) : a +:+ EmptyString = a.
Proof.
  induction a as [|x a IH]; [done|].
  change (String x (a +:+ EmptyString) = String x a). by rewrite IH.
Qed.

(** The first part of a split is the text gathered so far and what follows
    it up to the first separator. *)
Lemma split_go_head (s acc : string) :
  ∃ x tl, Text.split_comma_space_go s acc = (String.rev acc +:+ x) :: tl.
Proof.
  remember (String.length s) as n eqn:Hn. revert s acc Hn.
  induction n as [n IH] using lt_wf_ind. intros s acc Hn.
  destruct s as [|c rest].
  - exists EmptyString, []. by rewrite string_app_nil_r.
  - rewrite split_go_cons. simpl in Hn.
    assert (∃ x tl, Text.split_comma_space_go rest (String c acc)
                    = (String.rev acc +:+ x) :: tl) as Hgo.
    { destruct (IH (String.length rest) ltac:(lia) rest (String c acc) eq_refl)
        as (x & tl & ->).
      exists (String c x), tl. f_equal. unfold String.rev at 1. cbn [String.rev_app].
      by rewrite rev_app_app, string_app_assoc. }
    destruct rest as [|c2 rest2]; [done|]. destruct (_ && _); [|done].
    eexists EmptyString, _. by rewrite string_app_nil_r.
Qed.

Lemma rmapM_length {E A B} (f : A → result E B) (l : list A) (bs : list B) :
  rmapM f l = Ok bs → length bs = length l.
Proof.
  revert bs. induction l as [|a l IH]; intros bs; cbn [rmapM].
  - by intros [= <-].
  - destruct (f a); cbn [mbind result_bind]; [|done].
    destruct (rmapM f l) as [bs'|]; cbn [mbind result_bind]; [|done].
    intros [= <-]. cbn [length]. by rewrite (IH bs').
Qed.

Lemma version_loop_spec (final count : nat) (versions : list string) (line : string) :
  versions ≠ [] → (count + length versions = S final)%nat →
  version_loop lib final count versions line
  = (clauses ← rmapM (version_clause lib) versions;
     Ok (line +:+ Text.join "and " clauses)).
Proof.
  revert count line. induction versions as [|v versions IH]; intros count line Hne Hlen;
    [done|].
  cbn [version_loop rmapM]. destruct (version_clause lib v) as [c|e];
    cbn [mbind result_bind]; [|done].
  destruct versions as [|v2 versions].
  - simpl in Hlen. destruct (Nat.ltb_spec count final); [lia|]. done.
  - cbn [length] in Hlen. destruct (Nat.ltb_spec count final); [|lia].
    rewrite IH; [|done|cbn [length]; lia].
    destruct (rmapM (version_clause lib) (v2 :: versions)) as [cs|e] eqn:Hcs;
      cbn [mbind result_bind]; [|done].
    apply rmapM_length in Hcs. destruct cs as [|c2 cs]; [done|].
    cbn [Text.join]. by rewrite !string_app_assoc.
Qed.

(** The clauses of a marker are joined by [and] exactly between one and the
    next: a constraint other than the star gives the line, a semicolon, and
    the clauses of its parts, as many as [", "] cuts it into; or the exception
    of the first part that has none. *)
Theorem python_versions_marker_joins_clauses (line s : string) :
  s ≠ "*" →
  python_versions_marker lib line (PyStr s)
  = (clauses ← rmapM (version_clause lib) (Text.split_comma_space s);
     Ok ((line +:+ " ; ") +:+ Text.join "and " clauses))
  ∧ length (Text.split_comma_space s) = S (Text.count_comma_space s).
Proof.
  intros Hs. split; [|apply split_length].
  cbn [python_versions_marker]. destruct (String.eqb_spec s "*"); [done|].
  apply version_loop_spec.
  - intros Hnil. pose proof (split_length s) as Hlen. by rewrite Hnil in Hlen.
  - rewrite split_length. lia.
Qed.

(** A constraint that does not begin with one of [<], [>], [=], [!], such as
    a caret or tilde constraint or a bare version, has no match, and the
    script, which does not test for that, stops with AttributeError. *)
Theorem python_versions_marker_needs_operator (line : string) (a : ascii) (rest : string) :
  ¬ sign_char a → String a rest ≠ "*" →
  python_versions_marker lib line (PyStr (String a rest))
  = Err (Raised (AttributeError "groupdict")).
Proof.
  intros Ha Hs. cbn [python_versions_marker].
  destruct (String.eqb_spec (String a rest) "*"); [done|].
  assert (∃ part tl, Text.split_comma_space (String a rest) = part :: tl
                     ∧ version_clause lib part = Err (Raised (AttributeError "groupdict")))
    as (part & tl & -> & Hpart).
  { assert (∀ part, part = EmptyString ∨ (∃ x, part = String a x) →
                    version_clause lib part = Err (Raised (AttributeError "groupdict")))
      as Hfail.
    { intros part Hshape. unfold version_clause, Re.match_, VERSION_RESTRICTER_REGEX.
      cbn [Re.run]. rewrite rep_no_match; [done|].
      destruct Hshape as [->|[x ->]]; [done|].
      destruct (chars_head a x) as (h & t & ->).
      apply bool_decide_eq_false. intros Hin.
      change (Text.chars "<>=!") with (single <$> ["<"; ">"; "="; "!"]%char) in Hin.
      apply list_elem_of_fmap in Hin as (b & [= -> _] & Hb). done. }
    unfold Text.split_comma_space. rewrite split_go_cons.
    assert (∃ x tl, Text.split_comma_space_go rest (String a EmptyString)
                    = String a x :: tl) as (x & tl & Hgo).
    { destruct (split_go_head rest (String a EmptyString)) as (x & tl & ->). by eauto. }
    destruct rest as [|c2 rest2].
    - exists (String a x), tl. split; [done|]. apply Hfail. by eauto.
    - destruct (_ && _).
      + eexists EmptyString, _. split; [done|]. apply Hfail. by left.
      + exists (String a x), tl. split; [done|]. apply Hfail. by eauto. }
  cbn [version_loop]. by rewrite Hpart.
Qed.

End VersionLoop.

Section PlatformMarkers.

Import ExportRequirements Requirements Ascii7.

Variable lib : pylib.
Hypothesis Hlib : ascii_tables lib.

Lemma setitem_same {A} (d : list (string * A)) (k : string) (x : A) :
  Requirements.lookup d k = Some x → setitem d k x = d.
Proof.
  induction d as [|[k' y] d IH]; cbn [Requirements.lookup setitem]; [done|].
  destruct (String.eqb_spec k' k) as [->|Hne].
  - by intros [= ->].
  - intros H. by rewrite IH.
Qed.

(** A run of literal characters matches only a text that begins with it. *)
Lemma run_lit_none {A} (cs : list ascii) (r : Re.regex) (s : string)
    (caps : Re.captures) (k : list string → Re.captures → option A) :
  Forall is_ascii cs → Text.startswith s (text cs) = false →
  Re.run (foldr (λ c r', Re.Seq (Re.Char c) r') r (single <$> cs)) (Text.chars s) caps k
  = None.
Proof.
  intros Hcs. revert s caps. induction Hcs as [|c cs Hc Hcs IH]; intros s caps Hs.
  - by destruct s.
  - cbn [fmap list_fmap foldr Re.run]. destruct s as [|a s]; [done|].
    cbn [text foldr Text.startswith] in Hs.
    destruct (Ascii.eqb_spec c a) as [<-|Hne].
    + rewrite chars_ascii by done. unfold single at 2. rewrite String.eqb_refl.
      apply IH. by rewrite andb_true_l in Hs.
    + destruct (chars_head a s) as (h & t & ->).
      assert (String.eqb (String a h) (single c) = false) as ->; [|done].
      apply String.eqb_neq. by intros [= -> _].
Qed.

Lemma run_lit_all {A} (cs : list ascii) (r : Re.regex) (s : list string)
    (caps : Re.captures) (k : list string → Re.captures → option A) :
  Re.run (foldr (λ c r', Re.Seq (Re.Char c) r') r (single <$> cs)) ((single <$> cs) ++ s)
    caps k
  = Re.run r s caps k.
Proof.
  induction cs as [|c cs IH]; [done|].
  cbn [fmap list_fmap foldr app Re.run]. by rewrite String.eqb_refl.
Qed.

(** A marker that does not begin with [sys_platform] adds nothing: the
    pattern is matched at the start of the text only, so a marker on the
    Python version, or one that names the platform after something else,
    leaves every line as it was, without a word. *)
Theorem platform_marker_must_lead (dl : list (string * string)) (k line markers : string)
    (v : pyval) :
  Requirements.lookup dl k = Some line →
  getitem v "markers" = Ok (PyStr markers) →
  Text.startswith markers "sys_platform" = false →
  add_platform_marker lib dl (k, v) = Ok dl.
Proof.
  intros Hline Hmarkers Hlead. unfold add_platform_marker.
  rewrite Hline, Hmarkers. cbn [lift as_str mbind result_bind].
  unfold Re.match_, PLATFORM_MARKERS_REGEX.
  change (Re.lit "sys_platform")
    with (foldr (λ c r', Re.Seq (Re.Char c) r') Re.Eps
            (single <$> ["s"; "y"; "s"; "_"; "p"; "l"; "a"; "t"; "f"; "o"; "r"; "m"]%char)).
  cbn [Re.run].
  rewrite (run_lit_none _ _ markers).
  - by rewrite setitem_same.
  - repeat constructor; by vm_compute.
  - done.
Qed.

Lemma word_table (a : ascii) : word_char a → re_word lib (single a) = true.
Proof.
  unfold word_char. intros Ha.
  assert (Ascii.N_of_ascii a < 128)%N as Hascii by lia.
  destruct (Hlib (single a) (Ascii.N_of_ascii a)) as (_ & -> & _).
  - unfold ascii_code, single. destruct (N.ltb_spec (Ascii.N_of_ascii a) 128); [done|lia].
  - unfold ascii_word, ascii_code, single.
    destruct (N.ltb_spec (Ascii.N_of_ascii a) 128); [|lia].
    repeat match goal with |- context [(?x <=? ?y)%N] => destruct (N.leb_spec x y) end;
      repeat match goal with |- context [(?x =? ?y)%N] => destruct (N.eqb_spec x y) end;
      cbn; try done; lia.
Qed.

Lemma word_char_ascii (a : ascii) : word_char a → is_ascii a.
Proof. unfold word_char, is_ascii. lia. Qed.

Lemma rep_word_all (W : list ascii) (tail : list string) (k : list string → option Re.captures)
    (r : Re.captures) :
  Forall word_char W → W ≠ [] →
  k (dq :: tail) = Some r →
  Re.rep true (re_word lib) 1 None ((single <$> W) ++ dq :: tail) k = Some r.
Proof.
  intros HW Hne Hk. apply rep_greedy_all; [| | |done].
  - apply Forall_fmap. eapply Forall_impl; [done|]. apply word_table.
  - rewrite length_fmap. destruct W; [done|]. cbn [length]. lia.
  - destruct (Hlib dq 34%N) as (_ & -> & _); done.
Qed.

(** A marker of the form [sys_platform == "name"], whatever follows it, is
    added to the line of the package it is on: after a semicolon of its own
    when the line has none, after [and] when the line has a marker already,
    and with nothing between when the line has a semicolon and no marker. *)
Theorem platform_marker_is_appended (dl : list (string * string)) (k line sep : string)
    (v : pyval) (W : list ascii) (R : string) :
  Forall word_char W → W ≠ [] →
  Requirements.lookup dl k = Some line →
  getitem v "markers"
  = Ok (PyStr ("sys_platform == " +:+ dq +:+ text W +:+ dq +:+ R)) →
  (Text.contains ";" line = false ∧ sep = " ; ")
  ∨ (Text.contains ";" line = true
     ∧ Text.contains "python_" line || Text.contains "sys_platform" line = true
     ∧ sep = "and ")
  ∨ (Text.contains ";" line = true
     ∧ Text.contains "python_" line || Text.contains "sys_platform" line = false
     ∧ sep = EmptyString) →
  add_platform_marker lib dl (k, v)
  = Ok (setitem dl k ((line +:+ sep) +:+ ("sys_platform == " +:+ dq +:+ text W +:+ dq))).
Proof.
  intros HW Hne Hline Hmarkers Hsep. unfold add_platform_marker.
  rewrite Hline, Hmarkers. cbn [lift as_str mbind result_bind].
  pose (A := ["s"; "y"; "s"; "_"; "p"; "l"; "a"; "t"; "f"; "o"; "r"; "m"]%char).
  pose (B := ["="; "="]%char).
  assert ("sys_platform == " +:+ dq +:+ text W +:+ dq +:+ R
          = text (A ++ [" "%char] ++ B ++ [" "%char; "034"%char] ++ W ++ ["034"%char]) +:+ R)
    as ->.
  { rewrite !text_app, !string_app_assoc. reflexivity. }
  assert (Re.match_ (PLATFORM_MARKERS_REGEX lib)
            (text (A ++ [" "%char] ++ B ++ [" "%char; "034"%char] ++ W ++ ["034"%char]) +:+ R)
          = Some [("platform", text W)]) as ->.
  { unfold Re.match_. rewrite chars_text.
    2:{ rewrite !Forall_app. split_and!; try (repeat constructor; by vm_compute).
        eapply Forall_impl; [done|]. apply word_char_ascii. }
    rewrite !fmap_app, <- !app_assoc. set (tail := Text.chars R).
    assert (re_space lib (single " ") = true) as Hspace.
    { by destruct (Hlib (single " ") 32%N) as (_ & _ & -> & _). }
    unfold PLATFORM_MARKERS_REGEX.
    change (Re.lit "sys_platform")
      with (foldr (λ c r', Re.Seq (Re.Char c) r') Re.Eps (single <$> A)).
    change (Re.lit "==")
      with (foldr (λ c r', Re.Seq (Re.Char c) r') Re.Eps (single <$> B)).
    cbn [Re.run]. rewrite run_lit_all. cbn [Re.run].
    change (single <$> [" "%char]) with [single " "]. cbn [app].
    rewrite Hspace. rewrite run_lit_all. cbn [Re.run].
    change (single <$> [" "%char; "034"%char]) with [single " "; dq]. cbn [app].
    rewrite Hspace. rewrite String.eqb_refl.
    change (single <$> ["034"%char]) with [dq]. cbn [app].
    erewrite rep_word_all; [|done|done|].
    2:{ rewrite String.eqb_refl. reflexivity. }
    cbn [Re.or_else].
    by rewrite take_consumed, unchars_single. }
  change (Re.group [("platform", text W)] "platform") with (Some (text W)).
  cbn [default from_option id].
  destruct Hsep as [[-> ->]|[(-> & -> & ->)|(-> & -> & ->)]]; cbn [negb]; try done.
  by rewrite string_app_nil_r.
Qed.

End PlatformMarkers.

(** ** Sorting the exported configuration *)

Section SortDict.

Import ExportRequirements Requirements ExportConfig.

(** The body of the loop of [sort_dict]. *)
Local Abbreviation step := (λ (sd : list (string * pyval)) (kv : string * pyval),
  match kv.2 with
  | PyDict _ => setitem sd kv.1 (sort_value kv.2)
  | _ => sd
  end).

Lemma setitem_absent {A} (d : list (string * A)) (k : string) (v : A) :
  k ∉ d.*1 → setitem d k v = d ++ [(k, v)].
Proof.
  induction d as [|[k' x] d IH]; csimpl; [done|].
  intros [Hne Hnot]%not_elem_of_cons.
  destruct (String.eqb_spec k' k) as [->|_]; [done|]. by rewrite IH.
Qed.

Lemma update_fresh {A} (d l : list (string * A)) :
  NoDup (d ++ l).*1 → update d l = d ++ l.
Proof.
  unfold update. revert d. induction l as [|[k v] l IH]; intros d Hnd; cbn [foldl].
  - by rewrite app_nil_r.
  - rewrite setitem_absent.
    + rewrite IH; by rewrite <- app_assoc.
    + rewrite fmap_app in Hnd. apply NoDup_app in Hnd as (_ & Hnot & _).
      intros Hin. apply (Hnot k Hin). csimpl. apply list_elem_of_here.
Qed.

Lemma sort_dict_unfold (d : list (string * pyval)) :
  sort_dict d = foldl step (update [] (merge_sort key_le d)) d.
Proof.
  unfold sort_dict. cbn [sort_dict_in].
  generalize (update [] (merge_sort key_le d)) as sd.
  induction d as [|[k v] d IH]; intros sd; [done|].
  cbn [foldl fst snd]. destruct v; apply IH.
Qed.

Lemma setitem_map (sd : list (string * pyval)) (k : string) (v x : pyval) :
  NoDup sd.*1 → (k, v) ∈ sd →
  setitem sd k x = (λ kv, if decide (kv.1 = k) then (kv.1, x) else kv) <$> sd.
Proof.
  induction sd as [|[k' y] sd IH]; csimpl; [by intros _ ?%elem_of_nil|].
  intros [Hnot Hnd]%NoDup_cons Hin.
  destruct (String.eqb_spec k' k) as [->|Hne].
  - rewrite decide_True by done. f_equal.
    rewrite <- (list_fmap_id sd) at 1. apply list_fmap_ext.
    intros i [k2 y2] Hi. simpl. rewrite decide_False; [done|]. intros ->.
    apply Hnot. apply list_elem_of_fmap. exists (k, y2). split; [done|].
    by eapply list_elem_of_lookup_2.
  - rewrite decide_False by done. f_equal. apply IH; [done|].
    apply elem_of_cons in Hin as [[= -> ->]|Hin]; done.
Qed.

Lemma nodup_keys_value (sd : list (string * pyval)) (k : string) (v v' : pyval) :
  NoDup sd.*1 → (k, v) ∈ sd → (k, v') ∈ sd → v = v'.
Proof.
  induction sd as [|[k' y] sd IH]; csimpl; [by intros _ ?%elem_of_nil|].
  intros [Hnot Hnd]%NoDup_cons H1 H2.
  apply elem_of_cons in H1 as [H1|H1]; apply elem_of_cons in H2 as [H2|H2].
  - congruence.
  - injection H1 as -> ->. destruct Hnot. apply list_elem_of_fmap. by exists (k', v').
  - injection H2 as -> ->. destruct Hnot. apply list_elem_of_fmap. by exists (k', v).
  - by apply IH.
Qed.

Lemma loop_is_map (items sd : list (string * pyval)) :
  NoDup items.*1 → NoDup sd.*1 → (∀ kv, kv ∈ items → kv ∈ sd) →
  foldl step sd items
  = (λ kv, if decide (kv.1 ∈ items.*1) then (kv.1, sort_value kv.2) else kv) <$> sd.
Proof.
  revert sd. induction items as [|[k v] items IH]; intros sd Hitems Hsd Hsub.
  - cbn [foldl]. rewrite <- (list_fmap_id sd) at 1. apply list_fmap_ext.
    by intros i kv _.
  - csimpl in Hitems. apply NoDup_cons in Hitems as [Hk Hitems]. cbn [foldl].
    assert ((k, v) ∈ sd) as Hkv by apply Hsub, list_elem_of_here.
    assert (step sd (k, v)
            = (λ kv, if decide (kv.1 = k) then (kv.1, sort_value kv.2) else kv) <$> sd)
      as ->.
    { assert (setitem sd k (sort_value v)
              = (λ kv, if decide (kv.1 = k) then (kv.1, sort_value kv.2) else kv) <$> sd)
        as Hset.
      { rewrite (setitem_map sd k v) by done. apply list_fmap_ext.
        intros i [k2 v2] Hi. simpl. destruct (decide (k2 = k)) as [->|]; [|done].
        by rewrite (nodup_keys_value sd k v2 v Hsd (list_elem_of_lookup_2 _ _ _ Hi) Hkv). }
      cbn [fst snd]. destruct v; try exact Hset;
        (rewrite <- (list_fmap_id sd) at 1; apply list_fmap_ext;
         intros i [k2 v2] Hi; simpl; destruct (decide (k2 = k)) as [->|]; [|done];
         by rewrite (nodup_keys_value sd k v2 _ Hsd (list_elem_of_lookup_2 _ _ _ Hi) Hkv)). }
    rewrite IH; [| done | |].
    + rewrite <- list_fmap_compose. apply list_fmap_ext. intros i [k2 v2] Hi. csimpl.
      destruct (decide (k2 = k)) as [->|Hne]; simpl.
      * rewrite decide_False by done. rewrite decide_True by apply list_elem_of_here. done.
      * destruct (decide (k2 ∈ items.*1)) as [Hin|Hnot].
        -- by rewrite decide_True by by apply list_elem_of_further.
        -- rewrite decide_False; [done|]. by intros [?|?]%elem_of_cons.
    + rewrite <- list_fmap_compose.
      erewrite (list_fmap_ext _ fst); [done|]. intros i [k2 v2] _. simpl.
      by destruct (decide (k2 = k)).
    + intros [k2 v2] Hin. apply list_elem_of_fmap. exists (k2, v2). split.
      * simpl. rewrite decide_False; [done|]. intros ->. apply Hk.
        apply list_elem_of_fmap. by exists (k, v2).
      * apply Hsub. by apply list_elem_of_further.
Qed.

(** With each key once, [sort_dict] is the items sorted by key, each value
    sorted in its turn. *)
Lemma sort_dict_sorted_map (d : list (string * pyval)) :
  NoDup d.*1 → sort_dict d = prod_map id sort_value <$> merge_sort key_le d.
Proof.
  intros Hnd. rewrite sort_dict_unfold.
  assert (merge_sort key_le d ≡ₚ d) as Hp by apply merge_sort_Permutation.
  assert (NoDup (merge_sort key_le d).*1) as Hnd' by by rewrite Hp.
  rewrite (update_fresh []) by done. cbn [app].
  rewrite loop_is_map; [|done|done|].
  - apply list_fmap_ext. intros i [k v] Hi. simpl.
    rewrite decide_True; [done|]. rewrite <- Hp. apply list_elem_of_fmap.
    exists (k, v). split; [done|]. by eapply list_elem_of_lookup_2.
  - intros kv Hin. by rewrite Hp.
Qed.

End SortDict.

Section SortDictFacts.

Import ExportRequirements Requirements ExportConfig.

#[local] Instance key_le_trans : Transitive key_le.
Proof. intros x y z. unfold key_le. apply transitivity. Qed.

#[local] Instance key_le_total : Total key_le.
Proof. intros x y. unfold key_le. apply total, _. Qed.

Lemma unique_keys_dict (d : list (string * pyval)) :
  unique_keys (PyDict d) ↔ NoDup d.*1 ∧ Forall (λ kv, unique_keys kv.2) d.
Proof.
  cbn [unique_keys]. apply and_iff_compat_l.
  induction d as [|[k v] d IH]; [by split|].
  rewrite Forall_cons, IH. done.
Qed.

Lemma deep_sorted_dict (d : list (string * pyval)) :
  deep_sorted (PyDict d) ↔ Sorted String.le d.*1 ∧ Forall (λ kv, deep_sorted kv.2) d.
Proof.
  cbn [deep_sorted]. apply and_iff_compat_l.
  induction d as [|[k v] d IH]; [by split|].
  rewrite Forall_cons, IH. done.
Qed.

Lemma depth_dict (d : list (string * pyval)) (k : string) (v : pyval) :
  (k, v) ∈ d → (depth v < depth (PyDict d))%nat.
Proof.
  cbn [depth]. induction d as [|[k' v'] d IH]; [by intros ?%elem_of_nil|].
  intros [[= <- <-]|Hin]%elem_of_cons; [lia|]. specialize (IH Hin). lia.
Qed.

Lemma sorted_keys (l : list (string * pyval)) : Sorted key_le l → Sorted String.le l.*1.
Proof.
  induction 1 as [|kv l Hl IH Hhd]; csimpl; constructor; [done|].
  destruct Hhd; csimpl; by constructor.
Qed.

Lemma sorted_by_keys (l l' : list (string * pyval)) :
  l.*1 = l'.*1 → Sorted key_le l → Sorted key_le l'.
Proof.
  intros Hkeys Hl. revert l' Hkeys.
  induction Hl as [|kv l Hl IH Hhd]; intros [|kv' l'] Hkeys; try done.
  csimpl in Hkeys. injection Hkeys as Hk Hkeys. constructor; [by apply IH|].
  destruct Hhd as [|kv2 l2 Hle]; destruct l' as [|kv2' l2']; try done; constructor.
  csimpl in Hkeys. injection Hkeys as Hk2 _. unfold key_le in *. congruence.
Qed.

Lemma merge_sort_unique (l l' : list (string * pyval)) :
  NoDup l.*1 → l ≡ₚ l' → Sorted key_le l' → merge_sort key_le l = l'.
Proof.
  intros Hnd Hp Hl'.
  apply (Sorted_unique_strong key_le); [|apply Sorted_merge_sort, _|done|].
  - intros [k1 v1] [k2 v2] H1 H2 Hle1 Hle2. unfold key_le in *. simpl in *.
    assert (k1 = k2) as -> by by apply (anti_symm String.le).
    f_equal. rewrite merge_sort_Permutation in H1. rewrite <- Hp in H2.
    by eapply nodup_keys_value.
  - by rewrite merge_sort_Permutation.
Qed.

Lemma sort_dict_keys (d : list (string * pyval)) :
  NoDup d.*1 → (sort_dict d).*1 = (merge_sort key_le d).*1.
Proof.
  intros Hnd. rewrite sort_dict_sorted_map by done.
  rewrite <- list_fmap_compose. apply list_fmap_ext. by intros i [k v] _.
Qed.

Lemma dict_lookup_fmap (f : pyval → pyval) (l : list (string * pyval)) (k : string) :
  dict_lookup (prod_map id f <$> l) k = f <$> dict_lookup l k.
Proof.
  induction l as [|[k' v] l IH]; [done|]. csimpl. by destruct (String.eqb k' k).
Qed.

(** Sorting changes what order the keys come in and nothing else: under
    every key the sorted dict has what the dict had, a dict sorted in its
    turn and any other value, a list of dicts too, as it was. *)
Theorem sort_dict_keeps_the_mapping (d : list (string * pyval)) (k : string) :
  NoDup d.*1 →
  dict_lookup (sort_dict d) k = sort_value <$> dict_lookup d k.
Proof.
  intros Hnd. rewrite sort_dict_sorted_map, dict_lookup_fmap by done. f_equal.
  apply dict_lookup_perm; [|apply merge_sort_Permutation].
  by rewrite merge_sort_Permutation.
Qed.

Lemma sort_value_deep_sorted (n : nat) (v : pyval) :
  (depth v ≤ n)%nat → unique_keys v → deep_sorted (sort_value v).
Proof.
  revert v. induction n as [|n IH]; intros v Hdepth Hv;
    destruct v as [| | | | | | |d]; try done; [cbn [depth] in Hdepth; lia|].
  cbn [sort_value]. apply unique_keys_dict in Hv as [Hnd Hvalues].
  apply deep_sorted_dict. split.
  - rewrite sort_dict_keys by done. apply sorted_keys, Sorted_merge_sort, _.
  - rewrite sort_dict_sorted_map by done. apply Forall_fmap, Forall_forall.
    intros [k v] Hin. simpl. rewrite merge_sort_Permutation in Hin.
    apply IH.
    + pose proof (depth_dict d k v Hin). lia.
    + by apply (proj1 (Forall_forall _ _) Hvalues (k, v)).
Qed.

(** The keys of the result are in sorted order at every level: in the dict
    itself, in each dict that is a value of it, and so on down. *)
Theorem sort_dict_sorts_every_level (d : list (string * pyval)) :
  unique_keys (PyDict d) → deep_sorted (PyDict (sort_dict d)).
Proof. intros Hd. by apply (sort_value_deep_sorted (depth (PyDict d)) (PyDict d)). Qed.

Lemma sort_value_idempotent (n : nat) (v : pyval) :
  (depth v ≤ n)%nat → unique_keys v → sort_value (sort_value v) = sort_value v.
Proof.
  revert v. induction n as [|n IH]; intros v Hdepth Hv;
    destruct v as [| | | | | | |d]; try done; [cbn [depth] in Hdepth; lia|].
  cbn [sort_value]. f_equal. apply unique_keys_dict in Hv as [Hnd Hvalues].
  assert (NoDup (merge_sort key_le d).*1) as Hnd' by by rewrite merge_sort_Permutation.
  assert (NoDup (sort_dict d).*1) as Hnd'' by by rewrite sort_dict_keys.
  rewrite (sort_dict_sorted_map (sort_dict d)) by done.
  rewrite (merge_sort_unique (sort_dict d) (sort_dict d)); [|done|done|].
  - rewrite (sort_dict_sorted_map d) by done. rewrite <- list_fmap_compose.
    apply list_fmap_ext. intros i [k v] Hi. simpl. f_equal.
    apply list_elem_of_lookup_2 in Hi. rewrite merge_sort_Permutation in Hi.
    apply IH.
    + pose proof (depth_dict d k v Hi). lia.
    + by apply (proj1 (Forall_forall _ _) Hvalues (k, v)).
  - apply (sorted_by_keys (merge_sort key_le d)); [by rewrite sort_dict_keys|].
    apply Sorted_merge_sort, _.
Qed.

(** Sorting what is sorted changes nothing. *)
Theorem sort_dict_idempotent (d : list (string * pyval)) :
  unique_keys (PyDict d) → sort_dict (sort_dict d) = sort_dict d.
Proof.
  intros Hd.
  pose proof (sort_value_idempotent (depth (PyDict d)) (PyDict d) (le_n _) Hd) as H.
  by injection H.
Qed.

(** The result does not depend on the order the items of the dict come in:
    two dicts with the same items get the same sorted dict. *)
Theorem sort_dict_forgets_order (d d' : list (string * pyval)) :
  NoDup d.*1 → d ≡ₚ d' → sort_dict d = sort_dict d'.
Proof.
  intros Hnd Hp. rewrite !sort_dict_sorted_map; [|by rewrite <- Hp|done].
  f_equal. apply merge_sort_unique; [done| |apply Sorted_merge_sort, _].
  by rewrite merge_sort_Permutation.
Qed.

End SortDictFacts.

(** ** The further properties on the sample data *)

Lemma ascii_pylib_tables : Requirements.ascii_tables Requirements.ascii_pylib.
Proof. by intros c n _. Qed.

Lemma platform_marker_loop_needs_lines_witness :
  (∀ k v, (k, v) ∈ Samples.to_add_markers →
     k ∈ Samples.dependency_lines.*1
     ∧ ∃ s, ExportRequirements.getitem v "markers" = Ok (ExportRequirements.PyStr s))
  ∧ (∃ dl', Requirements.foldM (Requirements.add_platform_marker Requirements.ascii_pylib)
              Samples.dependency_lines Samples.to_add_markers = Ok dl')
  ∧ ("colorama" ∉ Samples.dependency_lines.*1)
  ∧ Requirements.foldM (Requirements.add_platform_marker Requirements.ascii_pylib)
      Samples.dependency_lines
      [("colorama", Samples.on_platform "win32"); ("pyreadline", Samples.on_platform "win32")]
    = Err (Requirements.Raised (ExportRequirements.KeyError "colorama")).
Proof.
  assert (∀ k v, (k, v) ∈ Samples.to_add_markers →
            k ∈ Samples.dependency_lines.*1
            ∧ ∃ s, ExportRequirements.getitem v "markers" = Ok (ExportRequirements.PyStr s))
    as Hall.
  { intros k v [= -> ->]%list_elem_of_singleton. split.
    - apply (bool_decide_unpack _). vm_compute. reflexivity.
    - eexists. reflexivity. }
  assert ("colorama" ∉ Samples.dependency_lines.*1) as Hnot.
  { apply (bool_decide_unpack _). vm_compute. reflexivity. }
  split; [exact Hall|]. split; [|split; [exact Hnot|]].
  - destruct (platform_marker_loop_needs_lines Requirements.ascii_pylib
                Samples.dependency_lines Samples.to_add_markers) as (_ & Hruns & _).
    exact (Hruns Hall).
  - destruct (platform_marker_loop_needs_lines Requirements.ascii_pylib
                Samples.dependency_lines
                [("colorama", Samples.on_platform "win32");
                 ("pyreadline", Samples.on_platform "win32")]) as (_ & _ & Hfails).
    exact (Hfails "colorama" (Samples.on_platform "win32")
             [("pyreadline", Samples.on_platform "win32")] eq_refl Hnot).
Defined.

Lemma marked_dependencies_have_markers_witness :
  Requirements.foldM (Requirements.dep_step Requirements.ascii_pylib (ExportRequirements.PyDict []))
    ([], []) [Samples.humanfriendly]
  = Ok ([("humanfriendly", "==9.2")], [("pyreadline", Samples.on_platform "win32")])
  ∧ ("pyreadline", Samples.on_platform "win32")
    ∈ [("pyreadline", Samples.on_platform "win32")]
  ∧ ∃ m, ExportRequirements.getitem (Samples.on_platform "win32") "markers" = Ok m
         ∧ m ≠ ExportRequirements.PyNone.
Proof.
  assert (Requirements.foldM
            (Requirements.dep_step Requirements.ascii_pylib (ExportRequirements.PyDict []))
            ([], []) [Samples.humanfriendly]
          = Ok ([("humanfriendly", "==9.2")], [("pyreadline", Samples.on_platform "win32")]))
    as Hloop by (vm_compute; reflexivity).
  assert (("pyreadline", Samples.on_platform "win32")
          ∈ [("pyreadline", Samples.on_platform "win32")]) as Hin
    by apply list_elem_of_here.
  split; [exact Hloop|]. split; [exact Hin|].
  exact (marked_dependencies_have_markers Requirements.ascii_pylib
           (ExportRequirements.PyDict []) [Samples.humanfriendly]
           [("humanfriendly", "==9.2")] [("pyreadline", Samples.on_platform "win32")]
           "pyreadline" (Samples.on_platform "win32") Hloop Hin).
Defined.

Lemma generate_lists_main_packages_witness :
  ExportRequirements.getitem Samples.lockfile "package"
  = Ok (ExportRequirements.PyList Samples.packages)
  ∧ Requirements.generate Requirements.ascii_pylib Samples.MESSAGE Fixtures.pyproject
      Samples.lockfile
    = Ok Samples.requirements_txt
  ∧ ∃ (dependency_lines : list (string * string)) (lines : list string),
      Samples.requirements_txt
      = (Samples.MESSAGE +:+ (Requirements.nl +:+ Requirements.nl))
        +:+ (Text.join Requirements.nl lines +:+ Requirements.nl)
      ∧ Sorted String.le lines
      ∧ lines ≡ₚ (λ kv, kv.1 +:+ Text.rstrip Requirements.ascii_space kv.2)
                 <$> dependency_lines
      ∧ NoDup dependency_lines.*1
      ∧ ∀ n, n ∈ dependency_lines.*1
             ↔ ∃ p, p ∈ Samples.packages
                    ∧ ExportRequirements.getitem p "category"
                      = Ok (ExportRequirements.PyStr "main")
                    ∧ ExportRequirements.getitem p "name" = Ok (ExportRequirements.PyStr n).
Proof.
  assert (Requirements.generate Requirements.ascii_pylib Samples.MESSAGE Fixtures.pyproject
            Samples.lockfile
          = Ok Samples.requirements_txt) as Hgen by (vm_compute; reflexivity).
  split; [reflexivity|]. split; [exact Hgen|].
  exact (generate_lists_main_packages Requirements.ascii_pylib Samples.MESSAGE
           Fixtures.pyproject Samples.lockfile Samples.packages Samples.requirements_txt
           eq_refl Hgen).
Defined.



Lemma main_second_run_is_quiet_witness :
  Requirements.main Requirements.ascii_pylib Samples.MESSAGE "requirements.txt"
    Fixtures.pyproject Samples.lockfile None true
  = Ok (Requirements.mkOutcome 1 (Some Samples.requirements_txt)
          ["Updated requirements.txt with new requirements."])
  ∧ Text.contains (String "013"%char EmptyString) Samples.requirements_txt = false
  ∧ Requirements.main Requirements.ascii_pylib Samples.MESSAGE "requirements.txt"
      Fixtures.pyproject Samples.lockfile
      (Some (Text.universal_newlines Samples.requirements_txt)) true
    = Ok (Requirements.mkOutcome 0 None []).
Proof.
  assert (Requirements.main Requirements.ascii_pylib Samples.MESSAGE "requirements.txt"
            Fixtures.pyproject Samples.lockfile None true
          = Ok (Requirements.mkOutcome 1 (Some Samples.requirements_txt)
                  ["Updated requirements.txt with new requirements."])) as Hrun
    by (vm_compute; reflexivity).
  assert (Text.contains (String "013"%char EmptyString) Samples.requirements_txt = false)
    as Hcr by (vm_compute; reflexivity).
  split; [exact Hrun|]. split; [exact Hcr|].
  destruct (main_second_run_is_quiet Requirements.ascii_pylib Samples.MESSAGE
              "requirements.txt" Fixtures.pyproject Samples.lockfile None true
              (Requirements.mkOutcome 1 (Some Samples.requirements_txt)
                 ["Updated requirements.txt with new requirements."])
              Samples.requirements_txt Hrun eq_refl Hcr) as (_ & _ & Hsecond).
  exact Hsecond.
Defined.

Lemma main_reads_relevant_tables_only_witness :
  ExportRequirements.poetry_section Fixtures.pyproject
  = Ok (ExportRequirements.PyDict Fixtures.poetry)
  ∧ ExportRequirements.poetry_section Fixtures.pyproject_renamed
    = Ok (ExportRequirements.PyDict Fixtures.poetry_renamed)
  ∧ ExportRequirements.getitem Samples.lockfile "package"
    = ExportRequirements.getitem Samples.lockfile_reordered "package"
  ∧ ExportRequirements.getitem Samples.lockfile "metadata"
    = ExportRequirements.getitem Samples.lockfile_reordered "metadata"
  ∧ Requirements.main Requirements.ascii_pylib Samples.MESSAGE "requirements.txt"
      Fixtures.pyproject Samples.lockfile None true
    = Requirements.main Requirements.ascii_pylib Samples.MESSAGE "requirements.txt"
        Fixtures.pyproject_renamed Samples.lockfile_reordered None true.
Proof.
  assert (∀ key, key ∈ ExportRequirements._relevant_keys →
            ExportRequirements.dict_lookup Fixtures.poetry key
            = ExportRequirements.dict_lookup Fixtures.poetry_renamed key) as Hagree.
  { intros key Hin. unfold ExportRequirements._relevant_keys in Hin.
    repeat (apply elem_of_cons in Hin as [->|Hin]; [reflexivity|]).
    by apply elem_of_nil in Hin. }
  split; [reflexivity|]. split; [reflexivity|]. split; [reflexivity|].
  split; [reflexivity|].
  exact (main_reads_relevant_tables_only Requirements.ascii_pylib Samples.MESSAGE
           "requirements.txt" Fixtures.pyproject Fixtures.pyproject_renamed
           Samples.lockfile Samples.lockfile_reordered
           Fixtures.poetry Fixtures.poetry_renamed None true
           eq_refl eq_refl Hagree eq_refl (λ _, eq_refl)).
Defined.

Lemma version_clause_keeps_one_minor_digit_witness :
  Forall Ascii7.sign_char [">"; "="]%char
  ∧ Forall Ascii7.digit ["3"]%char
  ∧ Ascii7.digit "1"
  ∧ Requirements.version_clause Requirements.ascii_pylib ">=3.10"
    = Ok (Ascii7.clause "python_version" ">=" "3.1")
  ∧ Requirements.version_clause Requirements.ascii_pylib ">=3.1.2"
    = Ok (Ascii7.clause "python_full_version" ">=" "3.1.2")
  ∧ Requirements.version_clause Requirements.ascii_pylib ">=3.1.*"
    = Ok (Ascii7.clause "python_version" ">=" "3.1").
Proof.
  assert (Forall Ascii7.sign_char [">"; "="]%char) as HS by (repeat constructor).
  assert (Forall Ascii7.digit ["3"]%char) as HM
    by (repeat constructor; unfold Ascii7.digit; simpl; lia).
  assert (Ascii7.digit "1") as Hd by (unfold Ascii7.digit; simpl; lia).
  assert (Ascii7.digit "2") as Hp by (unfold Ascii7.digit; simpl; lia).
  assert (1 ≤ length [">"; "="]%char ≤ 2)%nat as Hlen by (simpl; lia).
  assert (["3"%char] ≠ []) as Hne by discriminate.
  split; [exact HS|]. split; [exact HM|]. split; [exact Hd|]. split; [|split].
  - destruct (version_clause_keeps_one_minor_digit Requirements.ascii_pylib
                [">"; "="]%char ["3"]%char "1" "0"
                ascii_pylib_tables HS Hlen HM Hne Hd) as (H & _ & _).
    exact (H eq_refl).
  - destruct (version_clause_keeps_one_minor_digit Requirements.ascii_pylib
                [">"; "="]%char ["3"]%char "1" ".2"
                ascii_pylib_tables HS Hlen HM Hne Hd) as (_ & H & _).
    exact (H "2"%char EmptyString Hp eq_refl).
  - destruct (version_clause_keeps_one_minor_digit Requirements.ascii_pylib
                [">"; "="]%char ["3"]%char "1" ".*"
                ascii_pylib_tables HS Hlen HM Hne Hd) as (_ & _ & H).
    exact (H EmptyString eq_refl).
Defined.

Lemma python_versions_marker_joins_clauses_witness :
  ">=2.7, !=3.0.*, !=3.10.2" ≠ "*"
  ∧ Requirements.python_versions_marker Requirements.ascii_pylib "==0.4.4"
      (ExportRequirements.PyStr ">=2.7, !=3.0.*, !=3.10.2")
    = Ok ("==0.4.4 ; "
          +:+ Ascii7.clause "python_version" ">=" "2.7" +:+ "and "
          +:+ Ascii7.clause "python_version" "!=" "3.0" +:+ "and "
          +:+ Ascii7.clause "python_version" "!=" "3.1")
  ∧ length (Text.split_comma_space ">=2.7, !=3.0.*, !=3.10.2")
    = S (Text.count_comma_space ">=2.7, !=3.0.*, !=3.10.2").
Proof.
  assert (">=2.7, !=3.0.*, !=3.10.2" ≠ "*") as Hs by discriminate.
  destruct (python_versions_marker_joins_clauses Requirements.ascii_pylib "==0.4.4"
              ">=2.7, !=3.0.*, !=3.10.2" Hs) as [Heq Hlen].
  split; [exact Hs|]. split; [|exact Hlen].
  rewrite Heq. vm_compute. reflexivity.
Defined.

Lemma python_versions_marker_needs_operator_witness :
  ¬ Ascii7.sign_char "^"
  ∧ "^3.8" ≠ "*"
  ∧ Requirements.python_versions_marker Requirements.ascii_pylib "==1.1.1"
      (ExportRequirements.PyStr "^3.8")
    = Err (Requirements.Raised (ExportRequirements.AttributeError "groupdict")).
Proof.
  assert (¬ Ascii7.sign_char "^") as Ha.
  { unfold Ascii7.sign_char. apply (bool_decide_unpack _). vm_compute. reflexivity. }
  assert ("^3.8" ≠ "*") as Hs by discriminate.
  split; [exact Ha|]. split; [exact Hs|].
  exact (python_versions_marker_needs_operator Requirements.ascii_pylib "==1.1.1"
           "^"%char "3.8" Ha Hs).
Defined.

Lemma platform_marker_must_lead_witness :
  Requirements.lookup Samples.dependency_lines "pyreadline" = Some "==2.1"
  ∧ Text.startswith
      ("python_version < " +:+ Requirements.dq +:+ "3.8" +:+ Requirements.dq
       +:+ " and sys_platform == " +:+ Requirements.dq +:+ "win32" +:+ Requirements.dq)
      "sys_platform" = false
  ∧ Requirements.add_platform_marker Requirements.ascii_pylib Samples.dependency_lines
      ("pyreadline",
       ExportRequirements.PyDict
         [("markers",
           ExportRequirements.PyStr
             ("python_version < " +:+ Requirements.dq +:+ "3.8" +:+ Requirements.dq
              +:+ " and sys_platform == " +:+ Requirements.dq +:+ "win32"
              +:+ Requirements.dq))])
    = Ok Samples.dependency_lines.
Proof.
  split; [reflexivity|]. split; [reflexivity|].
  exact (platform_marker_must_lead Requirements.ascii_pylib Samples.dependency_lines
           "pyreadline" "==2.1"
           ("python_version < " +:+ Requirements.dq +:+ "3.8" +:+ Requirements.dq
            +:+ " and sys_platform == " +:+ Requirements.dq +:+ "win32" +:+ Requirements.dq)
           (ExportRequirements.PyDict
              [("markers",
                ExportRequirements.PyStr
                  ("python_version < " +:+ Requirements.dq +:+ "3.8" +:+ Requirements.dq
                   +:+ " and sys_platform == " +:+ Requirements.dq +:+ "win32"
                   +:+ Requirements.dq))])
           eq_refl eq_refl eq_refl).
Defined.

Lemma platform_marker_is_appended_witness :
  Forall Ascii7.word_char ["w"; "i"; "n"; "3"; "2"]%char
  ∧ Requirements.lookup Samples.dependency_lines "pyreadline" = Some "==2.1"
  ∧ Text.contains ";" "==2.1" = false
  ∧ Requirements.add_platform_marker Requirements.ascii_pylib Samples.dependency_lines
      ("pyreadline", Samples.on_platform "win32")
    = Ok (Requirements.setitem Samples.dependency_lines "pyreadline"
            ("==2.1 ; sys_platform == " +:+ Requirements.dq +:+ "win32" +:+ Requirements.dq))
  ∧ Requirements.add_platform_marker Requirements.ascii_pylib Samples.dependency_lines
      ("arrow", Samples.on_platform "win32")
    = Ok (Requirements.setitem Samples.dependency_lines "arrow"
            ("==1.1.1 ; python_version >= " +:+ Requirements.dq +:+ "3.6" +:+ Requirements.dq
             +:+ " and sys_platform == " +:+ Requirements.dq +:+ "win32"
             +:+ Requirements.dq)).
Proof.
  assert (Forall Ascii7.word_char ["w"; "i"; "n"; "3"; "2"]%char) as HW
    by (repeat constructor; unfold Ascii7.word_char; simpl; lia).
  assert (["w"; "i"; "n"; "3"; "2"]%char ≠ []) as Hne by discriminate.
  split; [exact HW|]. split; [reflexivity|]. split; [reflexivity|]. split.
  - exact (platform_marker_is_appended Requirements.ascii_pylib ascii_pylib_tables
             Samples.dependency_lines "pyreadline" "==2.1" " ; "
             (Samples.on_platform "win32") ["w"; "i"; "n"; "3"; "2"]%char EmptyString
             HW Hne eq_refl eq_refl (or_introl (conj eq_refl eq_refl))).
  - exact (platform_marker_is_appended Requirements.ascii_pylib ascii_pylib_tables
             Samples.dependency_lines "arrow"
             ("==1.1.1 ; python_version >= " +:+ Requirements.dq +:+ "3.6"
              +:+ Requirements.dq +:+ " ")
             "and "
             (Samples.on_platform "win32") ["w"; "i"; "n"; "3"; "2"]%char EmptyString
             HW Hne eq_refl eq_refl
             (or_intror (or_introl (conj eq_refl (conj eq_refl eq_refl))))).
Defined.

Lemma sort_dict_keeps_the_mapping_witness :
  NoDup Samples.dump.*1
  ∧ ExportRequirements.dict_lookup (ExportConfig.sort_dict Samples.dump) "bot"
    = Some (ExportRequirements.PyDict
              [("owners",
                ExportRequirements.PyList
                  [ExportRequirements.PyDict [("name", ExportRequirements.PyStr "b")];
                   ExportRequirements.PyDict [("id", ExportRequirements.PyInt 1)]]);
               ("prefix", ExportRequirements.PyStr "?");
               ("token", ExportRequirements.PyNone)]).
Proof.
  assert (NoDup Samples.dump.*1) as Hnd.
  { apply (bool_decide_unpack _). vm_compute. reflexivity. }
  split; [exact Hnd|].
  rewrite (sort_dict_keeps_the_mapping Samples.dump "bot" Hnd). vm_compute. reflexivity.
Defined.

Lemma unique_keys_dump : ExportConfig.unique_keys (ExportRequirements.PyDict Samples.dump).
Proof.
  simpl. repeat split; apply (bool_decide_unpack _); vm_compute; reflexivity.
Qed.

Lemma sort_dict_sorts_every_level_witness :
  ExportConfig.unique_keys (ExportRequirements.PyDict Samples.dump)
  ∧ ExportConfig.deep_sorted
      (ExportRequirements.PyDict (ExportConfig.sort_dict Samples.dump)).
Proof.
  split; [exact unique_keys_dump|].
  exact (sort_dict_sorts_every_level Samples.dump unique_keys_dump).
Defined.

Lemma sort_dict_idempotent_witness :
  ExportConfig.unique_keys (ExportRequirements.PyDict Samples.dump)
  ∧ ExportConfig.sort_dict (ExportConfig.sort_dict Samples.dump)
    = ExportConfig.sort_dict Samples.dump.
Proof.
  split; [exact unique_keys_dump|].
  exact (sort_dict_idempotent Samples.dump unique_keys_dump).
Defined.

Lemma sort_dict_forgets_order_witness :
  NoDup Samples.dump.*1
  ∧ Samples.dump ≡ₚ rev Samples.dump
  ∧ ExportConfig.sort_dict Samples.dump = ExportConfig.sort_dict (rev Samples.dump).
Proof.
  assert (NoDup Samples.dump.*1) as Hnd.
  { apply (bool_decide_unpack _). vm_compute. reflexivity. }
  assert (Samples.dump ≡ₚ rev Samples.dump) as Hp by apply Permutation_rev.
  split; [exact Hnd|]. split; [exact Hp|].
  exact (sort_dict_forgets_order Samples.dump (rev Samples.dump) Hnd Hp).
Defined.
